(** * Smartsheet writer and reader nodes: reconciliation of an input table
      against a remote sheet.

    Shallow embedding of [src/nodes/writer.py] (class [SmartsheetWriterNode])
    and of the credential handling it shares with [src/nodes/reader.py].

    Python values are modelled by the sum type [scalar] (None, bool, int,
    float, str), the values a table cell or a sheet cell can hold.  Python's
    arbitrary-precision [int] is [Z]; a [float] is a binary64 value of
    [spec_float].  Exceptions are explicit: a computation that can raise
    returns a [result].  The remote store is an explicit state threaded
    through [execute], together with the list of the calls made to it.

    What the model takes from the libraries the nodes call:
    - CPython: [==] compares numbers by exact value and a NaN is equal to
      nothing; the conversions between text and numbers are parameters
      ([builtins]);
    - pandas: a missing value is [None] or a NaN (the [NA] marker of the
      nullable column types is not modelled); column titles are unique;
      [loc] returns a row for a label that occurs once and a frame for a
      label that occurs several times, labels being compared with [==] and a
      NaN label finding the NaN labels;
    - smartsheet: every call returns; [delete_rows] removes the rows whose
      ids it is given. *)

From Stdlib Require Import ZArith List String Ascii Bool Lia.
From Stdlib Require Import DecimalString.
From Stdlib Require Import Floats.SpecFloat.
Import ListNotations.

Local Open Scope Z_scope.
Local Open Scope string_scope.

(** ** Python values and the built-ins the nodes call *)

Module Py.

(** The exception classes that the modelled code can meet; all of them are
    subclasses of [Exception]. *)
Inductive exn : Type :=
| TypeError
| ValueError
| OverflowError
| KeyError
| AttributeError
| InvalidParametersError (msg : string).

Inductive result (A : Type) : Type :=
| Ok (a : A)
| Raise (e : exn).
Arguments Ok {A} a.
Arguments Raise {A} e.

Definition bind {A B : Type} (m : result A) (k : A -> result B) : result B :=
  match m with
  | Ok a => k a
  | Raise e => Raise e
  end.

(** [try m except Exception: h] *)
Definition try_except {A : Type} (m : result A) (h : exn -> result A) : result A :=
  match m with
  | Ok a => Ok a
  | Raise e => h e
  end.

Definition is_ok {A : Type} (m : result A) : bool :=
  match m with
  | Ok _ => true
  | Raise _ => false
  end.

(** A cell value: [None], a [bool], an [int], a [float] or a [str]. *)
Inductive scalar : Type :=
| PNone
| PBool (b : bool)
| PInt (z : Z)
| PFloat (f : spec_float)
| PStr (s : string).

(** Conversions between text and numbers are CPython's and are not part of
    the repository: [int(s)] and [float(s)] on a [str] ([None] stands for the
    [ValueError] they raise) and [repr] of a float. *)
Record builtins : Type := {
  int_of_str : string -> option Z;
  float_of_str : string -> option spec_float;
  repr_float : spec_float -> string
}.

(** *** Equality ([==]) of scalars

    Python compares numbers of different types by their exact value
    ([1 == 1.0 == True]); a NaN is equal to nothing.  A number is brought to
    the normal form [m * 2^e] with [m] odd (or zero). *)

Inductive num : Type :=
| NFin (m : Z) (e : Z)
| NInf (neg : bool).

Fixpoint strip2 (m : positive) (e : Z) : positive * Z :=
  match m with
  | xO m' => strip2 m' (e + 1)
  | _ => (m, e)
  end.

Definition dyadic (m e : Z) : num :=
  match m with
  | Z0 => NFin 0 0
  | Zpos p => let '(p', e') := strip2 p e in NFin (Zpos p') e'
  | Zneg p => let '(p', e') := strip2 p e in NFin (Zneg p') e'
  end.

Inductive key : Type :=
| KNone
| KStr (s : string)
| KNum (n : num).

Definition num_eqb (a b : num) : bool :=
  match a, b with
  | NFin m e, NFin m' e' => Z.eqb m m' && Z.eqb e e'
  | NInf s, NInf s' => Bool.eqb s s'
  | _, _ => false
  end.

Definition key_eqb (a b : key) : bool :=
  match a, b with
  | KNone, KNone => true
  | KStr s, KStr s' => String.eqb s s'
  | KNum n, KNum n' => num_eqb n n'
  | _, _ => false
  end.

Definition float_value (f : spec_float) : option num :=
  match f with
  | S754_nan => None
  | S754_zero _ => Some (NFin 0 0)
  | S754_infinity s => Some (NInf s)
  | S754_finite s m e => Some (dyadic (cond_Zopp s (Zpos m)) e)
  end.

(** The value two scalars are compared (and hashed) by; a NaN has none. *)
Definition py_key (v : scalar) : option key :=
  match v with
  | PNone => Some KNone
  | PBool b => Some (KNum (dyadic (if b then 1 else 0) 0))
  | PInt z => Some (KNum (dyadic z 0))
  | PFloat f => option_map KNum (float_value f)
  | PStr s => Some (KStr s)
  end.

(** [x == y] *)
Definition py_eq (x y : scalar) : bool :=
  match py_key x, py_key y with
  | Some a, Some b => key_eqb a b
  | _, _ => false
  end.

(** [x in l] for a list [l] *)
Definition py_in (x : scalar) (l : list scalar) : bool :=
  existsb (fun y => py_eq x y) l.

(** *** [bool], [int], [float], [str] and [pandas.isna] *)

Definition py_bool (v : scalar) : bool :=
  match v with
  | PNone => false
  | PBool b => b
  | PInt z => negb (Z.eqb z 0)
  | PFloat (S754_zero _) => false
  | PFloat _ => true
  | PStr s => negb (String.eqb s "")
  end.

(** [int(x)]: a float is truncated towards zero. *)
Definition py_int (py : builtins) (v : scalar) : result Z :=
  match v with
  | PNone => Raise TypeError
  | PBool b => Ok (if b then 1 else 0)
  | PInt z => Ok z
  | PFloat S754_nan => Raise ValueError
  | PFloat (S754_infinity _) => Raise OverflowError
  | PFloat (S754_zero _) => Ok 0
  | PFloat (S754_finite s m e) => Ok (cond_Zopp s (Z.shiftl (Zpos m) e))
  | PStr s =>
      match int_of_str py s with
      | Some z => Ok z
      | None => Raise ValueError
      end
  end.

(** [float(x)]: an int is rounded to the nearest binary64 value, ties to
    even, and is refused when it is too large. *)
Definition float_of_int (z : Z) : result spec_float :=
  match binary_normalize 53 1024 z 0 false with
  | S754_infinity _ => Raise OverflowError
  | f => Ok f
  end.

Definition py_float (py : builtins) (v : scalar) : result spec_float :=
  match v with
  | PNone => Raise TypeError
  | PBool b => float_of_int (if b then 1 else 0)
  | PInt z => float_of_int z
  | PFloat f => Ok f
  | PStr s =>
      match float_of_str py s with
      | Some f => Ok f
      | None => Raise ValueError
      end
  end.

Definition str_of_int (z : Z) : string := NilZero.string_of_int (Z.to_int z).

Definition py_str (py : builtins) (v : scalar) : string :=
  match v with
  | PNone => "None"
  | PBool true => "True"
  | PBool false => "False"
  | PInt z => str_of_int z
  | PFloat f => repr_float py f
  | PStr s => s
  end.

(** [pandas.isna(x)] on a scalar *)
Definition isna (v : scalar) : bool :=
  match v with
  | PNone => true
  | PFloat S754_nan => true
  | _ => false
  end.

End Py.

Import Py.

Notation "x <- m ;; k" := (bind m (fun x => k))
  (at level 61, m at next level, right associativity).

(** ** Value coercion: [SmartsheetWriterNode.get_smartsheet_cell_value] *)

Section Coercion.

Variable py : builtins.

(** The body of the [try]: both casts, the comparison, and the cast that is
    returned. *)
Definition numeric_value (pd_value : scalar) : result scalar :=
  i <- py_int py pd_value ;;
  fi <- float_of_int i ;;
  fv <- py_float py pd_value ;;
  if py_eq (PFloat fi) (PFloat fv)
  then (i' <- py_int py pd_value ;; Ok (PInt i'))
  else (f' <- py_float py pd_value ;; Ok (PFloat f')).

Definition get_smartsheet_cell_value (pd_value : scalar) (col_type : string)
  : result scalar :=
  if isna pd_value then Ok (PStr "")
  else if String.eqb col_type "CHECKBOX" then Ok (PBool (py_bool pd_value))
  else
    try_except (numeric_value pd_value)
               (fun _ => Ok (PStr (py_str py pd_value))).

(** The coercion as the specification words it: an integer when the integer
    cast round-trips to the floating-point cast, else a float when the value
    converts to a float, else the string form. *)
Definition int_round_trips (v : scalar) : bool :=
  match py_int py v, py_float py v with
  | Ok i, Ok fv =>
      match float_of_int i with
      | Ok fi => py_eq (PFloat fi) (PFloat fv)
      | Raise _ => false
      end
  | _, _ => false
  end.

Definition coerce_spec (v : scalar) (t : string) : scalar :=
  if isna v then PStr ""
  else if String.eqb t "CHECKBOX" then PBool (py_bool v)
  else if int_round_trips v then
    match py_int py v with
    | Ok i => PInt i
    | Raise _ => PStr (py_str py v)
    end
  else
    match py_float py v with
    | Ok f => PFloat f
    | Raise _ => PStr (py_str py v)
    end.

End Coercion.

(** ** Python containers *)

(** A [dict] keeps its keys in insertion order; assigning to a key that is
    already present keeps the key's position (and the key object) and
    replaces the value.  [eqb] is the equality the keys are hashed by. *)
Section Dict.

Context {K V : Type}.
Variable eqb : K -> K -> bool.

Definition dict : Type := list (K * V).

Fixpoint dict_get (d : dict) (k : K) : option V :=
  match d with
  | [] => None
  | (k', v) :: d' => if eqb k' k then Some v else dict_get d' k
  end.

Fixpoint dict_set (d : dict) (k : K) (v : V) : dict :=
  match d with
  | [] => [(k, v)]
  | (k', v') :: d' =>
      if eqb k' k then (k', v) :: d' else (k', v') :: dict_set d' k v
  end.

(** [k in d.keys()] *)
Definition dict_mem (d : dict) (k : K) : bool :=
  existsb (fun kv => eqb (fst kv) k) d.

(** [d[k]] *)
Definition dict_getitem (d : dict) (k : K) : result V :=
  match dict_get d k with
  | Some v => Ok v
  | None => Raise KeyError
  end.

(** [{k: v for k, v in l}] *)
Definition dict_of_list (l : list (K * V)) : dict :=
  fold_left (fun d kv => dict_set d (fst kv) (snd kv)) l [].

Definition keys (d : dict) : list K := map fst d.

End Dict.

Arguments dict K V : clear implicits.

(** [t in l] for a list of titles *)
Definition str_in (t : string) (l : list string) : bool :=
  existsb (String.eqb t) l.

Fixpoint mapM {A B : Type} (f : A -> result B) (l : list A) : result (list B) :=
  match l with
  | [] => Ok []
  | a :: l' => b <- f a ;; bs <- mapM f l' ;; Ok (b :: bs)
  end.

(** A loop that appends at most one element per iteration. *)
Fixpoint filter_mapM {A B : Type} (f : A -> result (option B)) (l : list A)
  : result (list B) :=
  match l with
  | [] => Ok []
  | a :: l' =>
      o <- f a ;;
      bs <- filter_mapM f l' ;;
      Ok (match o with Some b => b :: bs | None => bs end)
  end.

(** [range(0, stop, step)] *)
Definition range_step (stop step : nat) : list nat :=
  map (fun k => (k * step)%nat) (seq 0 ((stop + step - 1) / step)).

(** [[l[i : i + page_size] for i in range(0, len(l), page_size)]] *)
Definition pages {A : Type} (page_size : nat) (l : list A) : list (list A) :=
  map (fun i => firstn page_size (skipn i l)) (range_step (List.length l) page_size).

(** [s.split(sep)] for a one-character separator *)
Fixpoint split (sep : ascii) (s : string) : list string :=
  match s with
  | EmptyString => [EmptyString]
  | String c s' =>
      if Ascii.eqb c sep then EmptyString :: split sep s'
      else match split sep s' with
           | [] => [String c EmptyString]
           | h :: t => String c h :: t
           end
  end.

(** ** The remote sheet (smartsheet.models) *)

Abbreviation RowId := Z.
Abbreviation ColumnId := Z.
Abbreviation ColumnType := string.
Abbreviation ColumnTitle := string.
Abbreviation SyncRef := scalar.

Record Column : Type := {
  col_id : ColumnId;
  col_title : ColumnTitle;
  col_type : ColumnType
}.

Record Cell : Type := {
  column_id : ColumnId;
  value : scalar
}.

(** A row fetched from the sheet. *)
Record Row : Type := {
  row_id : RowId;
  cells : list Cell
}.

Record Sheet : Type := {
  columns : list Column;
  rows : list Row
}.

(** A row built by the writer: [id] is set on an update, [to_bottom] on an
    insertion. *)
Record SentRow : Type := {
  sent_id : option RowId;
  to_bottom : bool;
  sent_cells : list Cell
}.

(** ** The input table (a pandas DataFrame), row by row

    A row shorter than the header holds missing values. *)

Record DataFrame : Type := {
  df_columns : list ColumnTitle;
  df_rows : list (list scalar)
}.

Fixpoint row_value (cols : list ColumnTitle) (vals : list scalar) (t : ColumnTitle)
  : option scalar :=
  match cols with
  | [] => None
  | c :: cs =>
      if String.eqb c t then Some (hd PNone vals) else row_value cs (tl vals) t
  end.

Fixpoint remove_title (cols : list ColumnTitle) (t : ColumnTitle) : list ColumnTitle :=
  match cols with
  | [] => []
  | c :: cs => if String.eqb c t then cs else c :: remove_title cs t
  end.

Fixpoint drop_column (cols : list ColumnTitle) (vals : list scalar) (t : ColumnTitle)
  : list scalar :=
  match cols with
  | [] => vals
  | c :: cs =>
      if String.eqb c t then tl vals
      else hd PNone vals :: drop_column cs (tl vals) t
  end.

(** [[r for r in df[t]]] *)
Definition df_column (df : DataFrame) (t : ColumnTitle) : list scalar :=
  map (fun vals => match row_value (df_columns df) vals t with
                   | Some v => v
                   | None => PNone
                   end) (df_rows df).

(** One row of an indexed frame: its label and the remaining values. *)
Record Series : Type := {
  name : scalar;
  index : list ColumnTitle;
  series_values : list scalar
}.

(** [df.set_index(t)] *)
Definition set_index (df : DataFrame) (t : ColumnTitle) : list Series :=
  map (fun vals =>
         {| name := match row_value (df_columns df) vals t with
                    | Some v => v
                    | None => PNone
                    end;
            index := remove_title (df_columns df) t;
            series_values := drop_column (df_columns df) vals t |})
      (df_rows df).

(** Labels are looked up by [==], and a NaN label finds the NaN labels. *)
Definition isnan (v : scalar) : bool :=
  match v with
  | PFloat S754_nan => true
  | _ => false
  end.

Definition label_eq (x y : scalar) : bool :=
  py_eq x y || (isnan x && isnan y).

(** What [indexed.loc[ref]] returns: the row when the label occurs once, a
    frame of all the rows that carry it when it occurs several times. *)
Inductive loc_result : Type :=
| LocRow (s : Series)
| LocFrame (index : list ColumnTitle) (rs : list Series).

Definition loc (indexed : list Series) (ref : scalar) : result loc_result :=
  match filter (fun s => label_eq (name s) ref) indexed with
  | [] => Raise KeyError
  | [s] => Ok (LocRow s)
  | s :: rs => Ok (LocFrame (index s) (s :: rs))
  end.

(** What [source_row[title]] returns: a scalar of a row, a column of a frame. *)
Inductive pd_object : Type :=
| PdScalar (v : scalar)
| PdSeries (vs : list scalar).

Definition getitem (source_row : loc_result) (t : ColumnTitle) : result pd_object :=
  match source_row with
  | LocRow s =>
      match row_value (index s) (series_values s) t with
      | Some v => Ok (PdScalar v)
      | None => Raise KeyError
      end
  | LocFrame ix rs =>
      if str_in t ix
      then Ok (PdSeries (map (fun s => match row_value (index s) (series_values s) t with
                                       | Some v => v
                                       | None => PNone
                                       end) rs))
      else Raise KeyError
  end.

(** [source_row.name]: a frame has no such attribute. *)
Definition get_name (source_row : loc_result) : result pd_object :=
  match source_row with
  | LocRow s => Ok (PdScalar (name s))
  | LocFrame _ _ => Raise AttributeError
  end.

(** [get_smartsheet_cell_value] applied to what was read from the source row:
    on a column of several values, [if pd.isna(...)] raises [ValueError]. *)
Definition cell_value_of (py : builtins) (x : pd_object) (t : ColumnType)
  : result scalar :=
  match x with
  | PdScalar v => get_smartsheet_cell_value py v t
  | PdSeries _ => Raise ValueError
  end.

(** ** The remote store and the calls made to it

    [remote] is what [Sheets.get_sheet] returns for the sheet of the node
    ([None]: a result that tests false).  [delete_rows] removes the rows whose
    ids it is given; [update_rows] and [add_rows] are recorded with their
    payload (the node never reads the sheet again after them).  The three
    [LOGGER.info] lines that report the plan are recorded as [InfoSync]. *)

Inductive event : Type :=
| GetSheet (sheet_id : string)
| DeleteRows (sheet_id : string) (ids : list RowId)
| UpdateRows (sheet_id : string) (sent : list SentRow)
| AddRows (sheet_id : string) (sent : list SentRow)
| InfoSync (matching : nat) (new : nat) (new_action : string)
           (old : nat) (old_action : string).

Record world : Type := {
  remote : option Sheet;
  trace : list event
}.

Definition M (A : Type) : Type := world -> world * result A.

Definition ret {A : Type} (a : A) : M A := fun w => (w, Ok a).

Definition raise {A : Type} (e : exn) : M A := fun w => (w, Raise e).

Definition lift {A : Type} (m : result A) : M A := fun w => (w, m).

Definition bindM {A B : Type} (m : M A) (k : A -> M B) : M B :=
  fun w =>
    match m w with
    | (w', Ok a) => k a w'
    | (w', Raise e) => (w', Raise e)
    end.

Notation "x <~ m ;; k" := (bindM m (fun x => k))
  (at level 61, m at next level, right associativity).

Definition emit (e : event) : M unit :=
  fun w => ({| remote := remote w; trace := trace w ++ [e] |}, Ok tt).

Definition get_sheet (sheet_id : string) : M (option Sheet) :=
  fun w => ({| remote := remote w; trace := trace w ++ [GetSheet sheet_id] |},
            Ok (remote w)).

Definition without_rows (ids : list RowId) (s : Sheet) : Sheet :=
  {| columns := columns s;
     rows := filter (fun r => negb (existsb (Z.eqb (row_id r)) ids)) (rows s) |}.

Definition delete_rows (sheet_id : string) (ids : list RowId) : M unit :=
  fun w => ({| remote := option_map (without_rows ids) (remote w);
               trace := trace w ++ [DeleteRows sheet_id ids] |}, Ok tt).

Definition update_rows (sheet_id : string) (sent : list SentRow) : M unit :=
  emit (UpdateRows sheet_id sent).

Definition add_rows (sheet_id : string) (sent : list SentRow) : M unit :=
  emit (AddRows sheet_id sent).

Fixpoint forM_ {A : Type} (l : list A) (f : A -> M unit) : M unit :=
  match l with
  | [] => ret tt
  | a :: l' => _ <~ f a ;; forM_ l' f
  end.

(** ** Credentials (the same code in the writer and in the reader) *)

(** [context.get_credentials(TOKEN_NAME).password]; [None] when the flow
    variable is absent ([KeyError]). *)
Record Context : Type := {
  credentials : option string
}.

Definition no_token_message : string :=
  "Either SMARTSHEET_ACCESS_TOKEN was not set in your env or the Credentials Configuration node (which should set the flow variable for this node) did not contain a parameter called SMARTSHEET_ACCESS_TOKEN or the password in there was empty.".

Definition _get_access_token_from_credentials_configuration (context : Context)
  : result string :=
  match credentials context with
  | Some password =>
      if String.eqb password "" then Raise (InvalidParametersError no_token_message)
      else Ok password
  | None => Raise (InvalidParametersError no_token_message)
  end.

Inductive api_base : Type :=
| ApiBase
| EuBase
| GovBase.

(** The first lines of [execute]: the token and the region the client is
    built with.  Returns [(access_region, access_token)]. *)
Definition resolve_access (access_token access_region : string) (context : Context)
  : result (string * string) :=
  if String.eqb access_token "" then
    token <- _get_access_token_from_credentials_configuration context ;;
    match split ":" token with
    | [region; token'] => Ok (region, token')
    | _ => Ok (access_region, token)
    end
  else Ok (access_region, access_token).

Definition select_api_base (access_region : string) : api_base :=
  if String.eqb access_region "eu" then EuBase
  else if String.eqb access_region "gov" then GovBase
  else ApiBase.

(** ** The writer node *)

Record SmartsheetWriterNode : Type := {
  sheetId : string;
  referenceColumn : ColumnTitle;
  clearFirst : bool;
  addMissingRefs : bool;
  access_token : string;
  access_region : string
}.

(** The parameter is commented out in the class and replaced by a constant. *)
Definition removeOldRefs : bool := false.

(** *** The reference index (the loop over [sheet.rows]) *)

Record RefIndex : Type := {
  output_ref_no_match : list SyncRef;
  output_ref_to_be_synced : dict SyncRef RowId;
  output_data_to_be_synced : dict RowId Row
}.

Definition empty_index : RefIndex :=
  {| output_ref_no_match := [];
     output_ref_to_be_synced := [];
     output_data_to_be_synced := [] |}.

Definition value_is_not_none (c : Cell) : bool :=
  match value c with
  | PNone => false
  | _ => true
  end.

Section Index.

Variable input_references : list SyncRef.
Variable ref_column_id : ColumnId.

Definition scan_cell (row : Row) (st : RefIndex) (cell : Cell) : RefIndex :=
  if Z.eqb (column_id cell) ref_column_id then
    if py_in (value cell) input_references then
      {| output_ref_no_match := output_ref_no_match st;
         output_ref_to_be_synced :=
           dict_set py_eq (output_ref_to_be_synced st) (value cell) (row_id row);
         output_data_to_be_synced :=
           dict_set Z.eqb (output_data_to_be_synced st) (row_id row) row |}
    else
      {| output_ref_no_match := output_ref_no_match st ++ [value cell];
         output_ref_to_be_synced := output_ref_to_be_synced st;
         output_data_to_be_synced := output_data_to_be_synced st |}
  else st.

Definition scan_row (st : RefIndex) (row : Row) : RefIndex :=
  fold_left (scan_cell row) (filter value_is_not_none (cells row)) st.

Definition reference_index (sheet_rows : list Row) : RefIndex :=
  fold_left scan_row sheet_rows empty_index.

Definition output_ref_missing (idx : RefIndex) : list SyncRef :=
  filter (fun ref => negb (dict_mem py_eq (output_ref_to_be_synced idx) ref))
         input_references.

End Index.

(** *** The rows sent to the store *)

Section Rows.

Variable py : builtins.
Variable referenceColumn' : ColumnTitle.
Variable input_columns : list ColumnTitle.
Variable indexed_input : list Series.
Variable output_columns : dict ColumnTitle ColumnId.
Variable output_columns_name_by_id : dict ColumnId ColumnTitle.
Variable columns_type : dict ColumnId ColumnType.
Variable data_to_be_synced : dict RowId Row.

(** [set(input_columns) - {self.referenceColumn}] *)
Definition synced_columns : list ColumnTitle :=
  filter (fun c => negb (String.eqb c referenceColumn')) input_columns.

Definition updated_cell_for (source_row : loc_result) (old_cell : Cell)
  : result (option Cell) :=
  title <- dict_getitem Z.eqb output_columns_name_by_id (column_id old_cell) ;;
  if str_in title synced_columns then
    title' <- dict_getitem Z.eqb output_columns_name_by_id (column_id old_cell) ;;
    v <- getitem source_row title' ;;
    ty <- dict_getitem Z.eqb columns_type (column_id old_cell) ;;
    cv <- cell_value_of py v ty ;;
    Ok (Some {| column_id := column_id old_cell; value := cv |})
  else Ok None.

(** The body of [for ref, rowId in output_ref_to_be_synced.items()] *)
Definition updated_row_for (item : SyncRef * RowId) : result SentRow :=
  let '(ref, rowId) := item in
  source_row <- loc indexed_input ref ;;
  target_row <- dict_getitem Z.eqb data_to_be_synced rowId ;;
  updated_cells <- filter_mapM (updated_cell_for source_row) (cells target_row) ;;
  Ok {| sent_id := Some rowId; to_bottom := false; sent_cells := updated_cells |}.

Definition new_cell_for (source_row : loc_result) (item : ColumnTitle * ColumnId)
  : result (option Cell) :=
  let '(column_name, column_id') := item in
  if str_in column_name input_columns then
    v <- (if negb (String.eqb column_name referenceColumn')
          then getitem source_row column_name
          else get_name source_row) ;;
    ty <- dict_getitem Z.eqb columns_type column_id' ;;
    cv <- cell_value_of py v ty ;;
    Ok (Some {| column_id := column_id'; value := cv |})
  else Ok None.

(** The body of [for ref in output_ref_missing] *)
Definition new_row_for (ref : SyncRef) : result SentRow :=
  source_row <- loc indexed_input ref ;;
  new_cells <- filter_mapM (new_cell_for source_row) output_columns ;;
  Ok {| sent_id := None; to_bottom := true; sent_cells := new_cells |}.

End Rows.

(** *** [SmartsheetWriterNode.execute] *)

Definition title_ids (sheet : Sheet) : dict ColumnTitle ColumnId :=
  dict_of_list String.eqb (map (fun c => (col_title c, col_id c)) (columns sheet)).

Definition names_by_id (output_columns : dict ColumnTitle ColumnId)
  : dict ColumnId ColumnTitle :=
  dict_of_list Z.eqb (map (fun kv => (snd kv, fst kv)) output_columns).

Definition types_by_id (sheet : Sheet) : dict ColumnId ColumnType :=
  dict_of_list Z.eqb (map (fun c => (col_id c, col_type c)) (columns sheet)).

Definition page_size : nat := 300.

(** [if self.clearFirst: ...]: delete every row, page by page, and read the
    sheet again. *)
Definition clear_sheet (self : SmartsheetWriterNode) (sheet : Sheet) : M Sheet :=
  if clearFirst self then
    let row_ids := map row_id (rows sheet) in
    _ <~ forM_ (pages page_size row_ids) (delete_rows (sheetId self)) ;;
    again <~ get_sheet (sheetId self) ;;
    match again with
    | Some sheet' => ret sheet'
    | None => raise AttributeError
    end
  else ret sheet.

(** The index of the run and the keys to insert. *)
Definition plan (self : SmartsheetWriterNode) (input_pandas : DataFrame)
  (sheet : Sheet) (ref_column_id : ColumnId) : RefIndex :=
  reference_index (df_column input_pandas (referenceColumn self)) ref_column_id
                  (rows sheet).

Definition missing_refs (self : SmartsheetWriterNode) (input_pandas : DataFrame)
  (sheet : Sheet) (ref_column_id : ColumnId) : list SyncRef :=
  output_ref_missing (df_column input_pandas (referenceColumn self))
                     (plan self input_pandas sheet ref_column_id).

(** The loop [# sync existing rows] *)
Definition updated_rows (py : builtins) (self : SmartsheetWriterNode)
  (input_pandas : DataFrame) (sheet : Sheet) (ref_column_id : ColumnId)
  : result (list SentRow) :=
  let idx := plan self input_pandas sheet ref_column_id in
  mapM (updated_row_for py (referenceColumn self) (df_columns input_pandas)
          (set_index input_pandas (referenceColumn self))
          (names_by_id (title_ids sheet)) (types_by_id sheet)
          (output_data_to_be_synced idx))
       (output_ref_to_be_synced idx).

(** The loop [# add new rows] *)
Definition new_rows (py : builtins) (self : SmartsheetWriterNode)
  (input_pandas : DataFrame) (sheet : Sheet) (ref_column_id : ColumnId)
  : result (list SentRow) :=
  mapM (new_row_for py (referenceColumn self) (df_columns input_pandas)
          (set_index input_pandas (referenceColumn self))
          (title_ids sheet) (types_by_id sheet))
       (missing_refs self input_pandas sheet ref_column_id).

(** From [input_columns = ...] to the end of [execute]. *)
Definition synchronize (py : builtins) (self : SmartsheetWriterNode)
  (input_pandas : DataFrame) (sheet : Sheet) : M unit :=
  let input_columns := df_columns input_pandas in
  let output_columns := title_ids sheet in
  if negb (str_in (referenceColumn self) input_columns) then
    raise (InvalidParametersError "Reference column not found in input columns")
  else if negb (dict_mem String.eqb output_columns (referenceColumn self)) then
    raise (InvalidParametersError "Reference column not found in output columns")
  else
    ref_column_id <~ lift (dict_getitem String.eqb output_columns (referenceColumn self)) ;;
    let idx := plan self input_pandas sheet ref_column_id in
    _ <~ emit (InfoSync (List.length (output_ref_to_be_synced idx))
                        (List.length (missing_refs self input_pandas sheet ref_column_id))
                        (if addMissingRefs self then "CREATE" else "SKIP")
                        (List.length (output_ref_no_match idx))
                        (if removeOldRefs then "DELETE" else "SKIP")) ;;
    updated <~ lift (updated_rows py self input_pandas sheet ref_column_id) ;;
    _ <~ (if (0 <? List.length updated)%nat
          then update_rows (sheetId self) updated
          else ret tt) ;;
    if addMissingRefs self then
      new <~ lift (new_rows py self input_pandas sheet ref_column_id) ;;
      if (0 <? List.length new)%nat
      then add_rows (sheetId self) new
      else ret tt
    else ret tt.

Definition execute (py : builtins) (self : SmartsheetWriterNode)
  (exec_context : Context) (input_pandas : DataFrame) : M unit :=
  access <~ lift (resolve_access (access_token self) (access_region self) exec_context) ;;
  let api_base := select_api_base (fst access) in
  sheet <~ get_sheet (sheetId self) ;;
  match sheet with
  | None => raise (InvalidParametersError "Output sheet not found in Smartsheet")
  | Some sheet =>
      sheet' <~ clear_sheet self sheet ;;
      synchronize py self input_pandas sheet'
  end.

(** ** A reference instance of the text conversions

    Every theorem below holds for arbitrary [builtins].  The examples run
    with this instance, which agrees with CPython on plain ASCII literals:
    [int] reads an optional sign and decimal digits; [float] reads the same
    with an optional fraction (exactly rounded when the digits fit in 53
    bits and the fraction has at most 22 digits), and the words inf and nan;
    [repr] prints infinities, NaN, zeros, and finite values of magnitude in
    [1e-4, 1e16) with at most 15 significant digits. *)

Module Ascii_builtins.

Definition digit_of (c : ascii) : option Z :=
  let n := Z.of_nat (nat_of_ascii c) in
  if ((48 <=? n) && (n <=? 57))%Z then Some (n - 48) else None.

Fixpoint digits_value (acc : Z) (s : string) : option Z :=
  match s with
  | EmptyString => Some acc
  | String c s' =>
      match digit_of c with
      | Some d => digits_value (10 * acc + d) s'
      | None => None
      end
  end.

Definition unsigned_of_str (s : string) : option Z :=
  match s with
  | EmptyString => None
  | _ => digits_value 0 s
  end.

(** The sign and the rest of a literal. *)
Definition signed (s : string) : bool * string :=
  match s with
  | String "-" s' => (true, s')
  | String "+" s' => (false, s')
  | _ => (false, s)
  end.

Definition int_of_str (s : string) : option Z :=
  let '(neg, body) := signed s in
  option_map (cond_Zopp neg) (unsigned_of_str body).

Definition b64 (neg : bool) (n : Z) : spec_float :=
  binary_normalize 53 1024 (cond_Zopp neg n) 0 neg.

Definition float_of_str (s : string) : option spec_float :=
  let '(neg, body) := signed s in
  if String.eqb body "inf" then Some (S754_infinity neg)
  else if String.eqb body "nan" then Some S754_nan
  else
    match split "." body with
    | [whole] => option_map (b64 neg) (unsigned_of_str whole)
    | [whole; frac] =>
        match unsigned_of_str (whole ++ frac) with
        | Some n =>
            Some (SFdiv 53 1024 (b64 neg n)
                        (b64 false (10 ^ Z.of_nat (String.length frac))))
        | None => None
        end
    | _ => None
    end.

Fixpoint zeros (n : nat) : string :=
  match n with
  | O => EmptyString
  | S n' => String "0" (zeros n')
  end.

(** Drops the zeros at the end of a fraction. *)
Fixpoint strip_zeros (s : string) : string :=
  match s with
  | EmptyString => EmptyString
  | String c s' =>
      match strip_zeros s' with
      | EmptyString => if Ascii.eqb c "0" then EmptyString else String c EmptyString
      | t => String c t
      end
  end.

(** The decimal expansion of [m * 2^e], which is finite. *)
Definition expansion (m : positive) (e : Z) : string :=
  match e with
  | Zneg k =>
      let scale := 10 ^ Zpos k in
      let n := Zpos m * 5 ^ Zpos k in
      let frac := str_of_int (n mod scale) in
      let padded := zeros (Pos.to_nat k - String.length frac) ++ frac in
      match strip_zeros padded with
      | EmptyString => str_of_int (n / scale) ++ ".0"
      | t => str_of_int (n / scale) ++ "." ++ t
      end
  | _ => str_of_int (Z.shiftl (Zpos m) e) ++ ".0"
  end.

Definition repr_float (f : spec_float) : string :=
  match f with
  | S754_nan => "nan"
  | S754_infinity false => "inf"
  | S754_infinity true => "-inf"
  | S754_zero false => "0.0"
  | S754_zero true => "-0.0"
  | S754_finite false m e => expansion m e
  | S754_finite true m e => "-" ++ expansion m e
  end.

Definition plain : builtins :=
  {| Py.int_of_str := int_of_str;
     Py.float_of_str := float_of_str;
     Py.repr_float := repr_float |}.

End Ascii_builtins.

(** ** Vocabulary of the properties *)

(** A run that starts with nothing recorded. *)
Definition fresh (s : option Sheet) : world := {| remote := s; trace := [] |}.

Definition is_write (e : event) : bool :=
  match e with
  | UpdateRows _ _ | AddRows _ _ => true
  | _ => false
  end.

Definition is_mutation (e : event) : bool :=
  match e with
  | DeleteRows _ _ | UpdateRows _ _ | AddRows _ _ => true
  | _ => false
  end.

(** The row ids handed to [delete_rows], call by call. *)
Definition deletions (tr : list event) : list (list RowId) :=
  flat_map (fun e => match e with DeleteRows _ ids => [ids] | _ => [] end) tr.

(** The calls of the clearing step. *)
Definition clearing_events (self : SmartsheetWriterNode) (sheet : Sheet) : list event :=
  if clearFirst self
  then map (DeleteRows (sheetId self)) (pages page_size (map row_id (rows sheet)))
       ++ [GetSheet (sheetId self)]
  else [].

(** The sheet the synchronisation works on. *)
Definition cleared (self : SmartsheetWriterNode) (sheet : Sheet) : Sheet :=
  if clearFirst self then {| columns := columns sheet; rows := [] |} else sheet.

(** What the synchronisation of [sheet] may record: the report of the plan,
    the batch of updated rows, the batch of new rows. *)
Definition sent_by_sync (py : builtins) (self : SmartsheetWriterNode)
  (input_pandas : DataFrame) (sheet : Sheet) (e : event) : Prop :=
  exists ref_column_id,
    dict_get String.eqb (title_ids sheet) (referenceColumn self) = Some ref_column_id
    /\ str_in (referenceColumn self) (df_columns input_pandas) = true
    /\ match e with
       | InfoSync matching new new_action old old_action =>
           let idx := plan self input_pandas sheet ref_column_id in
           matching = List.length (output_ref_to_be_synced idx)
           /\ new = List.length (missing_refs self input_pandas sheet ref_column_id)
           /\ new_action = (if addMissingRefs self then "CREATE" else "SKIP")
           /\ old = List.length (output_ref_no_match idx)
           /\ old_action = "SKIP"
       | UpdateRows sheet_id sent =>
           sheet_id = sheetId self /\ sent <> []
           /\ updated_rows py self input_pandas sheet ref_column_id = Ok sent
       | AddRows sheet_id sent =>
           sheet_id = sheetId self /\ sent <> [] /\ addMissingRefs self = true
           /\ new_rows py self input_pandas sheet ref_column_id = Ok sent
       | _ => False
       end.

(** The sheet left by a sequence of deletions. *)
Definition after_deletions (batches : list (list RowId)) (s : option Sheet)
  : option Sheet :=
  fold_left (fun s ids => option_map (without_rows ids) s) batches s.

(** A cell that holds a reference value. *)
Definition is_reference_cell (ref_column_id : ColumnId) (c : Cell) : bool :=
  value_is_not_none c && Z.eqb (column_id c) ref_column_id.

(** The reference values of the remote rows, in sheet order. *)
Definition remote_refs (ref_column_id : ColumnId) (sheet_rows : list Row) : list SyncRef :=
  flat_map (fun r => map value (filter (is_reference_cell ref_column_id) (cells r)))
           sheet_rows.

(** The reference cells of the sheet with their rows, in the order in which
    the loop meets them, and what the loop does with one of them. *)
Definition reference_cells (ref_column_id : ColumnId) (sheet_rows : list Row)
  : list (Row * Cell) :=
  flat_map (fun r => map (pair r) (filter (is_reference_cell ref_column_id) (cells r)))
           sheet_rows.

Definition record_reference (input_references : list SyncRef) (st : RefIndex)
  (rc : Row * Cell) : RefIndex :=
  scan_cell input_references (column_id (snd rc)) (fst rc) st (snd rc).

Definition ref_value (rc : Row * Cell) : SyncRef := value (snd rc).

(** The index built from a list of reference cells. *)
Definition index_of_cells (input_references : list SyncRef) (L : list (Row * Cell))
  : RefIndex :=
  fold_left (record_reference input_references) L empty_index.

Definition has_reference (ref_column_id : ColumnId) (r : Row) : bool :=
  existsb (is_reference_cell ref_column_id) (cells r).

(** The row carries the reference value [k]. *)
Definition carries (ref_column_id : ColumnId) (k : SyncRef) (r : Row) : bool :=
  existsb (fun c => is_reference_cell ref_column_id c && py_eq (value c) k) (cells r).

(** The last row, in sheet order, that carries [k]. *)
Definition last_row_with (ref_column_id : ColumnId) (k : SyncRef) (sheet_rows : list Row)
  : option RowId :=
  option_map row_id (find (carries ref_column_id k) (rev sheet_rows)).

(** No two entries are equal ([==]). *)
Fixpoint py_distinct (l : list scalar) : bool :=
  match l with
  | [] => true
  | x :: l' => negb (py_in x l') && py_distinct l'
  end.

(** No two labels are found by the same lookup. *)
Fixpoint labels_distinct (l : list scalar) : bool :=
  match l with
  | [] => true
  | x :: l' => negb (existsb (label_eq x) l') && labels_distinct l'
  end.

Fixpoint count_char (c : ascii) (s : string) : nat :=
  match s with
  | EmptyString => O
  | String c' s' => (if Ascii.eqb c' c then 1 else 0) + count_char c s'
  end.

(** The text before the first [c], and the text after it. *)
Fixpoint before_first (c : ascii) (s : string) : string :=
  match s with
  | EmptyString => EmptyString
  | String c' s' => if Ascii.eqb c' c then EmptyString else String c' (before_first c s')
  end.

Fixpoint after_first (c : ascii) (s : string) : string :=
  match s with
  | EmptyString => EmptyString
  | String c' s' => if Ascii.eqb c' c then s' else after_first c s'
  end.

(** The remote columns whose title is an input column, as the insertion
    loop meets them. *)
Definition shared_columns (input_columns : list ColumnTitle)
  (output_columns : dict ColumnTitle ColumnId) : list ColumnId :=
  map snd (filter (fun kv => str_in (fst kv) input_columns) output_columns).

(** Every cell of every row belongs to a column of the sheet. *)
Definition known_cells (sheet : Sheet) : Prop :=
  forall r c, In r (rows sheet) -> In c (cells r) ->
              In (column_id c) (map col_id (columns sheet)).

(** ** Example data *)

Module Example.

Definition text : ColumnType := "TEXT_NUMBER".

Definition sheet : Sheet :=
  {| columns := [ {| col_id := 10; col_title := "ref"; col_type := text |};
                  {| col_id := 11; col_title := "x"; col_type := text |} ];
     rows := [ {| row_id := 100;
                  cells := [ {| column_id := 10; value := PStr "A" |};
                             {| column_id := 11; value := PInt 0 |} ] |};
               {| row_id := 101;
                  cells := [ {| column_id := 10; value := PStr "C" |};
                             {| column_id := 11; value := PInt 9 |} ] |} ] |}.

(** The binary64 value 2.5. *)
Definition two_and_a_half : scalar := PFloat (S754_finite false 5629499534213120 (-51)).

(** The binary64 value 1.0. *)
Definition one : scalar := PFloat (S754_finite false 4503599627370496 (-52)).

(** [[{ref: "A", x: 1}, {ref: "B", x: 2.5}]]; the column x holds floats. *)
Definition table : DataFrame :=
  {| df_columns := ["ref"; "x"];
     df_rows := [ [PStr "A"; one]; [PStr "B"; two_and_a_half] ] |}.

Definition node (reference : ColumnTitle) (clear add : bool) : SmartsheetWriterNode :=
  {| sheetId := "42";
     referenceColumn := reference;
     clearFirst := clear;
     addMissingRefs := add;
     access_token := "token";
     access_region := "" |}.

Definition no_credentials : Context := {| credentials := None |}.

(** A sheet in which two rows carry the key "A", and one row has no
    reference value. *)
Definition sheet_with_duplicates : Sheet :=
  {| columns := columns sheet;
     rows := [ {| row_id := 100;
                  cells := [ {| column_id := 10; value := PStr "A" |};
                             {| column_id := 11; value := PInt 0 |} ] |};
               {| row_id := 101;
                  cells := [ {| column_id := 10; value := PNone |};
                             {| column_id := 11; value := PInt 5 |} ] |};
               {| row_id := 102;
                  cells := [ {| column_id := 10; value := PStr "A" |};
                             {| column_id := 11; value := PInt 7 |} ] |} ] |}.

(** A table in which the key "A" occurs twice. *)
Definition table_with_duplicates : DataFrame :=
  {| df_columns := ["ref"; "x"];
     df_rows := [ [PStr "A"; PInt 1]; [PStr "A"; PInt 2] ] |}.

(** A table whose only key is the text 007. *)
Definition table_007 : DataFrame :=
  {| df_columns := ["ref"; "x"];
     df_rows := [ [PStr "007"; PInt 1] ] |}.

End Example.

(** ** [configure] of the writer node *)

Definition configure (self : SmartsheetWriterNode) (configure_context : Context)
  : result unit :=
  if String.eqb (access_token self) "" then
    _ <- _get_access_token_from_credentials_configuration configure_context ;;
    Ok tt
  else Ok tt.

(** The number of rows of the input table that carry the label [k]. *)
Definition label_count (df : DataFrame) (t : ColumnTitle) (k : scalar) : nat :=
  List.length (filter (fun s => label_eq (name s) k) (set_index df t)).

(** The cells of a matched row that the update loop rewrites. *)
Definition is_synced_cell (names : dict ColumnId ColumnTitle) (refcol : ColumnTitle)
  (input_columns : list ColumnTitle) (old_cell : Cell) : bool :=
  match dict_get Z.eqb names (column_id old_cell) with
  | Some title => str_in title (synced_columns refcol input_columns)
  | None => false
  end.

(** ** The reader node ([src/nodes/reader.py])

    The store answers a request for a page with the name, the columns, the
    number of rows of the whole sheet (or report), the rows of that page
    and, for a report, its source sheets.  [astype] is the cast of one column
    of a frame by pandas, a parameter of the model. *)

Module Reader.

Record SmartsheetReaderNode : Type := {
  sheetId : string;
  sheetIsReport : bool;
  access_token : string;
  access_region : string
}.

Definition configure (self : SmartsheetReaderNode) (configure_context : Context)
  : result unit :=
  if String.eqb (access_token self) "" then
    _ <- _get_access_token_from_credentials_configuration configure_context ;;
    Ok tt
  else Ok tt.

Record SourceSheet : Type := {
  source_id : Z;
  source_name : string
}.

(** What the store holds under the id of the node. *)
Record Source : Type := {
  src_name : string;
  src_columns : list Column;
  src_rows : list Row;
  src_source_sheets : list SourceSheet
}.

(** What one request returns. *)
Record Page : Type := {
  page_name : string;
  total_row_count : Z;
  page_columns : list Column;
  page_rows : list Row;
  page_source_sheets : list SourceSheet
}.

Inductive request : Type :=
| GetSheetPage (id : string) (page_size page : nat)
| GetReportPage (id : string) (include : list string) (page_size page : nat).

(** Page [page] (counted from 1) of the source, [page_size] rows a page. *)
Definition fetch (src : Source) (page_size page : nat) : Page :=
  {| page_name := src_name src;
     total_row_count := Z.of_nat (List.length (src_rows src));
     page_columns := src_columns src;
     page_rows := firstn page_size (skipn ((page - 1) * page_size) (src_rows src));
     page_source_sheets := src_source_sheets src |}.

(** The [get_page] closure: the request that is made and its answer.  The
    closure reads [page_size] when it is called. *)
Definition get_page (self : SmartsheetReaderNode) (src : Source) (page_size page : nat)
  : request * Page :=
  (if sheetIsReport self
   then GetReportPage (sheetId self) ["sourceSheets"] page_size page
   else GetSheetPage (sheetId self) page_size page,
   fetch src page_size page).

(** [[x + 1 for x in range(0, int((total_row_count - 1) / page_size) + 1)]]:
    [int] truncates the quotient towards zero (the quotient of two row
    counts is far from the precision at which the float division could
    reach the next integer). *)
Definition page_numbers (total_row_count page_size : Z) : list nat :=
  map S (seq 0 (Z.to_nat (Z.quot (total_row_count - 1) page_size + 1))).

(** A frame before its columns are named: [width] columns numbered from 0. *)
Record Frame : Type := {
  width : nat;
  body : list (list scalar)
}.

Definition pad (w : nat) (fill : scalar) (r : list scalar) : list scalar :=
  (r ++ repeat fill (w - List.length r))%list.

(** [pd.DataFrame(rows, dtype="object")]: as wide as the longest row, the
    shorter rows completed with [None]. *)
Definition frame_of_rows (rs : list (list scalar)) : Frame :=
  let w := fold_right Nat.max O (map (@List.length scalar) rs) in
  {| width := w; body := map (pad w PNone) rs |}.

(** [pd.concat(dfs, ignore_index=True)]: refused on an empty list; the
    columns are the union of the columns of the frames, the rows of a
    narrower frame completed with NaN. *)
Definition concat_frames (dfs : list Frame) : result Frame :=
  match dfs with
  | [] => Raise ValueError
  | _ =>
      let w := fold_right Nat.max O (map width dfs) in
      Ok {| width := w;
            body := flat_map (fun f => map (pad w (PFloat S754_nan)) (body f)) dfs |}
  end.

(** [df.columns = titles]: refused when the number of titles is not the
    number of columns. *)
Definition set_columns (titles : list ColumnTitle) (f : Frame) : result DataFrame :=
  if Nat.eqb (List.length titles) (width f)
  then Ok {| df_columns := titles; df_rows := body f |}
  else Raise ValueError.

Inductive dtype : Type :=
| Float
| Int64
| StringDtype.

Section Types.

(** [df.astype({t: dtype})] *)
Variable astype : DataFrame -> ColumnTitle -> dtype -> result DataFrame.

(** The body of [for t in ...]: the results of the first two casts are not
    kept. *)
Definition infer_column (df : DataFrame) (t : ColumnTitle) : result DataFrame :=
  try_except
    (_ <- astype df t Float ;; Ok df)
    (fun _ =>
       try_except
         (_ <- astype df t Int64 ;; Ok df)
         (fun _ =>
            try_except
              (df' <- astype df t StringDtype ;; Ok df')
              (fun _ => Ok df))).

Fixpoint infer_types (titles : list ColumnTitle) (df : DataFrame) : result DataFrame :=
  match titles with
  | [] => Ok df
  | t :: ts => df' <- infer_column df t ;; infer_types ts df'
  end.

(** The second output table. *)
Definition sources_table (self : SmartsheetReaderNode) (sheet : Page) : result DataFrame :=
  if negb (sheetIsReport self) then Ok {| df_columns := []; df_rows := [] |}
  else
    set_columns ["Sheet ID"; "Sheet Name"]
      (frame_of_rows (map (fun s => [PInt (source_id s); PStr (source_name s)])
                          (page_source_sheets sheet))).

(** What a run leaves: the requests made, the flow variable
    [smartsheet_reader.source_name] if it was set, and the two tables or the
    exception. *)
Record Run : Type := {
  requests : list request;
  source_name_variable : option string;
  outcome : result (DataFrame * DataFrame)
}.

Definition row_values (r : Row) : list scalar := map value (cells r).

Definition execute (self : SmartsheetReaderNode) (exec_context : Context)
  (src : Source) : Run :=
  match resolve_access (access_token self) (access_region self) exec_context with
  | Raise e => {| requests := []; source_name_variable := None; outcome := Raise e |}
  | Ok access =>
      let api_base := select_api_base (fst access) in
      let first := get_page self src 1 1 in
      let total_row_count := total_row_count (snd first) in
      let fetched := map (get_page self src 1000) (page_numbers total_row_count 1000) in
      let dfs := map (fun p => frame_of_rows (map row_values (page_rows (snd p)))) fetched in
      let sheet := last (map snd fetched) (snd first) in
      {| requests := fst first :: map fst fetched;
         source_name_variable := Some (page_name (snd first));
         outcome :=
           df <- concat_frames dfs ;;
           df <- set_columns (map col_title (page_columns sheet)) df ;;
           df <- infer_types (map col_title (page_columns sheet)) df ;;
           df_sheets <- sources_table self sheet ;;
           Ok (df, df_sheets) |}
  end.

End Types.

(** An instance of [astype] for the examples: the column is cast value by
    value, a null stays a null, and the cast of the column fails when the
    cast of one value fails or when the frame has no such column. *)
Definition cast_value (py : builtins) (d : dtype) (v : scalar) : result scalar :=
  if isna v then Ok v
  else match d with
       | Float => f <- py_float py v ;; Ok (PFloat f)
       | Int64 => i <- py_int py v ;; Ok (PInt i)
       | StringDtype => Ok (PStr (py_str py v))
       end.

Fixpoint cast_row (py : builtins) (d : dtype) (t : ColumnTitle)
  (cols : list ColumnTitle) (vals : list scalar) : result (list scalar) :=
  match cols with
  | [] => Ok vals
  | c :: cs =>
      if String.eqb c t
      then v <- cast_value py d (hd PNone vals) ;; Ok (v :: tl vals)
      else vs <- cast_row py d t cs (tl vals) ;; Ok (hd PNone vals :: vs)
  end.

Definition cast_column (py : builtins) (df : DataFrame) (t : ColumnTitle) (d : dtype)
  : result DataFrame :=
  if str_in t (df_columns df) then
    rs <- mapM (cast_row py d t (df_columns df)) (df_rows df) ;;
    Ok {| df_columns := df_columns df; df_rows := rs |}
  else Raise KeyError.

(** Every row of the source has one cell per column. *)
Definition rectangular (src : Source) : Prop :=
  forall r, In r (src_rows src) ->
            List.length (cells r) = List.length (src_columns src).

(** The frame obtained from [df] by casts to strings only. *)
Inductive string_casts (astype : DataFrame -> ColumnTitle -> dtype -> result DataFrame)
  (df : DataFrame) : DataFrame -> Prop :=
| casts_none : string_casts astype df df
| casts_more (d d' : DataFrame) (t : ColumnTitle) :
    string_casts astype df d ->
    is_ok (astype d t Float) = false ->
    is_ok (astype d t Int64) = false ->
    astype d t StringDtype = Ok d' ->
    string_casts astype df d'.

(** Example data: a sheet of two columns and three rows, and a report. *)
Definition example_columns : list Column :=
  [ {| col_id := 10; col_title := "ref"; col_type := "TEXT_NUMBER" |};
    {| col_id := 11; col_title := "x"; col_type := "TEXT_NUMBER" |} ].

Definition example_row (id : RowId) (k : string) (x : Z) : Row :=
  {| row_id := id;
     cells := [ {| column_id := 10; value := PStr k |};
                {| column_id := 11; value := PInt x |} ] |}.

Definition example_sheet : Source :=
  {| src_name := "Stock";
     src_columns := example_columns;
     src_rows := [ example_row 100 "A" 1; example_row 101 "B" 2; example_row 102 "C" 3 ];
     src_source_sheets := [] |}.

Definition example_report : Source :=
  {| src_name := "Summary";
     src_columns := example_columns;
     src_rows := [ example_row 100 "A" 1 ];
     src_source_sheets := [ {| source_id := 7; source_name := "Stock" |} ] |}.

Definition example_empty : Source :=
  {| src_name := "Empty";
     src_columns := example_columns;
     src_rows := [];
     src_source_sheets := [] |}.

Definition example_node (report : bool) : SmartsheetReaderNode :=
  {| sheetId := "42"; sheetIsReport := report;
     access_token := "token"; access_region := "" |}.

End Reader.

(** ** Proof steps *)

(** One step of a computation that is known to end well: the first action of
    the [bind] returned a value. *)
Ltac ok_bind :=
  match goal with
  | |- (bind ?m _ = Ok _ -> _) => destruct m; simpl; [|discriminate]
  end.

(** * Properties *)

Local Open Scope list_scope.

(** ** Equality of scalars *)

Lemma num_eqb_eq (a b : num) : num_eqb a b = true <-> a = b.
Proof.
  destruct a as [m e|s], b as [m' e'|s']; simpl; split; intro H;
    try discriminate; try congruence.
  - apply andb_true_iff in H. destruct H as [H1 H2].
    apply Z.eqb_eq in H1. apply Z.eqb_eq in H2. congruence.
  - inversion H; subst. now rewrite !Z.eqb_refl.
  - apply Bool.eqb_prop in H. congruence.
  - inversion H. apply Bool.eqb_reflx.
Qed.

Lemma key_eqb_eq (a b : key) : key_eqb a b = true <-> a = b.
Proof.
  destruct a, b; simpl; split; intro H; try discriminate; try congruence.
  - apply String.eqb_eq in H. congruence.
  - inversion H. apply String.eqb_refl.
  - apply num_eqb_eq in H. congruence.
  - inversion H; subst. now apply num_eqb_eq.
Qed.

Lemma py_eq_key (x y : scalar) :
  py_eq x y = true <-> exists k, py_key x = Some k /\ py_key y = Some k.
Proof.
  unfold py_eq. split.
  - destruct (py_key x) as [a|], (py_key y) as [b|]; try discriminate.
    intro H. apply key_eqb_eq in H. subst. eauto.
  - intros [k [Hx Hy]]. rewrite Hx, Hy. now apply key_eqb_eq.
Qed.

Lemma py_eq_sym (x y : scalar) : py_eq x y = py_eq y x.
Proof.
  destruct (py_eq x y) eqn:E.
  - symmetry. apply py_eq_key. apply py_eq_key in E.
    destruct E as [k [Hx Hy]]. eauto.
  - destruct (py_eq y x) eqn:E'; [|reflexivity].
    apply py_eq_key in E'. destruct E' as [k [Hy Hx]].
    assert (py_eq x y = true) by (apply py_eq_key; eauto). congruence.
Qed.

Lemma py_eq_trans (x y z : scalar) :
  py_eq x y = true -> py_eq y z = true -> py_eq x z = true.
Proof.
  intros H1 H2. apply py_eq_key in H1. apply py_eq_key in H2.
  destruct H1 as [k [Hx Hy]]. destruct H2 as [k' [Hy' Hz]].
  apply py_eq_key. exists k. split; congruence.
Qed.

(** Equal values are equal to the same things. *)
Lemma py_eq_congr (x y z : scalar) :
  py_eq x y = true -> py_eq x z = py_eq y z.
Proof.
  intro H. destruct (py_eq y z) eqn:E.
  - eapply py_eq_trans; eauto.
  - destruct (py_eq x z) eqn:E'; [|reflexivity].
    rewrite py_eq_sym in H. rewrite (py_eq_trans _ _ _ H E') in E. discriminate.
Qed.

Lemma py_eq_refl_of (x y : scalar) : py_eq x y = true -> py_eq x x = true.
Proof.
  intro H. eapply py_eq_trans; [exact H|]. now rewrite py_eq_sym.
Qed.

Lemma py_in_spec (x : scalar) (l : list scalar) :
  py_in x l = true <-> exists y, In y l /\ py_eq x y = true.
Proof. unfold py_in. apply existsb_exists. Qed.

Lemma py_in_congr (x y : scalar) (l : list scalar) :
  py_eq x y = true -> py_in x l = py_in y l.
Proof.
  intro H. unfold py_in. induction l as [|z l IH]; simpl; [reflexivity|].
  now rewrite IH, (py_eq_congr x y z H).
Qed.

(** ** Value coercion *)

Section Coercion_facts.

Variable py : builtins.

Lemma try_except_ok {A : Type} (m : result A) (h : exn -> A) :
  exists a, try_except m (fun e => Ok (h e)) = Ok a.
Proof. destruct m; simpl; eauto. Qed.

Lemma numeric_value_ok (v : scalar) (i : Z) (fi fv : spec_float) :
  py_int py v = Ok i -> float_of_int i = Ok fi -> py_float py v = Ok fv ->
  numeric_value py v = Ok (if py_eq (PFloat fi) (PFloat fv) then PInt i else PFloat fv).
Proof.
  intros Hi Hfi Hfv. unfold numeric_value. rewrite Hi. simpl. rewrite Hfi. simpl.
  rewrite Hfv. simpl. destruct (py_eq _ _); reflexivity.
Qed.

(** The three ways the numeric attempt can fail. *)
Lemma numeric_value_raises (v : scalar) :
  is_ok (py_int py v) = false
  \/ (exists i, py_int py v = Ok i /\ is_ok (float_of_int i) = false)
  \/ is_ok (py_float py v) = false ->
  is_ok (numeric_value py v) = false.
Proof.
  unfold numeric_value.
  intros [H | [[i [Hi H]] | H]].
  - destruct (py_int py v); [discriminate | reflexivity].
  - rewrite Hi. simpl. destruct (float_of_int i); [discriminate | reflexivity].
  - destruct (py_int py v) as [i|]; simpl; [|reflexivity].
    destruct (float_of_int i); simpl; [|reflexivity].
    destruct (py_float py v); [discriminate | reflexivity].
Qed.

Lemma coercion_fallback (v : scalar) (t : string) :
  isna v = false -> String.eqb t "CHECKBOX" = false ->
  is_ok (numeric_value py v) = false ->
  get_smartsheet_cell_value py v t = Ok (PStr (py_str py v)).
Proof.
  intros Hna Ht H. unfold get_smartsheet_cell_value. rewrite Hna, Ht.
  destruct (numeric_value py v); [discriminate | reflexivity].
Qed.

Lemma coercion_of_null (v : scalar) (t : string) :
  isna v = true -> get_smartsheet_cell_value py v t = Ok (PStr "").
Proof. intro H. unfold get_smartsheet_cell_value. now rewrite H. Qed.

Lemma coercion_total (v : scalar) (t : string) :
  exists r, get_smartsheet_cell_value py v t = Ok r.
Proof.
  unfold get_smartsheet_cell_value.
  destruct (isna v); [eauto|].
  destruct (String.eqb t "CHECKBOX"); [eauto|].
  apply try_except_ok.
Qed.

End Coercion_facts.




(** The same on a text: 2.5 converts to a float, not to an int. *)
Example coercion_of_text_2_5 :
  get_smartsheet_cell_value Ascii_builtins.plain (PStr "2.5") Example.text = Ok (PStr "2.5")
  /\ coerce_spec Ascii_builtins.plain (PStr "2.5") Example.text = Example.two_and_a_half.
Proof. split; reflexivity. Qed.

(** Code and wording agree whenever the integer cast and the cast of that
    integer to a float succeed, and whenever the value does not convert to a
    float. *)
Lemma coercion_agrees_with_spec (py : builtins) (v : scalar) (t : ColumnType) :
  (exists i fi, py_int py v = Ok i /\ float_of_int i = Ok fi)
  \/ is_ok (py_float py v) = false ->
  get_smartsheet_cell_value py v t = Ok (coerce_spec py v t).
Proof.
  intro H. unfold get_smartsheet_cell_value, coerce_spec.
  destruct (isna v); [reflexivity|].
  destruct (String.eqb t "CHECKBOX"); [reflexivity|].
  unfold int_round_trips, numeric_value.
  destruct H as [[i [fi [Hi Hfi]]] | H].
  - rewrite Hi. simpl. rewrite Hfi. simpl.
    destruct (py_float py v) as [fv|e]; simpl; [|reflexivity].
    destruct (py_eq (PFloat fi) (PFloat fv)); reflexivity.
  - destruct (py_float py v) as [fv|e]; [discriminate|].
    destruct (py_int py v) as [i|]; simpl; [|reflexivity].
    destruct (float_of_int i); reflexivity.
Qed.

(** ** Credentials *)

Lemma split_length (c : ascii) (s : string) :
  List.length (split c s) = S (count_char c s).
Proof.
  induction s as [|c' s IH]; simpl; [reflexivity|].
  destruct (Ascii.eqb c' c); simpl; [now rewrite IH|].
  destruct (split c s) as [|h t]; simpl in *; [discriminate | exact IH].
Qed.

Lemma split_no_separator (c : ascii) (s : string) :
  count_char c s = O -> split c s = [s].
Proof.
  induction s as [|c' s IH]; simpl; [reflexivity|].
  destruct (Ascii.eqb c' c); simpl; [discriminate|].
  intro H. now rewrite (IH H).
Qed.

Lemma split_one_separator (c : ascii) (s : string) :
  count_char c s = 1%nat -> split c s = [before_first c s; after_first c s].
Proof.
  induction s as [|c' s IH]; simpl; [discriminate|].
  destruct (Ascii.eqb c' c); simpl; intro H.
  - injection H as H. now rewrite (split_no_separator c s H).
  - now rewrite (IH H).
Qed.

Lemma split_parts (c : ascii) (s region : string) :
  match split c s with
  | [r; t] => (r, t)
  | _ => (region, s)
  end
  = if Nat.eqb (count_char c s) 1 then (before_first c s, after_first c s)
    else (region, s).
Proof.
  destruct (Nat.eqb (count_char c s) 1) eqn:E.
  - apply Nat.eqb_eq in E. now rewrite (split_one_separator c s E).
  - apply Nat.eqb_neq in E. pose proof (split_length c s) as L.
    destruct (split c s) as [|r [|t [|u l]]]; try reflexivity.
    simpl in L. congruence.
Qed.

(** C9, as the code has it -- when the token comes from the credentials
    configuration, it is split only if it holds exactly one colon: the region
    is the text before the colon and the token the text after it.  A
    credential with no colon, or with two or more, is kept whole as the
    token and the region is left as it was. *)
Theorem combined_credential_split (region cred : string) (context : Context) :
  credentials context = Some cred -> cred <> "" ->
  resolve_access "" region context
  = Ok (if Nat.eqb (count_char ":" cred) 1
        then (before_first ":" cred, after_first ":" cred)
        else (region, cred)).
Proof.
  intros Hc Hne. unfold resolve_access, _get_access_token_from_credentials_configuration.
  simpl. rewrite Hc.
  destruct (String.eqb cred "") eqn:E; [apply String.eqb_eq in E; contradiction|].
  simpl. rewrite <- (split_parts ":" cred region).
  destruct (split ":" cred) as [|r [|t [|u l]]]; reflexivity.
Qed.

Lemma combined_credential_split_witness :
  resolve_access "" "" {| credentials := Some "eu:abc" |} = Ok ("eu", "abc").
Proof.
  exact (combined_credential_split "" "eu:abc" {| credentials := Some "eu:abc" |}
           eq_refl ltac:(discriminate)).
Defined.

(** C9, on the credential of the claim: with two colons nothing is split. *)
Lemma credential_with_two_colons_is_not_split :
  resolve_access "" "" {| credentials := Some "eu:abc:def" |} = Ok ("", "eu:abc:def")
  /\ (before_first ":" "eu:abc:def", after_first ":" "eu:abc:def") = ("eu", "abc:def").
Proof. split; reflexivity. Qed.

(** A token found in the environment is never split. *)
Lemma environment_token_is_kept (token region : string) (context : Context) :
  token <> "" -> resolve_access token region context = Ok (region, token).
Proof.
  intro H. unfold resolve_access.
  destruct (String.eqb token "") eqn:E; [apply String.eqb_eq in E; contradiction|].
  reflexivity.
Qed.

(** ** Dictionaries *)

Section Dict_facts.

Context {K V : Type}.
Variable eqb : K -> K -> bool.
Hypothesis eqb_sym : forall a b, eqb a b = eqb b a.
Hypothesis eqb_congr : forall a b c, eqb a b = true -> eqb a c = eqb b c.

Lemma dict_get_set (d : dict K V) (k k' : K) (v : V) :
  dict_get eqb (dict_set eqb d k v) k'
  = if eqb k k' then Some v else dict_get eqb d k'.
Proof.
  induction d as [|[k0 v0] d IH]; simpl; [reflexivity|].
  destruct (eqb k0 k) eqn:E; simpl.
  - rewrite (eqb_congr k0 k k' E). now destruct (eqb k k').
  - rewrite IH. destruct (eqb k0 k') eqn:E0; [|reflexivity].
    destruct (eqb k k') eqn:E1; [|reflexivity].
    rewrite (eqb_congr k0 k' k E0), eqb_sym, E1 in E. discriminate.
Qed.

Lemma dict_mem_get (d : dict K V) (k : K) :
  dict_mem eqb d k = match dict_get eqb d k with Some _ => true | None => false end.
Proof.
  unfold dict_mem. induction d as [|[k0 v0] d IH]; simpl; [reflexivity|].
  destruct (eqb k0 k); simpl; [reflexivity | exact IH].
Qed.

Lemma dict_mem_keys (d : dict K V) (k : K) :
  dict_mem eqb d k = existsb (fun k0 => eqb k0 k) (keys d).
Proof.
  unfold dict_mem, keys. induction d as [|[k0 v0] d IH]; simpl; [reflexivity|].
  now rewrite IH.
Qed.

Lemma dict_mem_set (d : dict K V) (k k' : K) (v : V) :
  dict_mem eqb (dict_set eqb d k v) k' = eqb k k' || dict_mem eqb d k'.
Proof.
  rewrite !dict_mem_get, dict_get_set. now destruct (eqb k k').
Qed.

(** Assigning to a key that is not there appends it. *)
Lemma dict_set_new (d : dict K V) (k : K) (v : V) :
  dict_mem eqb d k = false -> dict_set eqb d k v = d ++ [(k, v)].
Proof.
  unfold dict_mem. induction d as [|[k0 v0] d IH]; simpl; [reflexivity|].
  intro H. apply orb_false_iff in H. destruct H as [H0 H].
  rewrite H0. now rewrite (IH H).
Qed.

(** Assigning never removes or adds a key that was not asked for. *)
Lemma dict_set_in (d : dict K V) (k : K) (v : V) (k1 : K) (v1 : V) :
  In (k1, v1) (dict_set eqb d k v) ->
  In (k1, v1) d \/ (v1 = v /\ (k1 = k \/ (eqb k1 k = true /\ In k1 (keys d)))).
Proof.
  induction d as [|[k0 v0] d IH]; simpl.
  - intros [H|[]]. inversion H; subst. right. auto.
  - destruct (eqb k0 k) eqn:E; simpl.
    + intros [H|H]; [|auto]. inversion H; subst. right. split; auto.
    + intros [H|H]; [auto|]. destruct (IH H) as [H'|[-> [->|[H1 H2]]]]; auto.
      right. split; auto.
Qed.

Lemma dict_of_list_snoc (l : list (K * V)) (k : K) (v : V) :
  dict_of_list eqb (l ++ [(k, v)]) = dict_set eqb (dict_of_list eqb l) k v.
Proof. unfold dict_of_list. now rewrite fold_left_app. Qed.

End Dict_facts.

(** ** The reference index *)

Section Index_facts.

Variable K : list SyncRef.
Variable rid : ColumnId.

Lemma scan_row_flat (st : RefIndex) (r : Row) :
  scan_row K rid st r
  = fold_left (record_reference K)
              (map (pair r) (filter (is_reference_cell rid) (cells r))) st.
Proof.
  unfold scan_row. generalize st. clear st.
  induction (cells r) as [|c cs IH]; intro st; simpl; [reflexivity|].
  unfold is_reference_cell at 1.
  destruct (value_is_not_none c); simpl; [|apply IH].
  destruct (Z.eqb (column_id c) rid) eqn:E; simpl.
  - rewrite IH. f_equal. unfold record_reference, scan_cell. simpl.
    now rewrite E, Z.eqb_refl.
  - rewrite IH. f_equal. unfold scan_cell. now rewrite E.
Qed.

Lemma scan_rows_flat (sheet_rows : list Row) (st : RefIndex) :
  fold_left (scan_row K rid) sheet_rows st
  = fold_left (record_reference K) (reference_cells rid sheet_rows) st.
Proof.
  revert st. induction sheet_rows as [|r rs IH]; intro st; simpl; [reflexivity|].
  now rewrite fold_left_app, IH, scan_row_flat.
Qed.

Lemma reference_index_flat (sheet_rows : list Row) :
  reference_index K rid sheet_rows
  = fold_left (record_reference K) (reference_cells rid sheet_rows) empty_index.
Proof. apply scan_rows_flat. Qed.

Lemma remote_refs_flat (sheet_rows : list Row) :
  remote_refs rid sheet_rows = map ref_value (reference_cells rid sheet_rows).
Proof.
  unfold remote_refs, reference_cells.
  induction sheet_rows as [|r rs IH]; simpl; [reflexivity|].
  rewrite map_app, IH, map_map. reflexivity.
Qed.

Lemma reference_cells_app (l l' : list Row) :
  reference_cells rid (l ++ l') = reference_cells rid l ++ reference_cells rid l'.
Proof. unfold reference_cells. apply flat_map_app. Qed.

Lemma record_reference_eq (st : RefIndex) (rc : Row * Cell) :
  record_reference K st rc
  = if py_in (ref_value rc) K then
      {| output_ref_no_match := output_ref_no_match st;
         output_ref_to_be_synced :=
           dict_set py_eq (output_ref_to_be_synced st) (ref_value rc) (row_id (fst rc));
         output_data_to_be_synced :=
           dict_set Z.eqb (output_data_to_be_synced st) (row_id (fst rc)) (fst rc) |}
    else
      {| output_ref_no_match := output_ref_no_match st ++ [ref_value rc];
         output_ref_to_be_synced := output_ref_to_be_synced st;
         output_data_to_be_synced := output_data_to_be_synced st |}.
Proof. unfold record_reference, scan_cell, ref_value. now rewrite Z.eqb_refl. Qed.

Lemma index_of_snoc (L : list (Row * Cell)) (rc : Row * Cell) :
  index_of_cells K (L ++ [rc]) = record_reference K (index_of_cells K L) rc.
Proof. unfold index_of_cells. now rewrite fold_left_app. Qed.

Lemma no_match_flat (L : list (Row * Cell)) :
  output_ref_no_match (index_of_cells K L)
  = filter (fun v => negb (py_in v K)) (map ref_value L).
Proof.
  induction L as [|rc L IH] using rev_ind; [reflexivity|].
  rewrite index_of_snoc, record_reference_eq, map_app, filter_app. simpl.
  destruct (py_in (ref_value rc) K); simpl; rewrite IH; [now rewrite app_nil_r | reflexivity].
Qed.

Lemma synced_get_flat (L : list (Row * Cell)) (k : SyncRef) :
  dict_get py_eq (output_ref_to_be_synced (index_of_cells K L)) k
  = option_map (fun rc => row_id (fst rc))
      (find (fun rc => py_in (ref_value rc) K && py_eq (ref_value rc) k) (rev L)).
Proof.
  induction L as [|rc L IH] using rev_ind; [reflexivity|].
  rewrite index_of_snoc, record_reference_eq, rev_app_distr. simpl.
  destruct (py_in (ref_value rc) K); simpl.
  - rewrite (dict_get_set py_eq py_eq_sym py_eq_congr).
    destruct (py_eq (ref_value rc) k); [reflexivity | exact IH].
  - exact IH.
Qed.

Lemma synced_keys_flat (L : list (Row * Cell)) (k : SyncRef) :
  In k (keys (output_ref_to_be_synced (index_of_cells K L))) ->
  In k (map ref_value L) /\ py_in k K = true.
Proof.
  induction L as [|rc L IH] using rev_ind; [intros []|].
  rewrite index_of_snoc, record_reference_eq, map_app, in_app_iff. simpl.
  destruct (py_in (ref_value rc) K) eqn:E; simpl.
  - unfold keys. intro H. apply in_map_iff in H. destruct H as [[k1 v1] [Hk H]].
    simpl in Hk. subst k1. apply dict_set_in in H.
    destruct H as [H | [_ [-> | [_ H]]]].
    + destruct IH as [IH1 IH2]; [apply in_map_iff; exists (k, v1); auto|]. auto.
    + auto.
    + destruct (IH H) as [IH1 IH2]. auto.
  - intro H. destruct (IH H). auto.
Qed.

Lemma synced_mem_flat (L : list (Row * Cell)) (k : SyncRef) :
  dict_mem py_eq (output_ref_to_be_synced (index_of_cells K L)) k
  = existsb (fun v => py_in v K && py_eq v k) (map ref_value L).
Proof.
  induction L as [|rc L IH] using rev_ind; [reflexivity|].
  rewrite index_of_snoc, record_reference_eq, map_app, existsb_app. simpl.
  destruct (py_in (ref_value rc) K); simpl.
  - rewrite (dict_mem_set py_eq py_eq_sym py_eq_congr), IH.
    rewrite orb_false_r. apply orb_comm.
  - now rewrite IH, orb_false_r.
Qed.

End Index_facts.

(** ** Lists *)

Section List_facts.

Context {A : Type}.

Lemma find_pointwise (f g : A -> bool) (l : list A) :
  (forall a, In a l -> f a = g a) -> find f l = find g l.
Proof.
  induction l as [|a l IH]; simpl; intro H; [reflexivity|].
  rewrite <- (H a (or_introl eq_refl)).
  destruct (f a); [reflexivity|]. apply IH. intros b Hb. apply H. now right.
Qed.

Lemma find_over_app (f : A -> bool) (l l' : list A) :
  find f (l ++ l') = match find f l with Some x => Some x | None => find f l' end.
Proof.
  induction l as [|a l IH]; simpl; [reflexivity|]. now destruct (f a).
Qed.

Lemma existsb_reversed (f : A -> bool) (l : list A) :
  existsb f (rev l) = existsb f l.
Proof.
  induction l as [|a l IH]; simpl; [reflexivity|].
  rewrite existsb_app, IH. simpl. rewrite orb_false_r. apply orb_comm.
Qed.

Lemma find_existsb (f : A -> bool) (l : list A) :
  existsb f l = match find f l with Some _ => true | None => false end.
Proof.
  induction l as [|a l IH]; simpl; [reflexivity|]. now destruct (f a).
Qed.

Lemma existsb_filter (f g : A -> bool) (l : list A) :
  existsb f (filter g l) = existsb (fun a => g a && f a) l.
Proof.
  induction l as [|a l IH]; simpl; [reflexivity|].
  destruct (g a); simpl; now rewrite IH.
Qed.

Lemma existsb_pointwise (f g : A -> bool) (l : list A) :
  (forall a, In a l -> f a = g a) -> existsb f l = existsb g l.
Proof.
  induction l as [|a l IH]; simpl; intro H; [reflexivity|].
  rewrite (H a (or_introl eq_refl)), IH; [reflexivity|].
  intros b Hb. apply H. now right.
Qed.

End List_facts.

Lemma existsb_mapped {A B : Type} (f : B -> bool) (g : A -> B) (l : list A) :
  existsb f (map g l) = existsb (fun a => f (g a)) l.
Proof. induction l as [|a l IH]; simpl; [reflexivity|]. now rewrite IH. Qed.

(** ** Last write wins, and rows without a reference value *)

Section Matching.

Variable K : list SyncRef.
Variable rid : ColumnId.

Lemma carries_cells (k : SyncRef) (r : Row) :
  carries rid k r
  = existsb (fun rc => py_eq (ref_value rc) k)
            (map (pair r) (filter (is_reference_cell rid) (cells r))).
Proof.
  unfold carries. rewrite existsb_mapped, existsb_filter. reflexivity.
Qed.

(** In the cells of one row, whatever is found belongs to that row. *)
Lemma find_in_row (f : Row * Cell -> bool) (r : Row) (cs : list Cell) :
  option_map fst (find f (rev (map (pair r) cs)))
  = if existsb f (map (pair r) cs) then Some r else None.
Proof.
  rewrite <- (existsb_reversed f (map (pair r) cs)), find_existsb.
  destruct (find f (rev (map (pair r) cs))) as [[r' c]|] eqn:E; simpl; [|reflexivity].
  apply find_some in E. destruct E as [E _]. apply in_rev, in_map_iff in E.
  destruct E as [c' [E _]]. now inversion E.
Qed.

Lemma last_reference_cell (k : SyncRef) (sheet_rows : list Row) :
  option_map (fun rc => row_id (fst rc))
    (find (fun rc => py_eq (ref_value rc) k) (rev (reference_cells rid sheet_rows)))
  = last_row_with rid k sheet_rows.
Proof.
  unfold last_row_with.
  induction sheet_rows as [|r rs IH] using rev_ind; [reflexivity|].
  rewrite reference_cells_app, !rev_app_distr. simpl. rewrite app_nil_r.
  rewrite find_over_app, carries_cells.
  pose proof (find_in_row (fun rc => py_eq (ref_value rc) k) r
                (filter (is_reference_cell rid) (cells r))) as H.
  destruct (find _ (rev (map (pair r) _))) as [[r' c]|]; simpl in *.
  - destruct (existsb _ _); [|discriminate]. now inversion H.
  - destruct (existsb _ _); [discriminate|]. exact IH.
Qed.

Lemma no_reference_cells (r : Row) :
  has_reference rid r = false -> filter (is_reference_cell rid) (cells r) = [].
Proof.
  unfold has_reference. induction (cells r) as [|c cs IH]; simpl; [reflexivity|].
  intro H. apply orb_false_iff in H. destruct H as [H1 H2].
  rewrite H1. now apply IH.
Qed.

Lemma absent_or_null_reference (r : Row) :
  (forall c, In c (cells r) -> column_id c = rid -> value c = PNone) ->
  has_reference rid r = false.
Proof.
  intro H. unfold has_reference.
  destruct (existsb _ _) eqn:E; [|reflexivity].
  apply existsb_exists in E. destruct E as [c [Hc E]].
  unfold is_reference_cell in E. apply andb_true_iff in E. destruct E as [E1 E2].
  apply Z.eqb_eq in E2. unfold value_is_not_none in E1.
  now rewrite (H c Hc E2) in E1.
Qed.

Lemma reference_cells_origin (sheet_rows : list Row) (rc : Row * Cell) :
  In rc (reference_cells rid sheet_rows) ->
  In (fst rc) sheet_rows /\ In (snd rc) (cells (fst rc))
  /\ is_reference_cell rid (snd rc) = true.
Proof.
  unfold reference_cells. intro H. apply in_flat_map in H.
  destruct H as [r [Hr H]]. apply in_map_iff in H. destruct H as [c [<- H]].
  apply filter_In in H. simpl. tauto.
Qed.

Lemma synced_values_flat (L : list (Row * Cell)) (k : SyncRef) (id : RowId) :
  In (k, id) (output_ref_to_be_synced (index_of_cells K L)) ->
  exists rc, In rc L /\ row_id (fst rc) = id /\ py_eq (ref_value rc) k = true.
Proof.
  induction L as [|rc L IH] using rev_ind; [intros []|].
  rewrite index_of_snoc, record_reference_eq.
  destruct (py_in (ref_value rc) K) eqn:E; simpl.
  - intro H. apply dict_set_in in H.
    assert (Hrefl : py_eq (ref_value rc) (ref_value rc) = true).
    { apply py_in_spec in E. destruct E as [y [_ E]]. eapply py_eq_refl_of; eauto. }
    destruct H as [H | [-> [-> | [H1 H2]]]].
    + destruct (IH H) as [rc' [H1 H2]]. exists rc'. rewrite in_app_iff. tauto.
    + exists rc. rewrite in_app_iff. simpl. auto.
    + exists rc. rewrite in_app_iff. simpl. rewrite py_eq_sym. auto.
  - intro H. destruct (IH H) as [rc' [H1 H2]]. exists rc'. rewrite in_app_iff. tauto.
Qed.

End Matching.

(** Last write wins in the index. *)
Lemma last_row_wins
  (input_references : list SyncRef) (ref_column_id : ColumnId)
  (sheet_rows : list Row) (k : SyncRef) :
  py_in k input_references = true ->
  dict_get py_eq
    (output_ref_to_be_synced (reference_index input_references ref_column_id sheet_rows)) k
  = last_row_with ref_column_id k sheet_rows.
Proof.
  intro Hk. rewrite reference_index_flat.
  fold (index_of_cells input_references (reference_cells ref_column_id sheet_rows)).
  rewrite synced_get_flat, <- last_reference_cell. f_equal.
  apply find_pointwise. intros rc _.
  destruct (py_eq (ref_value rc) k) eqn:E; [|apply andb_false_r].
  now rewrite (py_in_congr _ _ input_references E), Hk.
Qed.

(** C10 -- a remote row whose reference cell is absent or null leaves no
    mark on the plan: the index (matched keys, matched rows, no-match list)
    and the missing keys are those of the sheet without the row, whatever
    the input keys; and every matched row id is the id of a row that does
    hold a reference value. *)
Theorem rows_without_reference_are_invisible
  (input_references : list SyncRef) (ref_column_id : ColumnId)
  (before : list Row) (r : Row) (after : list Row) :
  (forall c, In c (cells r) -> column_id c = ref_column_id -> value c = PNone) ->
  reference_index input_references ref_column_id (before ++ r :: after)
  = reference_index input_references ref_column_id (before ++ after)
  /\ output_ref_missing input_references
       (reference_index input_references ref_column_id (before ++ r :: after))
     = output_ref_missing input_references
         (reference_index input_references ref_column_id (before ++ after))
  /\ (forall k id,
        In (k, id) (output_ref_to_be_synced
                      (reference_index input_references ref_column_id (before ++ r :: after))) ->
        exists r', In r' (before ++ after) /\ row_id r' = id
                   /\ has_reference ref_column_id r' = true)
  /\ remote_refs ref_column_id (before ++ r :: after)
     = remote_refs ref_column_id (before ++ after).
Proof.
  intro H. apply absent_or_null_reference in H.
  assert (Hc : reference_cells ref_column_id (before ++ r :: after)
               = reference_cells ref_column_id (before ++ after)).
  { rewrite !reference_cells_app. f_equal. unfold reference_cells at 1. simpl.
    now rewrite (no_reference_cells _ _ H). }
  assert (Hi : reference_index input_references ref_column_id (before ++ r :: after)
               = reference_index input_references ref_column_id (before ++ after)).
  { now rewrite !reference_index_flat, Hc. }
  repeat split.
  - exact Hi.
  - now rewrite Hi.
  - intros k id Hin. rewrite Hi, reference_index_flat in Hin.
    apply synced_values_flat in Hin. destruct Hin as [rc [Hrc [Hid _]]].
    apply reference_cells_origin in Hrc. destruct Hrc as [H1 [H2 H3]].
    exists (fst rc). repeat split; auto.
    unfold has_reference. apply existsb_exists. eauto.
  - now rewrite !remote_refs_flat, Hc.
Qed.

Lemma rows_without_reference_are_invisible_witness :
  reference_index [PStr "A"] 10 (rows Example.sheet_with_duplicates)
  = reference_index [PStr "A"] 10
      [ {| row_id := 100;
           cells := [ {| column_id := 10; value := PStr "A" |};
                      {| column_id := 11; value := PInt 0 |} ] |};
        {| row_id := 102;
           cells := [ {| column_id := 10; value := PStr "A" |};
                      {| column_id := 11; value := PInt 7 |} ] |} ].
Proof.
  refine (proj1 (rows_without_reference_are_invisible [PStr "A"] 10
                   [ {| row_id := 100;
                        cells := [ {| column_id := 10; value := PStr "A" |};
                                   {| column_id := 11; value := PInt 0 |} ] |} ]
                   {| row_id := 101;
                      cells := [ {| column_id := 10; value := PNone |};
                                 {| column_id := 11; value := PInt 5 |} ] |}
                   [ {| row_id := 102;
                        cells := [ {| column_id := 10; value := PStr "A" |};
                                   {| column_id := 11; value := PInt 7 |} ] |} ] _)).
  intros c [<- | [<- | []]] Hc; [reflexivity | discriminate Hc].
Defined.

(** ** Partition of the keys *)

Lemma py_distinct_snoc (l : list scalar) (x : scalar) :
  py_distinct (l ++ [x]) = py_distinct l && negb (existsb (fun y => py_eq y x) l).
Proof.
  induction l as [|a l IH]; simpl; [reflexivity|].
  unfold py_in at 1. rewrite existsb_app, IH. simpl. rewrite orb_false_r.
  unfold py_in.
  destruct (existsb (fun y => py_eq a y) l), (py_eq a x), (py_distinct l),
    (existsb (fun y => py_eq y x) l); reflexivity.
Qed.

Lemma py_distinct_filter (f : scalar -> bool) (l : list scalar) :
  py_distinct l = true -> py_distinct (filter f l) = true.
Proof.
  induction l as [|a l IH]; simpl; [reflexivity|].
  intro H. apply andb_true_iff in H. destruct H as [H1 H2].
  destruct (f a); simpl; [|auto].
  rewrite (IH H2), andb_true_r.
  apply negb_true_iff. apply negb_true_iff in H1.
  destruct (py_in a (filter f l)) eqn:E; [|reflexivity].
  apply py_in_spec in E. destruct E as [y [Hy E]]. apply filter_In in Hy.
  assert (py_in a l = true) by (apply py_in_spec; exists y; tauto). congruence.
Qed.

(** Distinct entries that are equal to something have distinct values. *)
Lemma py_distinct_keys (l : list scalar) :
  py_distinct l = true -> (forall x, In x l -> py_key x <> None) ->
  NoDup (map py_key l).
Proof.
  induction l as [|a l IH]; simpl; intros H Hk; [constructor|].
  apply andb_true_iff in H. destruct H as [H1 H2]. constructor.
  - intro Hin. apply in_map_iff in Hin. destruct Hin as [y [Hy Hin]].
    apply negb_true_iff in H1.
    assert (py_in a l = true); [|congruence].
    apply py_in_spec. exists y. split; [exact Hin|].
    destruct (py_key a) as [ka|] eqn:Ea; [|now elim (Hk a (or_introl eq_refl))].
    apply py_eq_key. exists ka. auto.
  - apply IH; auto.
Qed.

Lemma matches_length_le (A B : list scalar) :
  py_distinct A = true ->
  (List.length (filter (fun a => py_in a B) A)
   <= List.length (filter (fun b => py_in b A) B))%nat.
Proof.
  intro HA.
  rewrite <- (length_map py_key (filter (fun a => py_in a B) A)).
  rewrite <- (length_map py_key (filter (fun b => py_in b A) B)).
  apply NoDup_incl_length.
  - apply py_distinct_keys; [now apply py_distinct_filter|].
    intros x Hx. apply filter_In in Hx. destruct Hx as [_ Hx].
    apply py_in_spec in Hx. destruct Hx as [y [_ Hx]].
    apply py_eq_key in Hx. destruct Hx as [k [Hx _]]. congruence.
  - intros k Hk. apply in_map_iff in Hk. destruct Hk as [x [<- Hx]].
    apply filter_In in Hx. destruct Hx as [HxA Hx].
    apply py_in_spec in Hx. destruct Hx as [y [HyB Hxy]].
    apply in_map_iff. exists y. split.
    + apply py_eq_key in Hxy. destruct Hxy as [k [H1 H2]]. congruence.
    + apply filter_In. split; [exact HyB|].
      apply py_in_spec. exists x. split; [exact HxA | now rewrite py_eq_sym].
Qed.

Lemma matches_length (A B : list scalar) :
  py_distinct A = true -> py_distinct B = true ->
  List.length (filter (fun a => py_in a B) A)
  = List.length (filter (fun b => py_in b A) B).
Proof.
  intros HA HB. pose proof (matches_length_le A B HA).
  pose proof (matches_length_le B A HB). lia.
Qed.

Section Partition.

Variable K : list SyncRef.
Variable rid : ColumnId.

(** An input key is matched exactly when some remote row carries it. *)
Lemma synced_mem_of_input (sheet_rows : list Row) (k : SyncRef) :
  In k K ->
  dict_mem py_eq (output_ref_to_be_synced (reference_index K rid sheet_rows)) k
  = py_in k (remote_refs rid sheet_rows).
Proof.
  intro Hk. rewrite reference_index_flat, remote_refs_flat.
  fold (index_of_cells K (reference_cells rid sheet_rows)).
  rewrite synced_mem_flat. unfold py_in at 2.
  apply existsb_pointwise. intros v _.
  rewrite (py_eq_sym k v).
  destruct (py_eq v k) eqn:E; [|apply andb_false_r].
  rewrite andb_true_r. apply py_in_spec. eauto.
Qed.

Lemma synced_keys_of_distinct (L : list (Row * Cell)) :
  py_distinct (map ref_value L) = true ->
  keys (output_ref_to_be_synced (index_of_cells K L))
  = filter (fun v => py_in v K) (map ref_value L).
Proof.
  induction L as [|rc L IH] using rev_ind; [reflexivity|].
  rewrite map_app. simpl. rewrite py_distinct_snoc. intro H.
  apply andb_true_iff in H. destruct H as [H1 H2]. apply negb_true_iff in H2.
  rewrite index_of_snoc, record_reference_eq, filter_app. simpl.
  destruct (py_in (ref_value rc) K) eqn:E; simpl.
  - rewrite (dict_set_new py_eq).
    + unfold keys in *. rewrite map_app. f_equal. exact (IH H1).
    + rewrite (synced_mem_flat K).
      destruct (existsb (fun v => py_in v K && py_eq v (ref_value rc))
                        (map ref_value L)) eqn:E'; [|reflexivity].
      apply existsb_exists in E'. destruct E' as [v [Hv E']].
      apply andb_true_iff in E'. destruct E' as [_ E'].
      assert (existsb (fun y => py_eq y (ref_value rc)) (map ref_value L) = true)
        by (apply existsb_exists; eauto).
      congruence.
  - rewrite (IH H1). now rewrite app_nil_r.
Qed.

End Partition.

(** C1 -- when no two input keys are equal and no two remote reference
    values are equal: every input key is either matched or missing, never
    both; matched and missing keys are input keys; the matched keys are the
    remote values that are input keys, the orphans are the remote values
    that are not, and the missing keys are the input keys that no remote row
    carries; the numbers of matched and missing keys add up to the number of
    input keys. *)
Theorem partition_completeness
  (input_references : list SyncRef) (ref_column_id : ColumnId) (sheet_rows : list Row) :
  py_distinct input_references = true ->
  py_distinct (remote_refs ref_column_id sheet_rows) = true ->
  let idx := reference_index input_references ref_column_id sheet_rows in
  let matched := keys (output_ref_to_be_synced idx) in
  let missing := output_ref_missing input_references idx in
  let orphans := output_ref_no_match idx in
  let remote_keys := remote_refs ref_column_id sheet_rows in
  (forall k, In k input_references ->
     (dict_mem py_eq (output_ref_to_be_synced idx) k = true /\ ~ In k missing)
     \/ (dict_mem py_eq (output_ref_to_be_synced idx) k = false /\ In k missing))
  /\ (forall k, In k matched -> py_in k input_references = true)
  /\ (forall k, In k missing -> In k input_references)
  /\ matched = filter (fun v => py_in v input_references) remote_keys
  /\ orphans = filter (fun v => negb (py_in v input_references)) remote_keys
  /\ missing = filter (fun k => negb (py_in k remote_keys)) input_references
  /\ (List.length matched + List.length missing = List.length input_references)%nat.
Proof.
  intros HK HR idx matched missing orphans remote_keys.
  assert (Hmissing : missing = filter (fun k => negb (py_in k remote_keys)) input_references).
  { unfold missing, output_ref_missing. apply filter_ext_in. intros k Hk.
    unfold idx, remote_keys. now rewrite synced_mem_of_input. }
  assert (Hmatched : matched = filter (fun v => py_in v input_references) remote_keys).
  { unfold matched, idx, remote_keys. rewrite reference_index_flat, remote_refs_flat.
    apply synced_keys_of_distinct. now rewrite <- remote_refs_flat. }
  repeat split.
  - intros k Hk. unfold missing, output_ref_missing.
    destruct (dict_mem py_eq (output_ref_to_be_synced idx) k) eqn:E; [left | right];
      split; auto.
    + intro H. apply filter_In in H. destruct H as [_ H]. rewrite E in H. discriminate.
    + apply filter_In. rewrite E. auto.
  - intros k Hk. unfold matched, idx in Hk. rewrite reference_index_flat in Hk.
    apply synced_keys_flat in Hk. tauto.
  - intros k Hk. unfold missing, output_ref_missing in Hk. apply filter_In in Hk. tauto.
  - exact Hmatched.
  - unfold orphans, idx, remote_keys. rewrite reference_index_flat, remote_refs_flat.
    apply no_match_flat.
  - exact Hmissing.
  - rewrite Hmatched, Hmissing, <- (matches_length input_references remote_keys HK HR).
    apply filter_length.
Qed.

Lemma partition_completeness_witness :
  keys (output_ref_to_be_synced
          (reference_index (df_column Example.table "ref") 10 (rows Example.sheet)))
  = [PStr "A"]
  /\ output_ref_missing (df_column Example.table "ref")
       (reference_index (df_column Example.table "ref") 10 (rows Example.sheet))
     = [PStr "B"]
  /\ output_ref_no_match
       (reference_index (df_column Example.table "ref") 10 (rows Example.sheet))
     = [PStr "C"].
Proof.
  destruct (partition_completeness (df_column Example.table "ref") 10
              (rows Example.sheet) eq_refl eq_refl) as [_ [_ [_ [H1 [H2 [H3 _]]]]]].
  split; [exact H1 | split; [exact H3 | exact H2]].
Defined.

(** ** Clearing the sheet *)

Lemma pages_cover {A : Type} (n m : nat) (l : list A) :
  (List.length l <= m * n)%nat ->
  List.concat (map (fun k => firstn n (skipn (k * n) l)) (seq 0 m)) = l.
Proof.
  revert l. induction m as [|m IH]; intros l H.
  - simpl in *. destruct l; [reflexivity | simpl in H; lia].
  - rewrite <- cons_seq, <- seq_shift. rewrite map_cons, map_map.
    cbn [List.concat]. change (0 * n)%nat with 0%nat. cbn [skipn].
    transitivity (firstn n l ++ skipn n l); [|apply firstn_skipn].
    f_equal.
    rewrite <- (IH (skipn n l)).
    + f_equal. apply map_ext. intro k. rewrite skipn_skipn. f_equal. f_equal.
      simpl. lia.
    + rewrite length_skipn. simpl in H. lia.
Qed.

Lemma pages_concat {A : Type} (n : nat) (l : list A) :
  (0 < n)%nat -> List.concat (pages n l) = l.
Proof.
  intro Hn. unfold pages, range_step. rewrite map_map. apply pages_cover.
  pose proof (Nat.div_mod_eq (List.length l + n - 1) n) as H.
  pose proof (Nat.mod_upper_bound (List.length l + n - 1) n ltac:(lia)) as H'.
  nia.
Qed.

Lemma forM_delete_rows (sheet_id : string) (batches : list (list RowId)) (w : world) :
  forM_ batches (delete_rows sheet_id) w
  = ({| remote := after_deletions batches (remote w);
        trace := trace w ++ map (DeleteRows sheet_id) batches |}, Ok tt).
Proof.
  revert w. induction batches as [|ids l IH]; intro w; simpl.
  - unfold ret. rewrite app_nil_r. now destruct w.
  - unfold bindM, delete_rows at 1. rewrite IH. simpl.
    now rewrite <- app_assoc.
Qed.

Lemma without_rows_twice (ids ids' : list RowId) (s : Sheet) :
  without_rows ids' (without_rows ids s) = without_rows (ids ++ ids') s.
Proof.
  unfold without_rows. simpl. f_equal.
  induction (rows s) as [|r rs IH]; simpl; [reflexivity|].
  rewrite existsb_app, negb_orb.
  destruct (existsb (Z.eqb (row_id r)) ids); simpl; [exact IH|].
  destruct (existsb (Z.eqb (row_id r)) ids'); simpl; [exact IH | now rewrite IH].
Qed.

Lemma after_deletions_concat (batches : list (list RowId)) (ids : list RowId) (s : Sheet) :
  after_deletions batches (Some (without_rows ids s))
  = Some (without_rows (ids ++ List.concat batches) s).
Proof.
  revert ids. induction batches as [|b l IH]; intro ids; simpl.
  - now rewrite app_nil_r.
  - unfold after_deletions in *. simpl. rewrite without_rows_twice, IH.
    now rewrite <- app_assoc.
Qed.

Lemma without_no_rows (s : Sheet) : without_rows [] s = s.
Proof.
  unfold without_rows. simpl. destruct s as [cs rs]. simpl. f_equal.
  induction rs as [|r rs IH]; simpl; [reflexivity | now rewrite IH].
Qed.

Lemma without_all_rows (s : Sheet) :
  without_rows (map row_id (rows s)) s = {| columns := columns s; rows := [] |}.
Proof.
  unfold without_rows. f_equal.
  assert (H : forall l, incl l (rows s) ->
            filter (fun r => negb (existsb (Z.eqb (row_id r)) (map row_id (rows s)))) l = []).
  { induction l as [|r l IH]; intro H; simpl; [reflexivity|].
    assert (E : existsb (Z.eqb (row_id r)) (map row_id (rows s)) = true).
    { apply existsb_exists. exists (row_id r). split; [|apply Z.eqb_refl].
      apply in_map. apply H. now left. }
    rewrite E. simpl. apply IH. intros x Hx. apply H. now right. }
  apply H. apply incl_refl.
Qed.

(** Deleting the pages of all the row ids leaves no row. *)
Lemma after_clearing (s : Sheet) :
  after_deletions (pages page_size (map row_id (rows s))) (Some s)
  = Some {| columns := columns s; rows := [] |}.
Proof.
  transitivity (after_deletions (pages page_size (map row_id (rows s)))
                               (Some (without_rows [] s)));
    [now rewrite without_no_rows|].
  rewrite after_deletions_concat. simpl.
  rewrite pages_concat by (unfold page_size; lia).
  now rewrite without_all_rows.
Qed.

Lemma clear_sheet_run (self : SmartsheetWriterNode) (sheet : Sheet) (w : world) :
  remote w = Some sheet ->
  clear_sheet self sheet w
  = ({| remote := Some (cleared self sheet);
        trace := trace w ++ clearing_events self sheet |}, Ok (cleared self sheet)).
Proof.
  intro Hw. unfold clear_sheet, cleared, clearing_events.
  destruct (clearFirst self).
  - unfold bindM. rewrite forM_delete_rows. unfold get_sheet. simpl.
    rewrite Hw, after_clearing. unfold ret. now rewrite <- app_assoc.
  - unfold ret. rewrite app_nil_r. destruct w. simpl in *. now subst.
Qed.

Lemma execute_run (py : builtins) (self : SmartsheetWriterNode) (context : Context)
  (input_pandas : DataFrame) (sheet : Sheet) :
  is_ok (resolve_access (access_token self) (access_region self) context) = true ->
  execute py self context input_pandas (fresh (Some sheet))
  = synchronize py self input_pandas (cleared self sheet)
      {| remote := Some (cleared self sheet);
         trace := GetSheet (sheetId self) :: clearing_events self sheet |}.
Proof.
  intro H. unfold execute, bindM at 1, lift.
  destruct (resolve_access _ _ _) as [acc|]; [|discriminate].
  unfold bindM at 1, get_sheet. simpl.
  unfold bindM. rewrite clear_sheet_run by reflexivity. reflexivity.
Qed.

Lemma execute_without_token (py : builtins) (self : SmartsheetWriterNode)
  (context : Context) (input_pandas : DataFrame) (w : world) :
  is_ok (resolve_access (access_token self) (access_region self) context) = false ->
  execute py self context input_pandas w
  = (w, Raise (InvalidParametersError no_token_message)).
Proof.
  unfold execute, bindM, lift, resolve_access,
    _get_access_token_from_credentials_configuration.
  destruct (String.eqb (access_token self) ""); [|discriminate].
  destruct (credentials context) as [p|]; simpl; [|reflexivity].
  destruct (String.eqb p ""); simpl; [reflexivity|].
  destruct (split ":" p) as [|a [|b [|c l]]]; discriminate.
Qed.

(** ** The synchronisation step *)

Lemma string_eqb_congr (a b c : string) :
  String.eqb a b = true -> String.eqb a c = String.eqb b c.
Proof. intro H. apply String.eqb_eq in H. now subst. Qed.

Lemma Z_eqb_congr (a b c : Z) : Z.eqb a b = true -> Z.eqb a c = Z.eqb b c.
Proof. intro H. apply Z.eqb_eq in H. now subst. Qed.

Lemma dict_of_list_mem {K V : Type} (eqb : K -> K -> bool)
  (eqb_sym : forall a b, eqb a b = eqb b a)
  (eqb_congr : forall a b c, eqb a b = true -> eqb a c = eqb b c)
  (l : list (K * V)) (k : K) :
  dict_mem eqb (dict_of_list eqb l) k = existsb (fun kv => eqb (fst kv) k) l.
Proof.
  induction l as [|[k0 v0] l IH] using rev_ind; [reflexivity|].
  rewrite dict_of_list_snoc, (dict_mem_set eqb eqb_sym eqb_congr), existsb_app, IH.
  simpl. rewrite orb_false_r. apply orb_comm.
Qed.

Lemma title_ids_mem (sheet : Sheet) (t : ColumnTitle) :
  dict_mem String.eqb (title_ids sheet) t = str_in t (map col_title (columns sheet)).
Proof.
  unfold title_ids, str_in.
  rewrite (dict_of_list_mem String.eqb String.eqb_sym string_eqb_congr).
  rewrite !existsb_mapped. apply existsb_pointwise. intros c _. simpl.
  apply String.eqb_sym.
Qed.

Section Synchronize_facts.

Variable py : builtins.
Variable self : SmartsheetWriterNode.
Variable input_pandas : DataFrame.
Variable sheet : Sheet.

Lemma synchronize_refused (w : world) :
  str_in (referenceColumn self) (df_columns input_pandas) = false
  \/ str_in (referenceColumn self) (map col_title (columns sheet)) = false ->
  exists msg,
    synchronize py self input_pandas sheet w = (w, Raise (InvalidParametersError msg)).
Proof.
  intro H. unfold synchronize.
  destruct (str_in (referenceColumn self) (df_columns input_pandas)) eqn:E1; simpl.
  - destruct H as [H|H]; [discriminate|].
    rewrite title_ids_mem, H. simpl. unfold raise. eauto.
  - unfold raise. eauto.
Qed.

Lemma synchronize_events (w : world) :
  exists evs,
    fst (synchronize py self input_pandas sheet w)
    = {| remote := remote w; trace := trace w ++ evs |}
    /\ Forall (sent_by_sync py self input_pandas sheet) evs.
Proof.
  unfold synchronize.
  destruct (str_in (referenceColumn self) (df_columns input_pandas)) eqn:E1; simpl;
    [|exists []; rewrite app_nil_r; destruct w; auto].
  destruct (dict_mem String.eqb (title_ids sheet) (referenceColumn self)) eqn:E2; simpl;
    [|exists []; rewrite app_nil_r; destruct w; auto].
  unfold bindM at 1, lift, dict_getitem.
  destruct (dict_get String.eqb (title_ids sheet) (referenceColumn self)) as [rid|] eqn:E3;
    [|exists []; rewrite app_nil_r; destruct w; auto].
  unfold bindM at 1, emit.
  set (info := InfoSync _ _ _ _ _).
  assert (Hinfo : sent_by_sync py self input_pandas sheet info).
  { exists rid. repeat split; auto. }
  unfold bindM at 1.
  destruct (updated_rows py self input_pandas sheet rid) as [updated|e] eqn:E4;
    [|exists [info]; simpl; auto].
  unfold bindM at 1.
  assert (Hup : updated <> [] -> sent_by_sync py self input_pandas sheet
                                   (UpdateRows (sheetId self) updated)).
  { intro Hne. exists rid. repeat split; auto. }
  assert (Hnew : forall new, addMissingRefs self = true -> new <> [] ->
                 new_rows py self input_pandas sheet rid = Ok new ->
                 sent_by_sync py self input_pandas sheet (AddRows (sheetId self) new)).
  { intros new Ha Hne Hn. exists rid. repeat split; auto. }
  destruct updated as [|u us]; simpl.
  - unfold ret at 1. destruct (addMissingRefs self) eqn:E5.
    + unfold bindM.
      destruct (new_rows py self input_pandas sheet rid) as [new|e] eqn:E6;
        [|exists [info]; simpl; auto].
      destruct new as [|n ns]; simpl.
      * exists [info]. simpl. auto.
      * exists [info; AddRows (sheetId self) (n :: ns)]. unfold add_rows, emit. simpl.
        rewrite <- app_assoc. split; [reflexivity|].
        repeat constructor; auto. apply Hnew; auto. discriminate.
    + exists [info]. simpl. auto.
  - unfold update_rows, emit. simpl.
    assert (Hu : sent_by_sync py self input_pandas sheet
                   (UpdateRows (sheetId self) (u :: us)))
      by (apply Hup; discriminate).
    destruct (addMissingRefs self) eqn:E5.
    + unfold bindM.
      destruct (new_rows py self input_pandas sheet rid) as [new|e] eqn:E6;
        [|exists [info; UpdateRows (sheetId self) (u :: us)]; simpl;
          rewrite <- app_assoc; auto].
      destruct new as [|n ns]; simpl.
      * exists [info; UpdateRows (sheetId self) (u :: us)]. simpl.
        rewrite <- app_assoc. auto.
      * exists [info; UpdateRows (sheetId self) (u :: us);
                AddRows (sheetId self) (n :: ns)].
        unfold add_rows, emit. simpl. rewrite <- !app_assoc. split; [reflexivity|].
        repeat constructor; auto. apply Hnew; auto. discriminate.
    + exists [info; UpdateRows (sheetId self) (u :: us)]. simpl.
      rewrite <- app_assoc. auto.
Qed.

(** Once both checks have passed, the plan is reported. *)
Lemma synchronize_reports (w : world) :
  str_in (referenceColumn self) (df_columns input_pandas) = true ->
  str_in (referenceColumn self) (map col_title (columns sheet)) = true ->
  exists ref_column_id,
    dict_get String.eqb (title_ids sheet) (referenceColumn self) = Some ref_column_id
    /\ In (InfoSync
             (List.length (output_ref_to_be_synced
                             (plan self input_pandas sheet ref_column_id)))
             (List.length (missing_refs self input_pandas sheet ref_column_id))
             (if addMissingRefs self then "CREATE" else "SKIP")
             (List.length (output_ref_no_match
                             (plan self input_pandas sheet ref_column_id)))
             "SKIP")
          (trace (fst (synchronize py self input_pandas sheet w))).
Proof.
  intros H1 H2. unfold synchronize. rewrite H1, title_ids_mem, H2. simpl.
  pose proof (title_ids_mem sheet (referenceColumn self)) as M.
  rewrite H2, dict_mem_get in M.
  unfold bindM at 1, lift, dict_getitem.
  destruct (dict_get String.eqb (title_ids sheet) (referenceColumn self)) as [rid|];
    [|discriminate].
  exists rid. split; [reflexivity|].
  unfold bindM at 1, emit. unfold bindM at 1.
  set (info := InfoSync _ _ _ _ _).
  destruct (updated_rows py self input_pandas sheet rid) as [updated|e];
    [|simpl; apply in_or_app; simpl; auto].
  unfold bindM at 1.
  destruct updated as [|u us]; simpl.
  - unfold ret at 1. destruct (addMissingRefs self).
    + unfold bindM.
      destruct (new_rows py self input_pandas sheet rid) as [new|e];
        [|simpl; apply in_or_app; simpl; auto].
      destruct new as [|n ns]; simpl.
      * apply in_or_app; simpl; auto.
      * apply in_or_app. left. apply in_or_app; simpl; auto.
    + simpl. apply in_or_app; simpl; auto.
  - destruct (addMissingRefs self).
    + unfold bindM.
      destruct (new_rows py self input_pandas sheet rid) as [new|e];
        [|simpl; apply in_or_app; left; apply in_or_app; simpl; auto].
      destruct new as [|n ns]; simpl.
      * apply in_or_app; left; apply in_or_app; simpl; auto.
      * apply in_or_app. left. apply in_or_app; left; apply in_or_app; simpl; auto.
    + simpl. apply in_or_app; left; apply in_or_app; simpl; auto.
Qed.

End Synchronize_facts.

(** ** Loops that can raise *)

Lemma mapM_Forall2 {A B : Type} (f : A -> result B) (l : list A) (bs : list B) :
  mapM f l = Ok bs -> Forall2 (fun a b => f a = Ok b) l bs.
Proof.
  revert bs. induction l as [|a l IH]; simpl; intros bs H.
  - inversion H. constructor.
  - destruct (f a) as [b|] eqn:E; simpl in H; [|discriminate].
    destruct (mapM f l) as [bs'|]; simpl in H; [|discriminate].
    inversion H; subst. constructor; auto.
Qed.

Lemma mapM_in {A B : Type} (f : A -> result B) (l : list A) (bs : list B) (b : B) :
  mapM f l = Ok bs -> In b bs -> exists a, In a l /\ f a = Ok b.
Proof.
  intros H Hb. apply mapM_Forall2 in H.
  induction H as [|a b' l bs' Hab H IH]; [destruct Hb|].
  destruct Hb as [-> | Hb]; [exists a; simpl; auto|].
  destruct (IH Hb) as [a' [Ha' E]]. exists a'. simpl. auto.
Qed.

Lemma filter_mapM_in {A B : Type} (f : A -> result (option B)) (l : list A)
  (bs : list B) (b : B) :
  filter_mapM f l = Ok bs -> In b bs -> exists a, In a l /\ f a = Ok (Some b).
Proof.
  revert bs. induction l as [|a l IH]; simpl; intros bs H Hb.
  - inversion H; subst. destruct Hb.
  - destruct (f a) as [o|] eqn:E; simpl in H; [|discriminate].
    destruct (filter_mapM f l) as [bs'|]; simpl in H; [|discriminate].
    inversion H; subst. destruct o as [b'|].
    + destruct Hb as [-> | Hb]; [eauto|].
      destruct (IH bs' eq_refl Hb) as [a' [Ha' E']]. eauto.
    + destruct (IH bs' eq_refl Hb) as [a' [Ha' E']]. eauto.
Qed.

(** When the loop appends exactly on the elements that pass [p]. *)
Lemma filter_mapM_Forall2 {A B : Type} (f : A -> result (option B)) (p : A -> bool)
  (l : list A) (bs : list B) :
  (forall a, p a = false -> f a = Ok None) ->
  (forall a, p a = true -> f a <> Ok None) ->
  filter_mapM f l = Ok bs ->
  Forall2 (fun a b => f a = Ok (Some b)) (filter p l) bs.
Proof.
  intros Hf Ht. revert bs. induction l as [|a l IH]; simpl; intros bs H.
  - inversion H. constructor.
  - destruct (f a) as [o|] eqn:E; simpl in H; [|discriminate].
    destruct (filter_mapM f l) as [bs'|]; simpl in H; [|discriminate].
    inversion H; subst. destruct (p a) eqn:Ep.
    + destruct o as [b|]; [|now elim (Ht a Ep)]. constructor; auto.
    + rewrite (Hf a Ep) in E. inversion E; subst. auto.
Qed.

(** ** Columns *)

Lemma dict_get_in {K V : Type} (eqb : K -> K -> bool) (d : dict K V) (k : K) (v : V) :
  dict_get eqb d k = Some v -> exists k', In (k', v) d /\ eqb k' k = true.
Proof.
  induction d as [|[k0 v0] d IH]; simpl; [discriminate|].
  destruct (eqb k0 k) eqn:E.
  - intro H. inversion H; subst. eauto.
  - intro H. destruct (IH H) as [k' [H1 H2]]. eauto.
Qed.

Lemma dict_of_list_in {K V : Type} (eqb : K -> K -> bool)
  (eqb_eq : forall a b, eqb a b = true -> a = b)
  (l : list (K * V)) (k : K) (v : V) :
  In (k, v) (dict_of_list eqb l) -> In (k, v) l.
Proof.
  induction l as [|[k0 v0] l IH] using rev_ind; [intros []|].
  rewrite dict_of_list_snoc, in_app_iff. intro H. apply dict_set_in in H.
  destruct H as [H | [-> [-> | [H1 H2]]]]; simpl; auto.
  apply eqb_eq in H1. subst. auto.
Qed.

Lemma Z_eqb_eq' (a b : Z) : Z.eqb a b = true -> a = b.
Proof. apply Z.eqb_eq. Qed.

Lemma string_eqb_eq' (a b : string) : String.eqb a b = true -> a = b.
Proof. apply String.eqb_eq. Qed.

(** An entry of the title-to-id dictionary is a column of the sheet. *)
Lemma title_ids_column (sheet : Sheet) (t : ColumnTitle) (i : ColumnId) :
  dict_get String.eqb (title_ids sheet) t = Some i ->
  exists col, In col (columns sheet) /\ col_title col = t /\ col_id col = i.
Proof.
  intro H. apply dict_get_in in H. destruct H as [t' [H E]].
  apply String.eqb_eq in E. subst t'.
  apply (dict_of_list_in String.eqb string_eqb_eq') in H.
  apply in_map_iff in H. destruct H as [col [E H]]. inversion E. eauto.
Qed.

Lemma title_ids_item (sheet : Sheet) (t : ColumnTitle) (i : ColumnId) :
  In (t, i) (title_ids sheet) ->
  exists col, In col (columns sheet) /\ col_title col = t /\ col_id col = i.
Proof.
  intro H. apply (dict_of_list_in String.eqb string_eqb_eq') in H.
  apply in_map_iff in H. destruct H as [col [E H]]. inversion E. eauto.
Qed.

Lemma names_by_id_column (sheet : Sheet) (i : ColumnId) (t : ColumnTitle) :
  dict_get Z.eqb (names_by_id (title_ids sheet)) i = Some t ->
  exists col, In col (columns sheet) /\ col_title col = t /\ col_id col = i.
Proof.
  intro H. apply dict_get_in in H. destruct H as [i' [H E]].
  apply Z.eqb_eq in E. subst i'.
  apply (dict_of_list_in Z.eqb Z_eqb_eq') in H.
  apply in_map_iff in H. destruct H as [[t' i'] [E H]]. simpl in E. inversion E; subst.
  now apply title_ids_item.
Qed.

Lemma NoDup_map_injective {A B : Type} (f : A -> B) (l : list A) (a b : A) :
  NoDup (map f l) -> In a l -> In b l -> f a = f b -> a = b.
Proof.
  induction l as [|x l IH]; simpl; intros H Ha Hb E; [destruct Ha|].
  inversion H as [|? ? Hx Hl]; subst.
  destruct Ha as [-> | Ha], Hb as [-> | Hb]; auto.
  - elim Hx. rewrite E. now apply in_map.
  - elim Hx. rewrite <- E. now apply in_map.
Qed.

Lemma synced_columns_in (refcol t : ColumnTitle) (input_columns : list ColumnTitle) :
  str_in t (synced_columns refcol input_columns) = true ->
  str_in t input_columns = true /\ t <> refcol.
Proof.
  unfold str_in, synced_columns. rewrite existsb_filter. intro H.
  apply existsb_exists in H. destruct H as [c [Hc H]].
  apply andb_true_iff in H. destruct H as [H1 H2].
  apply String.eqb_eq in H2. subst c. split.
  - apply existsb_exists. exists t. split; [exact Hc | apply String.eqb_refl].
  - intro E. subst. now rewrite String.eqb_refl in H1.
Qed.

Lemma cleared_columns (self : SmartsheetWriterNode) (sheet : Sheet) :
  columns (cleared self sheet) = columns sheet.
Proof. unfold cleared. now destruct (clearFirst self). Qed.

Lemma cleared_title_ids (self : SmartsheetWriterNode) (sheet : Sheet) :
  title_ids (cleared self sheet) = title_ids sheet.
Proof. unfold title_ids. now rewrite cleared_columns. Qed.

Lemma cleared_types_by_id (self : SmartsheetWriterNode) (sheet : Sheet) :
  types_by_id (cleared self sheet) = types_by_id sheet.
Proof. unfold types_by_id. now rewrite cleared_columns. Qed.

(** ** Whole runs *)

Lemma execute_events (py : builtins) (self : SmartsheetWriterNode) (context : Context)
  (input_pandas : DataFrame) (sheet : Sheet) :
  is_ok (resolve_access (access_token self) (access_region self) context) = true ->
  exists evs,
    trace (fst (execute py self context input_pandas (fresh (Some sheet))))
    = GetSheet (sheetId self) :: clearing_events self sheet ++ evs
    /\ Forall (sent_by_sync py self input_pandas (cleared self sheet)) evs.
Proof.
  intro H. rewrite (execute_run py self context input_pandas sheet H).
  destruct (synchronize_events py self input_pandas (cleared self sheet)
              {| remote := Some (cleared self sheet);
                 trace := GetSheet (sheetId self) :: clearing_events self sheet |})
    as [evs [E F]].
  exists evs. rewrite E. simpl. auto.
Qed.

Lemma execute_no_sheet (py : builtins) (self : SmartsheetWriterNode) (context : Context)
  (input_pandas : DataFrame) :
  is_ok (resolve_access (access_token self) (access_region self) context) = true ->
  trace (fst (execute py self context input_pandas (fresh None)))
  = [GetSheet (sheetId self)].
Proof.
  intro H. unfold execute, bindM at 1, lift.
  destruct (resolve_access _ _ _); [reflexivity | discriminate].
Qed.

(** An event of a run is the first read, an event of the clearing, or an
    event of the synchronisation. *)
Lemma execute_event_cases (py : builtins) (self : SmartsheetWriterNode)
  (context : Context) (input_pandas : DataFrame) (sheet : Sheet) (e : event) :
  In e (trace (fst (execute py self context input_pandas (fresh (Some sheet))))) ->
  e = GetSheet (sheetId self)
  \/ In e (clearing_events self sheet)
  \/ sent_by_sync py self input_pandas (cleared self sheet) e.
Proof.
  destruct (is_ok (resolve_access (access_token self) (access_region self) context)) eqn:H.
  - destruct (execute_events py self context input_pandas sheet H) as [evs [E F]].
    rewrite E. simpl. rewrite in_app_iff. intros [<- | [Hin | Hin]]; auto.
    right. right. rewrite Forall_forall in F. auto.
  - rewrite execute_without_token by exact H. intros [].
Qed.

Lemma clearing_events_cases (self : SmartsheetWriterNode) (sheet : Sheet) (e : event) :
  In e (clearing_events self sheet) ->
  clearFirst self = true
  /\ (e = GetSheet (sheetId self) \/ exists ids, e = DeleteRows (sheetId self) ids).
Proof.
  unfold clearing_events. destruct (clearFirst self); [|intros []].
  rewrite in_app_iff. intros [H | [<- | []]]; split; auto.
  apply in_map_iff in H. destruct H as [ids [<- _]]. eauto.
Qed.

(** The updates and the new rows of a run are those of the synchronisation. *)
Lemma sent_in_run (py : builtins) (self : SmartsheetWriterNode)
  (context : Context) (input_pandas : DataFrame) (sheet : Sheet) (e : event) :
  In e (trace (fst (execute py self context input_pandas (fresh (Some sheet))))) ->
  is_write e = true ->
  sent_by_sync py self input_pandas (cleared self sheet) e.
Proof.
  intros Hin Hw. apply execute_event_cases in Hin.
  destruct Hin as [-> | [Hin | Hin]]; [discriminate| |exact Hin].
  apply clearing_events_cases in Hin.
  destruct Hin as [_ [-> | [ids ->]]]; discriminate.
Qed.

Lemma deletions_app (l l' : list event) :
  deletions (l ++ l') = deletions l ++ deletions l'.
Proof. apply flat_map_app. Qed.

Lemma deletions_of_clearing (self : SmartsheetWriterNode) (sheet : Sheet) :
  deletions (clearing_events self sheet)
  = if clearFirst self then pages page_size (map row_id (rows sheet)) else [].
Proof.
  unfold clearing_events. destruct (clearFirst self); [|reflexivity].
  rewrite deletions_app. simpl. rewrite app_nil_r.
  induction (pages page_size (map row_id (rows sheet))) as [|b l IH]; simpl;
    [reflexivity | now rewrite IH].
Qed.

Lemma deletions_of_sync (py : builtins) (self : SmartsheetWriterNode)
  (input_pandas : DataFrame) (sheet : Sheet) (evs : list event) :
  Forall (sent_by_sync py self input_pandas sheet) evs -> deletions evs = [].
Proof.
  induction 1 as [|e evs He _ IH]; [reflexivity|]. simpl. rewrite IH.
  destruct e; try reflexivity. destruct He as [rid [_ [_ []]]].
Qed.

(** C8 -- the calls to [delete_rows] of a run are exactly those of the
    clearing step: none when the clear-sheet-first flag is unset, and, when
    it is set, the pages of all the row ids of the sheet, orphan or not.  In
    every run that passes the checks on the reference column the orphans are
    computed and their number is reported, always with the action SKIP; the
    switch that would delete them is the constant [False]. *)
Theorem orphans_are_never_deleted (py : builtins) (self : SmartsheetWriterNode)
  (context : Context) (input_pandas : DataFrame) (s : option Sheet) :
  let tr := trace (fst (execute py self context input_pandas (fresh s))) in
  deletions tr
  = match s with
    | Some sheet =>
        if clearFirst self
           && is_ok (resolve_access (access_token self) (access_region self) context)
        then pages page_size (map row_id (rows sheet))
        else []
    | None => []
    end
  /\ (forall sheet, s = Some sheet -> deletions tr <> [] ->
        clearFirst self = true
        /\ List.concat (deletions tr) = map row_id (rows sheet))
  /\ (forall matching new new_action old old_action sheet,
        s = Some sheet ->
        In (InfoSync matching new new_action old old_action) tr ->
        old_action = "SKIP"
        /\ exists ref_column_id,
             dict_get String.eqb (title_ids sheet) (referenceColumn self)
             = Some ref_column_id
             /\ old = List.length
                        (output_ref_no_match
                           (plan self input_pandas (cleared self sheet) ref_column_id)))
  /\ (forall sheet,
        s = Some sheet ->
        is_ok (resolve_access (access_token self) (access_region self) context) = true ->
        str_in (referenceColumn self) (df_columns input_pandas) = true ->
        str_in (referenceColumn self) (map col_title (columns sheet)) = true ->
        exists matching new new_action ref_column_id,
          dict_get String.eqb (title_ids sheet) (referenceColumn self)
          = Some ref_column_id
          /\ In (InfoSync matching new new_action
                   (List.length
                      (output_ref_no_match
                         (plan self input_pandas (cleared self sheet) ref_column_id)))
                   "SKIP") tr)
  /\ removeOldRefs = false.
Proof.
  intro tr.
  assert (D : deletions tr
              = match s with
                | Some sheet =>
                    if clearFirst self
                       && is_ok (resolve_access (access_token self) (access_region self)
                                   context)
                    then pages page_size (map row_id (rows sheet))
                    else []
                | None => []
                end).
  { unfold tr.
    destruct (is_ok (resolve_access (access_token self) (access_region self) context))
      eqn:H.
    - destruct s as [sheet|].
      + destruct (execute_events py self context input_pandas sheet H) as [evs [E F]].
        rewrite E. simpl. rewrite deletions_app, deletions_of_clearing.
        rewrite (deletions_of_sync _ _ _ _ _ F), app_nil_r, andb_true_r. reflexivity.
      + now rewrite execute_no_sheet.
    - rewrite execute_without_token by exact H. simpl. rewrite andb_false_r.
      now destruct s. }
  split; [exact D|]. split; [|split; [|split; [|reflexivity]]].
  - intros sheet -> Hne. rewrite D in *.
    destruct (clearFirst self); simpl in *; [|now elim Hne].
    destruct (is_ok _); [|now elim Hne].
    split; [reflexivity|]. apply pages_concat. unfold page_size. lia.
  - intros matching new new_action old old_action sheet -> Hin.
    unfold tr in Hin. apply execute_event_cases in Hin.
    destruct Hin as [Hin | [Hin | [rid [Hrid [_ Hin]]]]]; [discriminate| |].
    + apply clearing_events_cases in Hin.
      destruct Hin as [_ [Hin | [ids Hin]]]; discriminate.
    + simpl in Hin. rewrite cleared_title_ids in Hrid.
      split; [tauto|]. exists rid. tauto.
  - intros sheet -> Hr H1 H2. unfold tr.
    rewrite (execute_run py self context input_pandas sheet Hr).
    rewrite <- (cleared_columns self sheet) in H2.
    destruct (synchronize_reports py self input_pandas (cleared self sheet)
                {| remote := Some (cleared self sheet);
                   trace := GetSheet (sheetId self) :: clearing_events self sheet |}
                H1 H2) as [rid [Hrid Hin]].
    rewrite cleared_title_ids in Hrid. eauto 8.
Qed.

(** C2, as the code has it -- when the reference column is not an input
    column or not a column of the sheet, the run ends with
    [InvalidParametersError] and sends no update and no new row.  The check
    stands after the clearing step: with the clear-sheet-first flag unset
    nothing is changed in the store, with the flag set every row has been
    deleted (and the sheet read again) when the error is raised. *)
Theorem missing_reference_column_is_refused (py : builtins)
  (self : SmartsheetWriterNode) (context : Context) (input_pandas : DataFrame)
  (sheet : Sheet) :
  str_in (referenceColumn self) (df_columns input_pandas) = false
  \/ str_in (referenceColumn self) (map col_title (columns sheet)) = false ->
  exists msg w',
    execute py self context input_pandas (fresh (Some sheet))
    = (w', Raise (InvalidParametersError msg))
    /\ forallb (fun e => negb (is_write e)) (trace w') = true
    /\ (clearFirst self = false ->
        forallb (fun e => negb (is_mutation e)) (trace w') = true)
    /\ (is_ok (resolve_access (access_token self) (access_region self) context) = true ->
        trace w' = GetSheet (sheetId self) :: clearing_events self sheet
        /\ remote w' = Some (cleared self sheet)).
Proof.
  intro H.
  destruct (is_ok (resolve_access (access_token self) (access_region self) context))
    eqn:Hr.
  - rewrite (execute_run py self context input_pandas sheet Hr).
    rewrite <- (cleared_columns self sheet) in H.
    destruct (synchronize_refused py self input_pandas (cleared self sheet)
                {| remote := Some (cleared self sheet);
                   trace := GetSheet (sheetId self) :: clearing_events self sheet |} H)
      as [msg E].
    rewrite E. eexists. eexists. split; [reflexivity|]. simpl.
    unfold clearing_events.
    destruct (clearFirst self); repeat split; try reflexivity; try discriminate.
    rewrite forallb_app. simpl. rewrite andb_true_r.
    apply forallb_forall. intros e He. apply in_map_iff in He.
    destruct He as [ids [<- _]]. reflexivity.
  - rewrite execute_without_token by exact Hr.
    eexists. eexists. split; [reflexivity|]. simpl.
    repeat split; discriminate.
Qed.

Lemma missing_reference_column_is_refused_witness :
  exists msg w',
    execute Ascii_builtins.plain (Example.node "nope" false true) Example.no_credentials
            Example.table (fresh (Some Example.sheet))
    = (w', Raise (InvalidParametersError msg))
    /\ forallb (fun e => negb (is_write e)) (trace w') = true
    /\ (false = false -> forallb (fun e => negb (is_mutation e)) (trace w') = true)
    /\ (true = true ->
        trace w' = [GetSheet "42"] /\ remote w' = Some Example.sheet).
Proof.
  exact (missing_reference_column_is_refused Ascii_builtins.plain
           (Example.node "nope" false true) Example.no_credentials Example.table
           Example.sheet (or_introl eq_refl)).
Defined.

(** C2, on a run with the clear-sheet-first flag set: both rows of the sheet
    are deleted before the error is raised. *)
Lemma rows_are_deleted_before_the_refusal :
  execute Ascii_builtins.plain (Example.node "nope" true false) Example.no_credentials
          Example.table (fresh (Some Example.sheet))
  = ({| remote := Some {| columns := columns Example.sheet; rows := [] |};
        trace := [GetSheet "42"; DeleteRows "42" [100; 101]; GetSheet "42"] |},
     Raise (InvalidParametersError "Reference column not found in input columns")).
Proof. reflexivity. Qed.

(** ** The rows that are sent *)

Lemma Forall2_impl_in {A B : Type} (R R' : A -> B -> Prop) (l : list A) (l' : list B) :
  (forall a b, In a l -> In b l' -> R a b -> R' a b) ->
  Forall2 R l l' -> Forall2 R' l l'.
Proof.
  intros H F. induction F as [|a b l l' Hab F IH]; constructor.
  - apply H; simpl; auto.
  - apply IH. intros a' b' Ha' Hb'. apply H; simpl; auto.
Qed.

Lemma Forall2_map_eq {A B C : Type} (f : A -> C) (g : B -> C) (l : list A) (l' : list B) :
  Forall2 (fun a b => g b = f a) l l' -> map g l' = map f l.
Proof. induction 1; simpl; congruence. Qed.

Lemma label_eq_refl (x : scalar) : label_eq x x = true.
Proof.
  unfold label_eq, py_eq. destruct (py_key x) as [k|] eqn:E.
  - assert (key_eqb k k = true) as -> by now apply key_eqb_eq. reflexivity.
  - destruct x as [| | |f|]; try discriminate. destruct f; try discriminate. reflexivity.
Qed.

Lemma df_column_names (df : DataFrame) (t : ColumnTitle) :
  df_column df t = map name (set_index df t).
Proof. unfold df_column, set_index. now rewrite map_map. Qed.

(** The row found for a label of the table is the row of that label. *)
Lemma loc_row_name (indexed : list Series) (k : scalar) (s : Series) :
  loc indexed k = Ok (LocRow s) -> In k (map name indexed) -> name s = k.
Proof.
  unfold loc. intros H Hk. apply in_map_iff in Hk. destruct Hk as [s' [Hn Hs']].
  assert (Hin : In s' (filter (fun s => label_eq (name s) k) indexed)).
  { apply filter_In. split; [exact Hs'|]. rewrite Hn. apply label_eq_refl. }
  destruct (filter (fun s => label_eq (name s) k) indexed) as [|s0 [|s1 l]];
    try discriminate.
  inversion H; subst. destruct Hin as [<- | []]. reflexivity.
Qed.

Section Sent_rows.

Variable py : builtins.
Variable refcol : ColumnTitle.
Variable input_columns : list ColumnTitle.
Variable indexed_input : list Series.

Lemma updated_cell_for_some (names : dict ColumnId ColumnTitle)
  (types : dict ColumnId ColumnType) (source_row : loc_result) (old_cell c : Cell) :
  updated_cell_for py refcol input_columns names types source_row old_cell = Ok (Some c) ->
  column_id c = column_id old_cell
  /\ exists title,
       dict_get Z.eqb names (column_id old_cell) = Some title
       /\ str_in title (synced_columns refcol input_columns) = true.
Proof.
  unfold updated_cell_for, dict_getitem.
  destruct (dict_get Z.eqb names (column_id old_cell)) as [title|]; simpl; [|discriminate].
  destruct (str_in title (synced_columns refcol input_columns)) eqn:E; [|discriminate].
  destruct (getitem source_row title) as [v|]; simpl; [|discriminate].
  destruct (dict_get Z.eqb types (column_id old_cell)) as [ty|]; simpl; [|discriminate].
  destruct (cell_value_of py v ty) as [cv|]; simpl; [|discriminate].
  intro H. inversion H; subst. simpl. eauto.
Qed.

Lemma updated_row_for_cells (names : dict ColumnId ColumnTitle)
  (types : dict ColumnId ColumnType) (data : dict RowId Row)
  (item : SyncRef * RowId) (row : SentRow) (c : Cell) :
  updated_row_for py refcol input_columns indexed_input names types data item = Ok row ->
  In c (sent_cells row) ->
  sent_id row = Some (snd item)
  /\ exists title,
       dict_get Z.eqb names (column_id c) = Some title
       /\ str_in title (synced_columns refcol input_columns) = true.
Proof.
  unfold updated_row_for. destruct item as [ref rowId].
  destruct (loc indexed_input ref) as [source_row|]; simpl; [|discriminate].
  destruct (dict_getitem Z.eqb data rowId) as [target_row|]; simpl; [|discriminate].
  destruct (filter_mapM _ (cells target_row)) as [cs|] eqn:E; simpl; [|discriminate].
  intros H Hc. inversion H; subst. simpl in *. split; [reflexivity|].
  destruct (filter_mapM_in _ _ _ _ E Hc) as [old [_ Hold]].
  apply updated_cell_for_some in Hold. destruct Hold as [-> Hold]. exact Hold.
Qed.

Lemma new_cell_for_skipped (types : dict ColumnId ColumnType) (source_row : loc_result)
  (item : ColumnTitle * ColumnId) :
  str_in (fst item) input_columns = false ->
  new_cell_for py refcol input_columns types source_row item = Ok None.
Proof. unfold new_cell_for. destruct item as [t i]. simpl. now intros ->. Qed.

Lemma new_cell_for_kept (types : dict ColumnId ColumnType) (source_row : loc_result)
  (item : ColumnTitle * ColumnId) :
  str_in (fst item) input_columns = true ->
  new_cell_for py refcol input_columns types source_row item <> Ok None.
Proof.
  unfold new_cell_for. destruct item as [t i]. simpl. intros ->.
  intro H. revert H. do 3 ok_bind. discriminate.
Qed.

Lemma new_cell_for_some (types : dict ColumnId ColumnType) (s : Series)
  (item : ColumnTitle * ColumnId) (c : Cell) :
  new_cell_for py refcol input_columns types (LocRow s) item = Ok (Some c) ->
  column_id c = snd item
  /\ (fst item = refcol ->
      exists ty, dict_get Z.eqb types (snd item) = Some ty
                 /\ get_smartsheet_cell_value py (name s) ty = Ok (value c)).
Proof.
  unfold new_cell_for. destruct item as [t i]. simpl.
  destruct (str_in t input_columns); [|discriminate].
  destruct (String.eqb t refcol) eqn:E; simpl.
  - unfold dict_getitem.
    destruct (dict_get Z.eqb types i) as [ty|]; simpl; [|discriminate].
    destruct (get_smartsheet_cell_value py (name s) ty) as [cv|] eqn:Ec; simpl;
      [|discriminate].
    intro H. inversion H; subst. simpl. split; [reflexivity|]. eauto.
  - destruct (match row_value (index s) (series_values s) t with
              | Some v => Ok (PdScalar v)
              | None => Raise KeyError
              end) as [v|]; simpl; [|discriminate].
    destruct (dict_getitem Z.eqb types i) as [ty|]; simpl; [|discriminate].
    destruct (cell_value_of py v ty) as [cv|]; simpl; [|discriminate].
    intro H. inversion H; subst. simpl. split; [reflexivity|].
    intro Ht. subst. now rewrite String.eqb_refl in E.
Qed.

(** On a frame (a label that occurs several times) the cell of the
    reference column is never built: a frame has no name. *)
Lemma new_cell_for_frame (types : dict ColumnId ColumnType) (ix : list ColumnTitle)
  (rs : list Series) (item : ColumnTitle * ColumnId) (c : Cell) :
  new_cell_for py refcol input_columns types (LocFrame ix rs) item = Ok (Some c) ->
  column_id c = snd item /\ fst item <> refcol.
Proof.
  unfold new_cell_for. destruct item as [t i]. simpl.
  destruct (str_in t input_columns); [|discriminate].
  destruct (String.eqb t refcol) eqn:E; simpl; [discriminate|].
  destruct (str_in t ix); simpl; [|discriminate].
  destruct (dict_getitem Z.eqb types i); simpl; discriminate.
Qed.

Lemma new_row_for_cells (output_columns : dict ColumnTitle ColumnId)
  (types : dict ColumnId ColumnType) (k : SyncRef) (row : SentRow) :
  In k (map name indexed_input) ->
  new_row_for py refcol input_columns indexed_input output_columns types k = Ok row ->
  sent_id row = None /\ to_bottom row = true
  /\ Forall2 (fun item cell =>
                column_id cell = snd item
                /\ (fst item = refcol ->
                    exists ty, dict_get Z.eqb types (snd item) = Some ty
                               /\ get_smartsheet_cell_value py k ty = Ok (value cell)))
             (filter (fun kv => str_in (fst kv) input_columns) output_columns)
             (sent_cells row).
Proof.
  intros Hk. unfold new_row_for.
  destruct (loc indexed_input k) as [source_row|] eqn:El; simpl; [|discriminate].
  destruct (filter_mapM _ output_columns) as [cs|] eqn:E; simpl; [|discriminate].
  intro H. inversion H; subst. simpl. repeat split.
  apply (filter_mapM_Forall2 _ (fun kv => str_in (fst kv) input_columns)) in E.
  - eapply Forall2_impl_in; [|exact E]. intros item c _ _ Hc. simpl in Hc.
    destruct source_row as [s|ix rs].
    + rewrite <- (loc_row_name _ _ _ El Hk). now apply new_cell_for_some.
    + apply new_cell_for_frame in Hc. destruct Hc as [Hc1 Hc2]. split; tauto.
  - intros item. apply new_cell_for_skipped.
  - intros item. apply new_cell_for_kept.
Qed.

End Sent_rows.

(** C3 -- a cell of an update never carries the id of the reference column,
    and it carries the id of a column of the sheet whose title is an input
    column.  The ids of the columns of the sheet are distinct. *)
Theorem reference_column_never_updated (py : builtins) (self : SmartsheetWriterNode)
  (context : Context) (input_pandas : DataFrame) (sheet : Sheet)
  (sheet_id : string) (sent : list SentRow) (row : SentRow) (c : Cell) :
  NoDup (map col_id (columns sheet)) ->
  In (UpdateRows sheet_id sent)
     (trace (fst (execute py self context input_pandas (fresh (Some sheet))))) ->
  In row sent -> In c (sent_cells row) ->
  exists ref_column_id col,
    dict_get String.eqb (title_ids sheet) (referenceColumn self) = Some ref_column_id
    /\ column_id c <> ref_column_id
    /\ In col (columns sheet) /\ col_id col = column_id c
    /\ col_title col <> referenceColumn self
    /\ str_in (col_title col) (df_columns input_pandas) = true.
Proof.
  intros Hids Hin Hrow Hc. apply sent_in_run in Hin; [|reflexivity].
  destruct Hin as [rid [Hrid [_ [_ [_ Hup]]]]].
  rewrite cleared_title_ids in Hrid.
  unfold updated_rows in Hup. rewrite cleared_title_ids, cleared_types_by_id in Hup.
  destruct (mapM_in _ _ _ _ Hup Hrow) as [item [_ Hitem]].
  destruct (updated_row_for_cells _ _ _ _ _ _ _ _ _ c Hitem Hc) as [_ [title [Ht Hs]]].
  apply synced_columns_in in Hs. destruct Hs as [Hs1 Hs2].
  apply names_by_id_column in Ht. destruct Ht as [col [Hcol [Htitle Hid]]].
  exists rid, col. subst title. repeat split; auto.
  intro E. apply title_ids_column in Hrid.
  destruct Hrid as [col' [Hcol' [Htitle' Hid']]].
  assert (col = col') by (apply (NoDup_map_injective col_id (columns sheet)); congruence).
  subst col'. congruence.
Qed.

Lemma reference_column_never_updated_witness :
  exists ref_column_id col,
    dict_get String.eqb (title_ids Example.sheet) "ref" = Some ref_column_id
    /\ 11 <> ref_column_id
    /\ In col (columns Example.sheet) /\ col_id col = 11
    /\ col_title col <> "ref"
    /\ str_in (col_title col) (df_columns Example.table) = true.
Proof.
  refine (reference_column_never_updated Ascii_builtins.plain
            (Example.node "ref" false false) Example.no_credentials Example.table
            Example.sheet "42"
            [{| sent_id := Some 100; to_bottom := false;
                sent_cells := [{| column_id := 11; value := PInt 1 |}] |}]
            {| sent_id := Some 100; to_bottom := false;
               sent_cells := [{| column_id := 11; value := PInt 1 |}] |}
            {| column_id := 11; value := PInt 1 |} _ _ _ _).
  - repeat constructor; simpl; intuition discriminate.
  - vm_compute. right. right. left. reflexivity.
  - left. reflexivity.
  - left. reflexivity.
Defined.

Lemma missing_refs_are_labels (self : SmartsheetWriterNode) (df : DataFrame)
  (sheet : Sheet) (rid : ColumnId) (k : SyncRef) :
  In k (missing_refs self df sheet rid) ->
  In k (map name (set_index df (referenceColumn self))).
Proof.
  unfold missing_refs, output_ref_missing. intro H. apply filter_In in H.
  rewrite <- df_column_names. tauto.
Qed.

(** C5, as the code has it -- new rows are sent only when insertion is
    enabled, one per missing key and in the order of the missing keys; each
    has one cell per remote column whose title is an input column, in the
    order of the remote columns; and the cell of the reference column holds
    the coercion, for the type of that column, of the missing key itself
    (the label of the row, not a field read from it). *)
Theorem inserted_rows_carry_the_coerced_key (py : builtins)
  (self : SmartsheetWriterNode) (context : Context) (input_pandas : DataFrame)
  (sheet : Sheet) (sheet_id : string) (sent : list SentRow) :
  In (AddRows sheet_id sent)
     (trace (fst (execute py self context input_pandas (fresh (Some sheet))))) ->
  addMissingRefs self = true
  /\ exists ref_column_id,
       dict_get String.eqb (title_ids sheet) (referenceColumn self) = Some ref_column_id
       /\ Forall2
            (fun k row =>
               sent_id row = None /\ to_bottom row = true
               /\ map column_id (sent_cells row)
                  = shared_columns (df_columns input_pandas) (title_ids sheet)
               /\ Forall2
                    (fun item cell =>
                       column_id cell = snd item
                       /\ (fst item = referenceColumn self ->
                           exists ty,
                             dict_get Z.eqb (types_by_id sheet) (snd item) = Some ty
                             /\ get_smartsheet_cell_value py k ty = Ok (value cell)))
                    (filter (fun kv => str_in (fst kv) (df_columns input_pandas))
                            (title_ids sheet))
                    (sent_cells row))
            (missing_refs self input_pandas (cleared self sheet) ref_column_id)
            sent.
Proof.
  intro Hin. apply sent_in_run in Hin; [|reflexivity].
  destruct Hin as [rid [Hrid [_ [_ [_ [Hadd Hnew]]]]]].
  rewrite cleared_title_ids in Hrid. split; [exact Hadd|]. exists rid.
  split; [exact Hrid|].
  unfold new_rows in Hnew. rewrite cleared_title_ids, cleared_types_by_id in Hnew.
  apply mapM_Forall2 in Hnew.
  eapply Forall2_impl_in; [|exact Hnew]. intros k row Hk _ Hrow. simpl in Hrow.
  apply missing_refs_are_labels in Hk.
  destruct (new_row_for_cells _ _ _ _ _ _ _ _ Hk Hrow) as [H1 [H2 H3]].
  repeat split; auto.
  unfold shared_columns. apply Forall2_map_eq.
  eapply Forall2_impl_in; [|exact H3]. intros item cell _ _ [H _]. exact H.
Qed.

Lemma inserted_rows_carry_the_coerced_key_witness :
  true = true
  /\ exists ref_column_id,
       dict_get String.eqb (title_ids Example.sheet) "ref" = Some ref_column_id
       /\ Forall2
            (fun k row =>
               sent_id row = None /\ to_bottom row = true
               /\ map column_id (sent_cells row)
                  = shared_columns (df_columns Example.table) (title_ids Example.sheet)
               /\ Forall2
                    (fun item cell =>
                       column_id cell = snd item
                       /\ (fst item = "ref" ->
                           exists ty,
                             dict_get Z.eqb (types_by_id Example.sheet) (snd item) = Some ty
                             /\ get_smartsheet_cell_value Ascii_builtins.plain k ty
                                = Ok (value cell)))
                    (filter (fun kv => str_in (fst kv) (df_columns Example.table))
                            (title_ids Example.sheet))
                    (sent_cells row))
            (missing_refs (Example.node "ref" false true) Example.table Example.sheet
               ref_column_id)
            [{| sent_id := None; to_bottom := true;
                sent_cells := [{| column_id := 10; value := PStr "B" |};
                               {| column_id := 11; value := Example.two_and_a_half |}] |}].
Proof.
  refine (inserted_rows_carry_the_coerced_key Ascii_builtins.plain
            (Example.node "ref" false true) Example.no_credentials Example.table
            Example.sheet "42" _ _).
  vm_compute. right. right. right. left. reflexivity.
Defined.

(** C5, on a key that the coercion changes: the table holds the text 007 as
    its only key; no remote row carries it, so it is missing; the new row is
    sent with the integer 7 in the reference column, which is not the key
    (a text is never equal to a number). *)
Lemma inserted_key_007_is_sent_as_7 :
  execute Ascii_builtins.plain (Example.node "ref" false true) Example.no_credentials
          Example.table_007 (fresh (Some Example.sheet))
  = ({| remote := Some Example.sheet;
        trace := [ GetSheet "42";
                   InfoSync 0 1 "CREATE" 2 "SKIP";
                   AddRows "42"
                     [{| sent_id := None; to_bottom := true;
                         sent_cells := [{| column_id := 10; value := PInt 7 |};
                                        {| column_id := 11; value := PInt 1 |}] |}] ] |},
     Ok tt)
  /\ missing_refs (Example.node "ref" false true) Example.table_007 Example.sheet 10
     = [PStr "007"]
  /\ py_eq (PInt 7) (PStr "007") = false.
Proof. repeat split. Qed.

(** ** Runs on well-formed data end without an exception *)

Lemma mapM_ok {A B : Type} (f : A -> result B) (l : list A) :
  (forall a, In a l -> exists b, f a = Ok b) -> exists bs, mapM f l = Ok bs.
Proof.
  induction l as [|a l IH]; simpl; intro H; [eauto|].
  destruct (H a (or_introl eq_refl)) as [b ->]. simpl.
  destruct IH as [bs ->]; [intros; apply H; auto|]. simpl. eauto.
Qed.

Lemma filter_mapM_ok {A B : Type} (f : A -> result (option B)) (l : list A) :
  (forall a, In a l -> exists o, f a = Ok o) -> exists bs, filter_mapM f l = Ok bs.
Proof.
  induction l as [|a l IH]; simpl; intro H; [eauto|].
  destruct (H a (or_introl eq_refl)) as [o ->]. simpl.
  destruct IH as [bs ->]; [intros; apply H; auto|]. simpl. eauto.
Qed.

Lemma py_eq_not_nan (x y : scalar) : py_eq x y = true -> isnan y = false.
Proof.
  intro H. apply py_eq_key in H. destruct H as [k [_ H]].
  destruct y as [| | |f|]; try reflexivity. destruct f; try reflexivity. discriminate.
Qed.

Lemma label_eq_common (a b r : scalar) :
  label_eq a r = true -> label_eq b r = true -> label_eq a b = true.
Proof.
  unfold label_eq. intros Ha Hb.
  apply orb_true_iff in Ha. apply orb_true_iff in Hb. apply orb_true_iff.
  destruct Ha as [Ha | Ha], Hb as [Hb | Hb].
  - left. eapply py_eq_trans; [exact Ha|]. now rewrite py_eq_sym.
  - apply andb_true_iff in Hb. destruct Hb as [_ Hb].
    rewrite (py_eq_not_nan _ _ Ha) in Hb. discriminate.
  - apply andb_true_iff in Ha. destruct Ha as [_ Ha].
    rewrite (py_eq_not_nan _ _ Hb) in Ha. discriminate.
  - right. apply andb_true_iff in Ha. apply andb_true_iff in Hb.
    apply andb_true_iff. tauto.
Qed.

Lemma filter_at_most_one (l : list Series) (r : scalar) :
  labels_distinct (map name l) = true ->
  (List.length (filter (fun s => label_eq (name s) r) l) <= 1)%nat.
Proof.
  induction l as [|a l IH]; simpl; intro H; [lia|].
  apply andb_true_iff in H. destruct H as [H1 H2]. apply negb_true_iff in H1.
  destruct (label_eq (name a) r) eqn:E; simpl; [|auto].
  destruct (filter (fun s => label_eq (name s) r) l) as [|b l'] eqn:F; simpl; [lia|].
  assert (Hb : In b (filter (fun s => label_eq (name s) r) l)) by (rewrite F; now left).
  apply filter_In in Hb. destruct Hb as [Hb1 Hb2].
  assert (existsb (label_eq (name a)) (map name l) = true); [|congruence].
  apply existsb_exists. exists (name b). split; [now apply in_map|].
  eapply label_eq_common; eauto.
Qed.

Lemma loc_unique (indexed : list Series) (r : scalar) :
  labels_distinct (map name indexed) = true ->
  (exists s, In s indexed /\ label_eq (name s) r = true) ->
  exists s, loc indexed r = Ok (LocRow s) /\ In s indexed.
Proof.
  intros Hd [s [Hs E]]. unfold loc.
  pose proof (filter_at_most_one indexed r Hd) as Hl.
  assert (Hin : In s (filter (fun s => label_eq (name s) r) indexed))
    by (apply filter_In; auto).
  destruct (filter (fun s => label_eq (name s) r) indexed) as [|s0 [|s1 l]] eqn:F.
  - destruct Hin.
  - exists s0. split; [reflexivity|].
    assert (In s0 (filter (fun s => label_eq (name s) r) indexed)) by (rewrite F; now left).
    apply filter_In in H. tauto.
  - simpl in Hl. lia.
Qed.

Lemma row_value_some (cols : list ColumnTitle) (vals : list scalar) (t : ColumnTitle) :
  str_in t cols = true -> exists v, row_value cols vals t = Some v.
Proof.
  unfold str_in. revert vals. induction cols as [|c cs IH]; simpl; intros vals H;
    [discriminate|].
  rewrite String.eqb_sym in H. destruct (String.eqb c t); [eauto|]. now apply IH.
Qed.

Lemma remove_title_in (cols : list ColumnTitle) (t r : ColumnTitle) :
  str_in t cols = true -> t <> r -> str_in t (remove_title cols r) = true.
Proof.
  unfold str_in. intros H Hne. induction cols as [|c cs IH]; simpl in *; [discriminate|].
  destruct (String.eqb c r) eqn:E.
  - apply String.eqb_eq in E. subst c.
    destruct (String.eqb t r) eqn:E'; [apply String.eqb_eq in E'; contradiction|].
    exact H.
  - simpl. destruct (String.eqb t c); [reflexivity|]. now apply IH.
Qed.

Lemma set_index_index (df : DataFrame) (t : ColumnTitle) (s : Series) :
  In s (set_index df t) -> index s = remove_title (df_columns df) t.
Proof.
  unfold set_index. intro H. apply in_map_iff in H. destruct H as [vals [<- _]].
  reflexivity.
Qed.

Lemma dict_of_list_nodup {K V : Type} (eqb : K -> K -> bool)
  (eqb_eq : forall a b, eqb a b = true -> a = b) (l : list (K * V)) :
  NoDup (map fst l) -> dict_of_list eqb l = l.
Proof.
  induction l as [|[k v] l IH] using rev_ind; [reflexivity|].
  rewrite map_app. simpl. intro H.
  apply NoDup_remove in H. rewrite app_nil_r in H. destruct H as [H1 H2].
  rewrite dict_of_list_snoc, (IH H1). apply dict_set_new.
  unfold dict_mem. destruct (existsb _ l) eqn:E; [|reflexivity].
  apply existsb_exists in E. destruct E as [[k' v'] [Hin E]]. simpl in E.
  apply eqb_eq in E. subst k'. elim H2. apply in_map_iff. exists (k, v'). auto.
Qed.

Lemma title_ids_all (sheet : Sheet) :
  NoDup (map col_title (columns sheet)) ->
  title_ids sheet = map (fun c => (col_title c, col_id c)) (columns sheet).
Proof.
  intro H. unfold title_ids. apply (dict_of_list_nodup String.eqb string_eqb_eq').
  now rewrite map_map.
Qed.

Lemma names_by_id_mem (sheet : Sheet) (i : ColumnId) :
  NoDup (map col_title (columns sheet)) ->
  In i (map col_id (columns sheet)) ->
  exists t, dict_get Z.eqb (names_by_id (title_ids sheet)) i = Some t.
Proof.
  intros H Hi.
  assert (M : dict_mem Z.eqb (names_by_id (title_ids sheet)) i = true).
  { unfold names_by_id. rewrite (dict_of_list_mem Z.eqb Z.eqb_sym Z_eqb_congr).
    rewrite (title_ids_all sheet H), !existsb_mapped. simpl.
    apply existsb_exists. apply in_map_iff in Hi. destruct Hi as [c [<- Hc]].
    exists c. split; [exact Hc | apply Z.eqb_refl]. }
  rewrite dict_mem_get in M.
  destruct (dict_get Z.eqb (names_by_id (title_ids sheet)) i); [eauto | discriminate].
Qed.

Lemma types_by_id_mem (sheet : Sheet) (i : ColumnId) :
  In i (map col_id (columns sheet)) ->
  exists ty, dict_get Z.eqb (types_by_id sheet) i = Some ty.
Proof.
  intro Hi.
  assert (M : dict_mem Z.eqb (types_by_id sheet) i = true).
  { unfold types_by_id. rewrite (dict_of_list_mem Z.eqb Z.eqb_sym Z_eqb_congr).
    rewrite existsb_mapped. simpl.
    apply existsb_exists. apply in_map_iff in Hi. destruct Hi as [c [<- Hc]].
    exists c. split; [exact Hc | apply Z.eqb_refl]. }
  rewrite dict_mem_get in M.
  destruct (dict_get Z.eqb (types_by_id sheet) i); [eauto | discriminate].
Qed.

(** Every matched row id has its row in the second dictionary, and that row
    is a row of the sheet. *)
Lemma synced_data_flat (K : list SyncRef) (L : list (Row * Cell)) :
  (forall k id, In (k, id) (output_ref_to_be_synced (index_of_cells K L)) ->
     exists row, dict_get Z.eqb (output_data_to_be_synced (index_of_cells K L)) id
                 = Some row)
  /\ (forall id row,
        dict_get Z.eqb (output_data_to_be_synced (index_of_cells K L)) id = Some row ->
        exists rc, In rc L /\ fst rc = row).
Proof.
  induction L as [|rc L [IH1 IH2]] using rev_ind; [split; [intros k id [] | discriminate]|].
  rewrite index_of_snoc, record_reference_eq.
  destruct (py_in (ref_value rc) K); simpl.
  - split.
    + intros k id H. rewrite (dict_get_set Z.eqb Z.eqb_sym Z_eqb_congr).
      apply dict_set_in in H.
      destruct H as [H | [-> _]]; [|rewrite Z.eqb_refl; eauto].
      destruct (Z.eqb (row_id (fst rc)) id); [eauto | eapply IH1; eauto].
    + intros id row. rewrite (dict_get_set Z.eqb Z.eqb_sym Z_eqb_congr).
      destruct (Z.eqb (row_id (fst rc)) id).
      * intro H. inversion H. exists rc. rewrite in_app_iff. simpl. auto.
      * intro H. destruct (IH2 id row H) as [rc' [H1 H2]].
        exists rc'. rewrite in_app_iff. auto.
  - split; [exact IH1|]. intros id row H. destruct (IH2 id row H) as [rc' [H1 H2]].
    exists rc'. rewrite in_app_iff. auto.
Qed.

Section Totality.

Variable py : builtins.
Variable self : SmartsheetWriterNode.
Variable input_pandas : DataFrame.
Variable sheet : Sheet.
Variable rid : ColumnId.

Hypothesis titles_distinct : NoDup (map col_title (columns sheet)).
Hypothesis cells_known : known_cells sheet.
Hypothesis keys_distinct :
  labels_distinct (df_column input_pandas (referenceColumn self)) = true.

Lemma source_cell_ok (s : Series) (t : ColumnTitle) (i : ColumnId) :
  In s (set_index input_pandas (referenceColumn self)) ->
  str_in t (df_columns input_pandas) = true -> t <> referenceColumn self ->
  In i (map col_id (columns sheet)) ->
  exists cv,
    (v <- getitem (LocRow s) t ;;
     ty <- dict_getitem Z.eqb (types_by_id sheet) i ;;
     cv <- cell_value_of py v ty ;;
     Ok (Some {| column_id := i; value := cv |}))
    = Ok (Some cv).
Proof.
  intros Hs Ht Hne Hi. simpl. rewrite (set_index_index _ _ _ Hs).
  destruct (row_value_some _ (series_values s) t (remove_title_in _ _ _ Ht Hne))
    as [v ->]. simpl.
  unfold dict_getitem. destruct (types_by_id_mem sheet i Hi) as [ty ->]. simpl.
  destruct (coercion_total py v ty) as [cv ->]. simpl. eauto.
Qed.

Lemma updated_rows_ok :
  exists updated, updated_rows py self input_pandas sheet rid = Ok updated.
Proof.
  unfold updated_rows, plan. rewrite reference_index_flat.
  set (K := df_column input_pandas (referenceColumn self)).
  set (L := reference_cells rid (rows sheet)).
  fold (index_of_cells K L).
  apply mapM_ok. intros [ref rowId] Hin. unfold updated_row_for.
  (* the source row *)
  assert (Hk : In ref (keys (output_ref_to_be_synced (index_of_cells K L))))
    by (apply in_map_iff; exists (ref, rowId); auto).
  apply synced_keys_flat in Hk. destruct Hk as [_ Hk].
  apply py_in_spec in Hk. destruct Hk as [l [Hl E]].
  unfold K in Hl. rewrite df_column_names in Hl. apply in_map_iff in Hl.
  destruct Hl as [s [Hn Hs]].
  destruct (loc_unique (set_index input_pandas (referenceColumn self)) ref) as [s0 [-> Hs0]].
  { now rewrite <- df_column_names. }
  { exists s. split; [exact Hs|]. unfold label_eq. rewrite Hn, py_eq_sym, E. reflexivity. }
  simpl.
  (* the target row *)
  destruct (synced_data_flat K L) as [D1 D2].
  destruct (D1 ref rowId Hin) as [row Hrow].
  unfold dict_getitem at 1. rewrite Hrow. simpl.
  destruct (D2 rowId row Hrow) as [rc [Hrc <-]].
  apply reference_cells_origin in Hrc. destruct Hrc as [Hr _].
  (* its cells *)
  destruct (filter_mapM_ok
              (updated_cell_for py (referenceColumn self) (df_columns input_pandas)
                 (names_by_id (title_ids sheet)) (types_by_id sheet) (LocRow s0))
              (cells (fst rc))) as [cs ->]; [|simpl; eauto].
  intros old Hold. unfold updated_cell_for.
  pose proof (cells_known (fst rc) old Hr Hold) as Hi.
  unfold dict_getitem at 1 2.
  destruct (names_by_id_mem sheet (column_id old) titles_distinct Hi) as [t ->]. simpl.
  destruct (str_in t (synced_columns (referenceColumn self) (df_columns input_pandas)))
    eqn:Et; [|eauto].
  apply synced_columns_in in Et. destruct Et as [Et1 Et2].
  destruct (source_cell_ok s0 t (column_id old) Hs0 Et1 Et2 Hi) as [cv Hcv].
  exists (Some cv). exact Hcv.
Qed.

Lemma new_rows_ok :
  exists new, new_rows py self input_pandas sheet rid = Ok new.
Proof.
  unfold new_rows. apply mapM_ok. intros ref Hin. unfold new_row_for.
  apply missing_refs_are_labels in Hin. apply in_map_iff in Hin.
  destruct Hin as [s [Hn Hs]].
  destruct (loc_unique (set_index input_pandas (referenceColumn self)) ref) as [s0 [-> Hs0]].
  { now rewrite <- df_column_names. }
  { exists s. split; [exact Hs|]. rewrite Hn. apply label_eq_refl. }
  simpl.
  destruct (filter_mapM_ok
              (new_cell_for py (referenceColumn self) (df_columns input_pandas)
                 (types_by_id sheet) (LocRow s0))
              (title_ids sheet)) as [cs ->]; [|simpl; eauto].
  intros [t i] Hitem. unfold new_cell_for.
  destruct (str_in t (df_columns input_pandas)) eqn:Et; [|eauto].
  apply title_ids_item in Hitem. destruct Hitem as [col [Hcol [_ Hid]]].
  assert (Hi : In i (map col_id (columns sheet))) by (rewrite <- Hid; now apply in_map).
  destruct (String.eqb t (referenceColumn self)) eqn:E; simpl negb; cbv iota.
  - unfold get_name. simpl. unfold dict_getitem.
    destruct (types_by_id_mem sheet i Hi) as [ty ->]. simpl.
    destruct (coercion_total py (name s0) ty) as [cv ->]. simpl. eauto.
  - apply String.eqb_neq in E.
    destruct (source_cell_ok s0 t i Hs0 Et E Hi) as [cv Hcv].
    exists (Some cv). exact Hcv.
Qed.

End Totality.

Lemma synchronize_ok (py : builtins) (self : SmartsheetWriterNode)
  (input_pandas : DataFrame) (sheet : Sheet) (w : world) :
  str_in (referenceColumn self) (df_columns input_pandas) = true ->
  str_in (referenceColumn self) (map col_title (columns sheet)) = true ->
  NoDup (map col_title (columns sheet)) ->
  known_cells sheet ->
  labels_distinct (df_column input_pandas (referenceColumn self)) = true ->
  snd (synchronize py self input_pandas sheet w) = Ok tt.
Proof.
  intros H1 H2 Ht Hc Hk. unfold synchronize. rewrite H1, title_ids_mem, H2. simpl.
  pose proof (title_ids_mem sheet (referenceColumn self)) as M.
  rewrite H2, dict_mem_get in M.
  unfold bindM at 1, lift, dict_getitem.
  destruct (dict_get String.eqb (title_ids sheet) (referenceColumn self)) as [rid|];
    [|discriminate].
  unfold bindM at 1, emit. unfold bindM at 1.
  destruct (updated_rows_ok py self input_pandas sheet rid Ht Hc Hk) as [updated ->].
  destruct (new_rows_ok py self input_pandas sheet rid Hk) as [new Hnew].
  unfold bindM at 1.
  destruct updated as [|u us]; simpl.
  - destruct (addMissingRefs self); [|reflexivity].
    unfold bindM. rewrite Hnew. now destruct new.
  - destruct (addMissingRefs self); [|reflexivity].
    unfold bindM. rewrite Hnew. now destruct new.
Qed.

Lemma cleared_known_cells (self : SmartsheetWriterNode) (sheet : Sheet) :
  known_cells sheet -> known_cells (cleared self sheet).
Proof.
  unfold cleared. destruct (clearFirst self); [|auto].
  intros _ r c []. 
Qed.

Lemma execute_ok (py : builtins) (self : SmartsheetWriterNode) (context : Context)
  (input_pandas : DataFrame) (sheet : Sheet) :
  is_ok (resolve_access (access_token self) (access_region self) context) = true ->
  str_in (referenceColumn self) (df_columns input_pandas) = true ->
  str_in (referenceColumn self) (map col_title (columns sheet)) = true ->
  NoDup (map col_title (columns sheet)) ->
  known_cells sheet ->
  labels_distinct (df_column input_pandas (referenceColumn self)) = true ->
  snd (execute py self context input_pandas (fresh (Some sheet))) = Ok tt.
Proof.
  intros Hr H1 H2 Ht Hc Hk. rewrite (execute_run py self context input_pandas sheet Hr).
  apply synchronize_ok; auto.
  - now rewrite cleared_columns.
  - now rewrite cleared_columns.
  - now apply cleared_known_cells.
Qed.

Lemma updated_row_for_id (py : builtins) (refcol : ColumnTitle)
  (input_columns : list ColumnTitle) (indexed_input : list Series)
  (names : dict ColumnId ColumnTitle) (types : dict ColumnId ColumnType)
  (data : dict RowId Row) (item : SyncRef * RowId) (row : SentRow) :
  updated_row_for py refcol input_columns indexed_input names types data item = Ok row ->
  sent_id row = Some (snd item).
Proof.
  unfold updated_row_for. destruct item as [ref rowId].
  do 3 ok_bind. intro H. now inversion H.
Qed.



(** ** The scenarios of the specification *)

(** Input rows [{ref: "A", x: 1}, {ref: "B", x: 2.5}], remote rows
    [{ref: "A", x: 0}, {ref: "C", x: 9}], insertion disabled: the row of "A"
    is updated with [x = 1], "B" is skipped, "C" is counted as old and kept. *)
Example scenario_insert_disabled :
  execute Ascii_builtins.plain (Example.node "ref" false false) Example.no_credentials
          Example.table (fresh (Some Example.sheet))
  = ({| remote := Some Example.sheet;
        trace := [ GetSheet "42";
                   InfoSync 1 1 "SKIP" 1 "SKIP";
                   UpdateRows "42"
                     [{| sent_id := Some 100; to_bottom := false;
                         sent_cells := [{| column_id := 11; value := PInt 1 |}] |}] ] |},
     Ok tt).
Proof. reflexivity. Qed.

(** The same with insertion enabled: one new row for "B", with [x = 2.5]. *)
Example scenario_insert_enabled :
  execute Ascii_builtins.plain (Example.node "ref" false true) Example.no_credentials
          Example.table (fresh (Some Example.sheet))
  = ({| remote := Some Example.sheet;
        trace := [ GetSheet "42";
                   InfoSync 1 1 "CREATE" 1 "SKIP";
                   UpdateRows "42"
                     [{| sent_id := Some 100; to_bottom := false;
                         sent_cells := [{| column_id := 11; value := PInt 1 |}] |}];
                   AddRows "42"
                     [{| sent_id := None; to_bottom := true;
                         sent_cells :=
                           [{| column_id := 10; value := PStr "B" |};
                            {| column_id := 11; value := Example.two_and_a_half |}] |}] ] |},
     Ok tt).
Proof. reflexivity. Qed.

(** A key that occurs twice in the input makes the run fail, as the
    documentation of the node announces: the source row is a frame, and the
    null test of the coercion raises on a column of two values. *)
Example duplicate_input_key_raises :
  execute Ascii_builtins.plain (Example.node "ref" false false) Example.no_credentials
          Example.table_with_duplicates (fresh (Some Example.sheet))
  = ({| remote := Some Example.sheet;
        trace := [ GetSheet "42"; InfoSync 1 0 "SKIP" 1 "SKIP" ] |},
     Raise ValueError).
Proof. reflexivity. Qed.

(** With the clear-sheet-first flag set, the two rows are deleted in one
    page, the plan is computed on the emptied sheet, and both keys are
    inserted. *)
Example scenario_clear_first :
  execute Ascii_builtins.plain (Example.node "ref" true true) Example.no_credentials
          Example.table (fresh (Some Example.sheet))
  = ({| remote := Some {| columns := columns Example.sheet; rows := [] |};
        trace := [ GetSheet "42";
                   DeleteRows "42" [100; 101];
                   GetSheet "42";
                   InfoSync 0 2 "CREATE" 0 "SKIP";
                   AddRows "42"
                     [{| sent_id := None; to_bottom := true;
                         sent_cells := [{| column_id := 10; value := PStr "A" |};
                                        {| column_id := 11; value := PInt 1 |}] |};
                      {| sent_id := None; to_bottom := true;
                         sent_cells :=
                           [{| column_id := 10; value := PStr "B" |};
                            {| column_id := 11; value := Example.two_and_a_half |}] |}] ] |},
     Ok tt).
Proof. reflexivity. Qed.

(** The coercion on a few values: a float with an integer value gives an
    integer, a null gives the empty string under every type, a CHECKBOX
    column gives a boolean, a text of digits gives an integer, any other text
    is kept. *)
Example coercion_table :
  get_smartsheet_cell_value Ascii_builtins.plain Example.one Example.text = Ok (PInt 1)
  /\ get_smartsheet_cell_value Ascii_builtins.plain Example.two_and_a_half Example.text
     = Ok Example.two_and_a_half
  /\ get_smartsheet_cell_value Ascii_builtins.plain PNone "CHECKBOX" = Ok (PStr "")
  /\ get_smartsheet_cell_value Ascii_builtins.plain (PFloat S754_nan) Example.text
     = Ok (PStr "")
  /\ get_smartsheet_cell_value Ascii_builtins.plain (PStr "no") "CHECKBOX" = Ok (PBool true)
  /\ get_smartsheet_cell_value Ascii_builtins.plain (PInt 0) "CHECKBOX" = Ok (PBool false)
  /\ get_smartsheet_cell_value Ascii_builtins.plain (PBool true) Example.text = Ok (PInt 1)
  /\ get_smartsheet_cell_value Ascii_builtins.plain (PStr "-12") Example.text
     = Ok (PInt (-12))
  /\ get_smartsheet_cell_value Ascii_builtins.plain (PStr "A") Example.text = Ok (PStr "A").
Proof. repeat split. Qed.

(** * Further properties of the writer *)

(** ** The batches of the clearing step *)

Lemma pages_in {A : Type} (n : nat) (l : list A) (b : list A) :
  (0 < n)%nat -> In b (pages n l) ->
  b <> [] /\ (List.length b <= n)%nat /\ incl b l.
Proof.
  intros Hn Hb. unfold pages, range_step in Hb. rewrite map_map in Hb.
  apply in_map_iff in Hb. destruct Hb as [k [<- Hk]]. apply in_seq in Hk.
  assert (Hlt : (k * n < List.length l)%nat).
  { pose proof (Nat.Div0.mul_div_le (List.length l + n - 1) n) as H. nia. }
  repeat split.
  - intro E. apply (f_equal (@List.length A)) in E.
    rewrite length_firstn, length_skipn in E. simpl in E. lia.
  - rewrite length_firstn. lia.
  - intros x Hx.
    rewrite <- (firstn_skipn (k * n) l). apply in_or_app. right.
    rewrite <- (firstn_skipn n (skipn (k * n) l)). apply in_or_app. now left.
Qed.

(** X1 -- every call to [delete_rows] of a run belongs to the clearing step
    of a node whose clear-sheet-first flag is set; it names the sheet of the
    node, and its batch is not empty, holds at most 300 ids, and holds ids
    of rows of the sheet only. *)
Theorem delete_batches_are_bounded (py : builtins) (self : SmartsheetWriterNode)
  (context : Context) (input_pandas : DataFrame) (sheet : Sheet)
  (sheet_id : string) (ids : list RowId) :
  In (DeleteRows sheet_id ids)
     (trace (fst (execute py self context input_pandas (fresh (Some sheet))))) ->
  clearFirst self = true /\ sheet_id = sheetId self
  /\ ids <> [] /\ (List.length ids <= 300)%nat
  /\ incl ids (map row_id (rows sheet)).
Proof.
  intro Hin. apply execute_event_cases in Hin.
  destruct Hin as [Hin | [Hin | [rid [_ [_ []]]]]]; [discriminate|].
  unfold clearing_events in Hin. destruct (clearFirst self); [|destruct Hin].
  apply in_app_iff in Hin. destruct Hin as [Hin | [Hin | []]]; [|discriminate].
  apply in_map_iff in Hin. destruct Hin as [b [E Hb]]. inversion E; subst.
  apply pages_in in Hb; [|unfold page_size; lia]. unfold page_size in Hb. tauto.
Qed.

Lemma delete_batches_are_bounded_witness :
  true = true /\ "42" = "42" /\ [100; 101] <> [] /\ (2 <= 300)%nat
  /\ incl [100; 101] (map row_id (rows Example.sheet)).
Proof.
  refine (delete_batches_are_bounded Ascii_builtins.plain (Example.node "ref" true true)
            Example.no_credentials Example.table Example.sheet "42" [100; 101] _).
  vm_compute. right. left. reflexivity.
Defined.

(** ** The token of the environment *)

(** X2 -- when the environment gives a token, the token and the region are
    used as they are (a colon in the token is not read as a region prefix)
    and the credentials configuration is not looked at: two runs that differ
    only in their context are the same run. *)
Theorem environment_token_wins (py : builtins) (self : SmartsheetWriterNode)
  (context context' : Context) (input_pandas : DataFrame) (w : world) :
  access_token self <> "" ->
  resolve_access (access_token self) (access_region self) context
  = Ok (access_region self, access_token self)
  /\ configure self context = Ok tt
  /\ execute py self context input_pandas w = execute py self context' input_pandas w.
Proof.
  intro H. split; [now apply environment_token_is_kept|]. split.
  - unfold configure. destruct (String.eqb (access_token self) "") eqn:E; [|reflexivity].
    apply String.eqb_eq in E. contradiction.
  - unfold execute. now rewrite !environment_token_is_kept.
Qed.

Lemma environment_token_wins_witness :
  resolve_access "eu:abc" "" Example.no_credentials = Ok ("", "eu:abc").
Proof.
  exact (proj1 (environment_token_wins Ascii_builtins.plain
                  {| sheetId := "42"; referenceColumn := "ref"; clearFirst := false;
                     addMissingRefs := false; access_token := "eu:abc";
                     access_region := "" |}
                  Example.no_credentials Example.no_credentials Example.table
                  (fresh None) ltac:(discriminate))).
Defined.

(** ** A credential that is split *)

Lemma before_after_first (c : ascii) (s : string) :
  (1 <= count_char c s)%nat ->
  (before_first c s ++ String c (after_first c s))%string = s.
Proof.
  induction s as [|c' s IH]; simpl; [lia|].
  destruct (Ascii.eqb c' c) eqn:E; simpl; intro H.
  - apply Ascii.eqb_eq in E. now subst.
  - now rewrite IH.
Qed.

Lemma count_before_first (c : ascii) (s : string) :
  count_char c (before_first c s) = O.
Proof.
  induction s as [|c' s IH]; simpl; [reflexivity|].
  destruct (Ascii.eqb c' c) eqn:E; simpl; [reflexivity|]. now rewrite E.
Qed.

Lemma count_after_first (c : ascii) (s : string) :
  count_char c (after_first c s) = (count_char c s - 1)%nat.
Proof.
  induction s as [|c' s IH]; simpl; [reflexivity|].
  destruct (Ascii.eqb c' c) eqn:E; simpl; [lia | exact IH].
Qed.

(** X3 -- a credential with exactly one colon is split without loss: the
    region, a colon and the token give the credential back, and neither the
    region nor the token holds a colon. *)
Theorem split_credential_recombines (region cred : string) (context : Context) :
  credentials context = Some cred -> count_char ":" cred = 1%nat ->
  exists r t,
    resolve_access "" region context = Ok (r, t)
    /\ (r ++ ":" ++ t)%string = cred
    /\ count_char ":" r = O /\ count_char ":" t = O.
Proof.
  intros Hc H1. exists (before_first ":" cred), (after_first ":" cred).
  repeat split.
  - unfold resolve_access, _get_access_token_from_credentials_configuration.
    simpl. rewrite Hc.
    destruct (String.eqb cred "") eqn:E.
    { apply String.eqb_eq in E. subst. discriminate. }
    simpl. now rewrite (split_one_separator ":" cred H1).
  - apply before_after_first. lia.
  - apply count_before_first.
  - rewrite count_after_first. lia.
Qed.

Lemma split_credential_recombines_witness :
  exists r t,
    resolve_access "" "" {| credentials := Some "gov:abc" |} = Ok (r, t)
    /\ (r ++ ":" ++ t)%string = "gov:abc"
    /\ count_char ":" r = O /\ count_char ":" t = O.
Proof.
  exact (split_credential_recombines "" "gov:abc" {| credentials := Some "gov:abc" |}
           eq_refl eq_refl).
Defined.

(** ** [configure] and [execute] *)

(** X4 -- [configure] refuses a configuration exactly when [execute] would
    fail to get a token: if [configure] raises, [execute] raises the same
    exception without any request to the store; if [configure] returns, the
    run of the writer reaches the store and the run of the reader makes its
    first request.  The same holds for both nodes. *)
Theorem configure_agrees_with_execute (py : builtins)
  (astype : DataFrame -> ColumnTitle -> Reader.dtype -> result DataFrame)
  (writer : SmartsheetWriterNode) (reader : Reader.SmartsheetReaderNode)
  (context : Context) :
  (forall e input_pandas w,
     configure writer context = Raise e ->
     execute py writer context input_pandas w = (w, Raise e))
  /\ (forall input_pandas s,
        configure writer context = Ok tt ->
        exists evs,
          trace (fst (execute py writer context input_pandas (fresh s)))
          = GetSheet (sheetId writer) :: evs)
  /\ (forall e src,
        Reader.configure reader context = Raise e ->
        Reader.execute astype reader context src
        = {| Reader.requests := []; Reader.source_name_variable := None;
             Reader.outcome := Raise e |})
  /\ (forall src,
        Reader.configure reader context = Ok tt ->
        exists rs,
          Reader.requests (Reader.execute astype reader context src)
          = fst (Reader.get_page reader src 1 1) :: rs).
Proof.
  repeat split.
  - intros e df w. unfold configure, execute, resolve_access, bindM, lift.
    destruct (String.eqb (access_token writer) ""); [|discriminate].
    destruct (_get_access_token_from_credentials_configuration context) as [t|e'];
      simpl; [discriminate|].
    intro H. now inversion H.
  - intros df s H.
    assert (Hr : is_ok (resolve_access (access_token writer) (access_region writer)
                          context) = true).
    { unfold configure in H. unfold resolve_access.
      destruct (String.eqb (access_token writer) ""); [|reflexivity].
      destruct (_get_access_token_from_credentials_configuration context) as [t|e'];
        simpl in *; [|discriminate].
      now destruct (split ":" t) as [|a [|b [|c l]]]. }
    destruct s as [sheet|].
    + destruct (execute_events py writer context df sheet Hr) as [evs [E _]].
      rewrite E. eauto.
    + rewrite execute_no_sheet by exact Hr. eauto.
  - intros e src. unfold Reader.configure, Reader.execute, resolve_access.
    destruct (String.eqb (Reader.access_token reader) ""); [|discriminate].
    destruct (_get_access_token_from_credentials_configuration context) as [t|e'];
      simpl; [discriminate|].
    intro H. now inversion H.
  - intros src H. unfold Reader.configure in H. unfold Reader.execute, resolve_access.
    destruct (String.eqb (Reader.access_token reader) ""); [|simpl; eauto].
    destruct (_get_access_token_from_credentials_configuration context) as [t|e'];
      simpl in *; [|discriminate].
    destruct (split ":" t) as [|a [|b [|c l]]]; simpl; eauto.
Qed.

(** ** The two dictionaries of the index *)

Lemma data_ids_flat (K : list SyncRef) (L : list (Row * Cell)) (id : RowId) (row : Row) :
  dict_get Z.eqb (output_data_to_be_synced (index_of_cells K L)) id = Some row ->
  row_id row = id /\ exists rc, In rc L /\ fst rc = row.
Proof.
  induction L as [|rc L IH] using rev_ind; [discriminate|].
  rewrite index_of_snoc, record_reference_eq.
  destruct (py_in (ref_value rc) K); simpl.
  - rewrite (dict_get_set Z.eqb Z.eqb_sym Z_eqb_congr).
    destruct (Z.eqb (row_id (fst rc)) id) eqn:E.
    + intro H. inversion H; subst. apply Z.eqb_eq in E. split; [exact E|].
      exists rc. rewrite in_app_iff. simpl. auto.
    + intro H. destruct (IH H) as [H1 [rc' [H2 H3]]]. split; [exact H1|].
      exists rc'. rewrite in_app_iff. auto.
  - intro H. destruct (IH H) as [H1 [rc' [H2 H3]]]. split; [exact H1|].
    exists rc'. rewrite in_app_iff. auto.
Qed.

(** X5 -- the two dictionaries of the index agree: a matched key is an
    input key, its row id is the id of a row of the sheet that carries the
    key, and the row stored under that id is a row of the sheet with that
    id, so the update loop always finds its target row. *)
Theorem matched_rows_are_rows_of_the_sheet
  (input_references : list SyncRef) (ref_column_id : ColumnId)
  (sheet_rows : list Row) (k : SyncRef) (id : RowId) :
  In (k, id)
     (output_ref_to_be_synced
        (reference_index input_references ref_column_id sheet_rows)) ->
  py_in k input_references = true
  /\ (exists row, In row sheet_rows /\ row_id row = id
                  /\ carries ref_column_id k row = true)
  /\ (exists target,
        dict_getitem Z.eqb
          (output_data_to_be_synced
             (reference_index input_references ref_column_id sheet_rows)) id
        = Ok target
        /\ In target sheet_rows /\ row_id target = id).
Proof.
  rewrite reference_index_flat. intro Hin.
  fold (index_of_cells input_references (reference_cells ref_column_id sheet_rows)) in *.
  split; [|split].
  - apply (synced_keys_flat input_references
             (reference_cells ref_column_id sheet_rows) k).
    apply in_map_iff. exists (k, id). auto.
  - destruct (synced_values_flat _ _ _ _ Hin) as [rc [Hrc [Hid E]]].
    apply reference_cells_origin in Hrc. destruct Hrc as [H1 [H2 H3]].
    exists (fst rc). repeat split; auto.
    unfold carries. apply existsb_exists. exists (snd rc). split; [exact H2|].
    rewrite H3. exact E.
  - destruct (synced_data_flat input_references
                (reference_cells ref_column_id sheet_rows)) as [D _].
    destruct (D k id Hin) as [row Hrow]. exists row.
    unfold dict_getitem. rewrite Hrow. split; [reflexivity|].
    apply data_ids_flat in Hrow. destruct Hrow as [H1 [rc [H2 H3]]].
    apply reference_cells_origin in H2. destruct H2 as [H2 _]. subst row. auto.
Qed.

Lemma matched_rows_are_rows_of_the_sheet_witness :
  py_in (PStr "A") [PStr "A"; PStr "B"] = true
  /\ (exists row, In row (rows Example.sheet_with_duplicates) /\ row_id row = 102
                  /\ carries 10 (PStr "A") row = true)
  /\ (exists target,
        dict_getitem Z.eqb
          (output_data_to_be_synced
             (reference_index [PStr "A"; PStr "B"] 10
                (rows Example.sheet_with_duplicates))) 102
        = Ok target
        /\ In target (rows Example.sheet_with_duplicates) /\ row_id target = 102).
Proof.
  refine (matched_rows_are_rows_of_the_sheet [PStr "A"; PStr "B"] 10
            (rows Example.sheet_with_duplicates) (PStr "A") 102 _).
  vm_compute. left. reflexivity.
Defined.

(** ** A run that clears the sheet first *)

Lemma df_column_length (df : DataFrame) (t : ColumnTitle) :
  List.length (df_column df t) = List.length (df_rows df).
Proof. unfold df_column. apply length_map. Qed.

Lemma missing_refs_of_empty_sheet (self : SmartsheetWriterNode) (df : DataFrame)
  (cs : list Column) (rid : ColumnId) :
  missing_refs self df {| columns := cs; rows := [] |} rid
  = df_column df (referenceColumn self).
Proof.
  unfold missing_refs, output_ref_missing, plan. simpl.
  induction (df_column df (referenceColumn self)) as [|k l IH]; simpl;
    [reflexivity | now rewrite IH].
Qed.

(** X6 -- with the clear-sheet-first flag set, the plan is computed on the
    emptied sheet: no update is ever sent, the report counts no matching and
    no old reference and as many new references as the table has rows, and
    a batch of new rows holds one row for every row of the table.  When the
    run gets its token, the store is left with the columns of the sheet and
    none of its former rows. *)
Theorem clear_first_inserts_every_key (py : builtins) (self : SmartsheetWriterNode)
  (context : Context) (input_pandas : DataFrame) (sheet : Sheet) :
  clearFirst self = true ->
  let w' := fst (execute py self context input_pandas (fresh (Some sheet))) in
  (forall sheet_id sent, ~ In (UpdateRows sheet_id sent) (trace w'))
  /\ (forall matching new new_action old old_action,
        In (InfoSync matching new new_action old old_action) (trace w') ->
        matching = O /\ old = O /\ new = List.length (df_rows input_pandas))
  /\ (forall sheet_id sent,
        In (AddRows sheet_id sent) (trace w') ->
        List.length sent = List.length (df_rows input_pandas))
  /\ (is_ok (resolve_access (access_token self) (access_region self) context) = true ->
      remote w' = Some {| columns := columns sheet; rows := [] |}).
Proof.
  intros Hc w'. unfold w'.
  assert (Hs : cleared self sheet = {| columns := columns sheet; rows := [] |})
    by (unfold cleared; now rewrite Hc).
  split; [|split; [|split]].
  - intros sheet_id sent Hin. apply sent_in_run in Hin; [|reflexivity].
    destruct Hin as [rid [_ [_ [_ [Hne Hup]]]]].
    rewrite Hs in Hup. unfold updated_rows, plan in Hup. simpl in Hup.
    inversion Hup. congruence.
  - intros matching new new_action old old_action Hin.
    apply execute_event_cases in Hin.
    destruct Hin as [Hin | [Hin | [rid [_ [_ Hin]]]]]; [discriminate| |].
    + apply clearing_events_cases in Hin.
      destruct Hin as [_ [Hin | [ids Hin]]]; discriminate.
    + simpl in Hin. destruct Hin as [-> [-> [_ [-> _]]]].
      rewrite Hs, missing_refs_of_empty_sheet, df_column_length. auto.
  - intros sheet_id sent Hin. apply sent_in_run in Hin; [|reflexivity].
    destruct Hin as [rid [_ [_ [_ [_ [_ Hnew]]]]]].
    unfold new_rows in Hnew. apply mapM_Forall2, Forall2_length in Hnew.
    rewrite Hs, missing_refs_of_empty_sheet, df_column_length in Hnew. auto.
  - intro Hr. rewrite (execute_run py self context input_pandas sheet Hr).
    destruct (synchronize_events py self input_pandas (cleared self sheet)
                {| remote := Some (cleared self sheet);
                   trace := GetSheet (sheetId self) :: clearing_events self sheet |})
      as [evs [E _]].
    rewrite E. simpl. now rewrite Hs.
Qed.

Lemma clear_first_inserts_every_key_witness :
  remote (fst (execute Ascii_builtins.plain (Example.node "ref" true true)
                 Example.no_credentials Example.table (fresh (Some Example.sheet))))
  = Some {| columns := columns Example.sheet; rows := [] |}.
Proof.
  exact (proj2 (proj2 (proj2 (clear_first_inserts_every_key Ascii_builtins.plain
                                (Example.node "ref" true true) Example.no_credentials
                                Example.table Example.sheet eq_refl))) eq_refl).
Defined.

(** ** The calls that write *)

Lemma synchronize_writes (py : builtins) (self : SmartsheetWriterNode)
  (input_pandas : DataFrame) (sheet : Sheet) (w : world) :
  exists u a,
    filter is_write (trace (fst (synchronize py self input_pandas sheet w)))
    = filter is_write (trace w) ++ u ++ a
    /\ (u = [] \/ exists sent, sent <> [] /\ u = [UpdateRows (sheetId self) sent])
    /\ (a = [] \/ exists sent, sent <> [] /\ addMissingRefs self = true
                               /\ a = [AddRows (sheetId self) sent]).
Proof.
  assert (Hnone : forall w0 : world,
            exists u a,
              filter is_write (trace w0) = filter is_write (trace w0) ++ u ++ a
              /\ (u = [] \/ exists sent, sent <> [] /\ u = [UpdateRows (sheetId self) sent])
              /\ (a = [] \/ exists sent, sent <> [] /\ addMissingRefs self = true
                                         /\ a = [AddRows (sheetId self) sent])).
  { intro w0. exists [], []. rewrite app_nil_r. auto. }
  unfold synchronize.
  destruct (negb (str_in (referenceColumn self) (df_columns input_pandas)));
    [apply Hnone|].
  destruct (negb (dict_mem String.eqb (title_ids sheet) (referenceColumn self)));
    [apply Hnone|].
  unfold bindM at 1, lift, dict_getitem.
  destruct (dict_get String.eqb (title_ids sheet) (referenceColumn self)) as [rid|];
    [|apply Hnone].
  unfold bindM at 1, emit. unfold bindM at 1.
  set (info := InfoSync _ _ _ _ _).
  assert (Hinfo : filter is_write (trace w ++ [info]) = filter is_write (trace w)).
  { rewrite filter_app. simpl. apply app_nil_r. }
  destruct (updated_rows py self input_pandas sheet rid) as [updated|e].
  2:{ exists [], []. simpl. rewrite Hinfo, app_nil_r. auto. }
  unfold bindM at 1.
  destruct updated as [|u us]; simpl.
  - unfold ret at 1. destruct (addMissingRefs self) eqn:Ea.
    + unfold bindM.
      destruct (new_rows py self input_pandas sheet rid) as [new|e].
      2:{ exists [], []. simpl. rewrite Hinfo, app_nil_r. auto. }
      destruct new as [|n ns]; simpl.
      * exists [], []. rewrite Hinfo, app_nil_r. auto.
      * exists [], [AddRows (sheetId self) (n :: ns)]. rewrite filter_app, Hinfo.
        simpl. split; [reflexivity|]. split; [auto|]. right.
        exists (n :: ns). repeat split; auto. discriminate.
    + exists [], []. simpl. rewrite Hinfo, app_nil_r. auto.
  - assert (Hu : exists sent, sent <> [] /\ [UpdateRows (sheetId self) (u :: us)]
                                           = [UpdateRows (sheetId self) sent]).
    { exists (u :: us). split; [discriminate | reflexivity]. }
    destruct (addMissingRefs self) eqn:Ea.
    + unfold bindM.
      destruct (new_rows py self input_pandas sheet rid) as [new|e].
      2:{ exists [UpdateRows (sheetId self) (u :: us)], []. simpl.
          rewrite filter_app, Hinfo. simpl. auto. }
      destruct new as [|n ns]; simpl.
      * exists [UpdateRows (sheetId self) (u :: us)], [].
        rewrite filter_app, Hinfo. simpl. auto.
      * exists [UpdateRows (sheetId self) (u :: us)], [AddRows (sheetId self) (n :: ns)].
        rewrite !filter_app. simpl. rewrite app_nil_r, <- app_assoc.
        split; [reflexivity|]. split; [auto|]. right.
        exists (n :: ns). repeat split; auto. discriminate.
    + exists [UpdateRows (sheetId self) (u :: us)], []. simpl.
      rewrite filter_app, Hinfo. simpl. auto.
Qed.

Lemma clearing_events_write_nothing (self : SmartsheetWriterNode) (sheet : Sheet) :
  filter is_write (clearing_events self sheet) = [].
Proof.
  unfold clearing_events. destruct (clearFirst self); [|reflexivity].
  rewrite filter_app. simpl. rewrite app_nil_r.
  induction (pages page_size (map row_id (rows sheet))) as [|b l IH]; simpl; auto.
Qed.

(** X7 -- a run sends at most one batch of updates and at most one batch of
    new rows, the updates first; both go to the sheet of the node, neither
    is ever empty, and new rows are sent only when insertion is enabled. *)
Theorem write_calls_of_a_run (py : builtins) (self : SmartsheetWriterNode)
  (context : Context) (input_pandas : DataFrame) (s : option Sheet) :
  exists u a,
    filter is_write (trace (fst (execute py self context input_pandas (fresh s))))
    = u ++ a
    /\ (u = [] \/ exists sent, sent <> [] /\ u = [UpdateRows (sheetId self) sent])
    /\ (a = [] \/ exists sent, sent <> [] /\ addMissingRefs self = true
                               /\ a = [AddRows (sheetId self) sent]).
Proof.
  destruct (is_ok (resolve_access (access_token self) (access_region self) context))
    eqn:Hr.
  - destruct s as [sheet|].
    + rewrite (execute_run py self context input_pandas sheet Hr).
      destruct (synchronize_writes py self input_pandas (cleared self sheet)
                  {| remote := Some (cleared self sheet);
                     trace := GetSheet (sheetId self) :: clearing_events self sheet |})
        as [u [a [E H]]].
      exists u, a. rewrite E. simpl. now rewrite clearing_events_write_nothing.
    + rewrite execute_no_sheet by exact Hr. exists [], []. auto.
  - rewrite execute_without_token by exact Hr. exists [], []. auto.
Qed.

(** ** The values that are sent *)

Lemma filter_mapM_Forall2_ok {A B : Type} (f : A -> result (option B)) (p : A -> bool)
  (Q : A -> B -> Prop) (l : list A) (bs : list B) :
  (forall a, f a = Ok None -> p a = false) ->
  (forall a b, f a = Ok (Some b) -> p a = true /\ Q a b) ->
  filter_mapM f l = Ok bs -> Forall2 Q (filter p l) bs.
Proof.
  intros Hn Hs. revert bs. induction l as [|a l IH]; simpl; intros bs H.
  - inversion H. constructor.
  - destruct (f a) as [o|] eqn:E; simpl in H; [|discriminate].
    destruct (filter_mapM f l) as [bs'|]; simpl in H; [|discriminate].
    inversion H; subst. destruct o as [b|].
    + destruct (Hs a b E) as [-> HQ]. constructor; auto.
    + rewrite (Hn a E). auto.
Qed.

(** Moving the reference column to the index leaves the other values where
    their titles find them. *)
Lemma row_value_indexed (cols : list ColumnTitle) (vals : list scalar)
  (refcol t : ColumnTitle) :
  t <> refcol ->
  row_value (remove_title cols refcol) (drop_column cols vals refcol) t
  = row_value cols vals t.
Proof.
  intro Hne. revert vals. induction cols as [|c cs IH]; intro vals; simpl; [reflexivity|].
  destruct (String.eqb c refcol) eqn:E.
  - apply String.eqb_eq in E. subst c.
    destruct (String.eqb refcol t) eqn:E'; [|reflexivity].
    apply String.eqb_eq in E'. now elim Hne.
  - simpl. destruct (String.eqb c t); [reflexivity | apply IH].
Qed.

Lemma set_index_origin (df : DataFrame) (t : ColumnTitle) (s : Series) :
  In s (set_index df t) -> str_in t (df_columns df) = true ->
  exists vals,
    In vals (df_rows df)
    /\ row_value (df_columns df) vals t = Some (name s)
    /\ index s = remove_title (df_columns df) t
    /\ series_values s = drop_column (df_columns df) vals t.
Proof.
  unfold set_index. intros H Ht. apply in_map_iff in H. destruct H as [vals [<- Hv]].
  exists vals. simpl. repeat split; auto.
  destruct (row_value_some (df_columns df) vals t Ht) as [v ->]. reflexivity.
Qed.

(** What [loc] returns comes from a row that carries the label. *)
Lemma loc_origin (indexed : list Series) (k : scalar) (src : loc_result) :
  loc indexed k = Ok src ->
  exists s, In s indexed /\ label_eq (name s) k = true
            /\ (forall s', src = LocRow s' -> s' = s).
Proof.
  unfold loc. intro H.
  destruct (filter (fun s => label_eq (name s) k) indexed) as [|s0 l] eqn:F;
    [discriminate|].
  assert (Hin : In s0 (filter (fun s => label_eq (name s) k) indexed))
    by (rewrite F; now left).
  apply filter_In in Hin. exists s0. repeat split; try tauto.
  intros s' ->. destruct l; now inversion H.
Qed.

Section Sent_values.

Variable py : builtins.
Variable refcol : ColumnTitle.
Variable input_columns : list ColumnTitle.
Variable names : dict ColumnId ColumnTitle.
Variable types : dict ColumnId ColumnType.

Lemma updated_cell_for_none (src : loc_result) (old_cell : Cell) :
  updated_cell_for py refcol input_columns names types src old_cell = Ok None ->
  is_synced_cell names refcol input_columns old_cell = false.
Proof.
  unfold updated_cell_for, is_synced_cell, dict_getitem.
  destruct (dict_get Z.eqb names (column_id old_cell)) as [title|]; simpl; [|discriminate].
  destruct (str_in title (synced_columns refcol input_columns)); [|reflexivity].
  destruct (getitem src title) as [v|]; simpl; [|discriminate].
  destruct (dict_get Z.eqb types (column_id old_cell)) as [ty|]; simpl; [|discriminate].
  destruct (cell_value_of py v ty); simpl; discriminate.
Qed.

Lemma updated_cell_for_value (src : loc_result) (old_cell c : Cell) :
  updated_cell_for py refcol input_columns names types src old_cell = Ok (Some c) ->
  is_synced_cell names refcol input_columns old_cell = true
  /\ column_id c = column_id old_cell
  /\ exists s title v ty,
       src = LocRow s
       /\ dict_get Z.eqb names (column_id old_cell) = Some title
       /\ title <> refcol
       /\ row_value (index s) (series_values s) title = Some v
       /\ dict_get Z.eqb types (column_id old_cell) = Some ty
       /\ get_smartsheet_cell_value py v ty = Ok (value c).
Proof.
  unfold updated_cell_for, is_synced_cell, dict_getitem.
  destruct (dict_get Z.eqb names (column_id old_cell)) as [title|]; simpl; [|discriminate].
  destruct (str_in title (synced_columns refcol input_columns)) eqn:Es; [|discriminate].
  apply synced_columns_in in Es. destruct Es as [_ Hne].
  destruct src as [s|ix rs]; simpl.
  - destruct (row_value (index s) (series_values s) title) as [v|] eqn:Ev; simpl;
      [|discriminate].
    destruct (dict_get Z.eqb types (column_id old_cell)) as [ty|]; simpl; [|discriminate].
    destruct (get_smartsheet_cell_value py v ty) as [cv|] eqn:Ec; simpl; [|discriminate].
    intro H. inversion H; subst. simpl. repeat split.
    exists s, title, v, ty. auto 10.
  - destruct (str_in title ix); simpl; [|discriminate].
    destruct (dict_get Z.eqb types (column_id old_cell)); simpl; discriminate.
Qed.

Lemma new_cell_for_none (src : loc_result) (item : ColumnTitle * ColumnId) :
  new_cell_for py refcol input_columns types src item = Ok None ->
  str_in (fst item) input_columns = false.
Proof.
  intro H. destruct (str_in (fst item) input_columns) eqn:E; [|reflexivity].
  now elim (new_cell_for_kept py refcol input_columns types src item E).
Qed.

Lemma new_cell_for_value (src : loc_result) (item : ColumnTitle * ColumnId) (c : Cell) :
  new_cell_for py refcol input_columns types src item = Ok (Some c) ->
  str_in (fst item) input_columns = true
  /\ column_id c = snd item
  /\ exists s, src = LocRow s
     /\ (fst item <> refcol ->
         exists v ty,
           row_value (index s) (series_values s) (fst item) = Some v
           /\ dict_get Z.eqb types (snd item) = Some ty
           /\ get_smartsheet_cell_value py v ty = Ok (value c)).
Proof.
  unfold new_cell_for. destruct item as [t i]. simpl.
  destruct (str_in t input_columns); [|discriminate].
  destruct src as [s|ix rs].
  - destruct (String.eqb t refcol) eqn:E; simpl.
    + unfold dict_getitem.
      destruct (dict_get Z.eqb types i) as [ty|]; simpl; [|discriminate].
      destruct (get_smartsheet_cell_value py (name s) ty) as [cv|]; simpl; [|discriminate].
      intro H. inversion H; subst. simpl. repeat split. exists s. split; [reflexivity|].
      intro Hne. apply String.eqb_eq in E. contradiction.
    + destruct (row_value (index s) (series_values s) t) as [v|] eqn:Ev; simpl;
        [|discriminate].
      unfold dict_getitem.
      destruct (dict_get Z.eqb types i) as [ty|]; simpl; [|discriminate].
      destruct (get_smartsheet_cell_value py v ty) as [cv|] eqn:Ec; simpl; [|discriminate].
      intro H. inversion H; subst. simpl. repeat split. exists s. split; [reflexivity|].
      intros _. exists v, ty. auto.
  - destruct (String.eqb t refcol); simpl; [discriminate|].
    destruct (str_in t ix); simpl; [|discriminate].
    destruct (dict_getitem Z.eqb types i); simpl; discriminate.
Qed.

End Sent_values.





(** ** Duplicate keys in the input *)

Lemma mapM_raises {A B : Type} (f : A -> result B) (l : list A) (a : A) :
  In a l -> is_ok (f a) = false -> is_ok (mapM f l) = false.
Proof.
  induction l as [|a0 l IH]; simpl; [tauto|]. intros [-> | Hin] Hf.
  - destruct (f a); [discriminate | reflexivity].
  - destruct (f a0); [|reflexivity]. simpl.
    specialize (IH Hin Hf). destruct (mapM f l); [discriminate | reflexivity].
Qed.

Lemma filter_mapM_raises {A B : Type} (f : A -> result (option B)) (l : list A) (a : A) :
  In a l -> is_ok (f a) = false -> is_ok (filter_mapM f l) = false.
Proof.
  induction l as [|a0 l IH]; simpl; [tauto|]. intros [-> | Hin] Hf.
  - destruct (f a); [discriminate | reflexivity].
  - destruct (f a0); [|reflexivity]. simpl.
    specialize (IH Hin Hf). destruct (filter_mapM f l); [discriminate | reflexivity].
Qed.

(** A label carried by two rows or more is answered by a frame. *)
Lemma loc_frame (indexed : list Series) (k : scalar) :
  (2 <= List.length (filter (fun s => label_eq (name s) k) indexed))%nat ->
  exists ix rs, loc indexed k = Ok (LocFrame ix rs).
Proof.
  unfold loc. intro H.
  destruct (filter (fun s => label_eq (name s) k) indexed) as [|s0 [|s1 l]];
    simpl in H; try lia. eauto.
Qed.

(** On a frame, the cell of the reference column cannot be built: the
    attribute [name] that the code reads belongs to a row. *)
Lemma new_row_for_frame (py : builtins) (refcol : ColumnTitle)
  (input_columns : list ColumnTitle) (indexed : list Series)
  (output_columns : dict ColumnTitle ColumnId) (types : dict ColumnId ColumnType)
  (k : SyncRef) (ref_column_id : ColumnId) :
  (2 <= List.length (filter (fun s => label_eq (name s) k) indexed))%nat ->
  dict_get String.eqb output_columns refcol = Some ref_column_id ->
  str_in refcol input_columns = true ->
  is_ok (new_row_for py refcol input_columns indexed output_columns types k) = false.
Proof.
  intros Hk Hget Hin. unfold new_row_for.
  destruct (loc_frame indexed k Hk) as [ix [rs ->]]. simpl.
  apply dict_get_in in Hget. destruct Hget as [t [Hitem Ht]].
  apply String.eqb_eq in Ht. subst t.
  assert (Hc : is_ok (filter_mapM
                        (new_cell_for py refcol input_columns types (LocFrame ix rs))
                        output_columns) = false).
  { eapply filter_mapM_raises; [exact Hitem|].
    unfold new_cell_for. simpl. rewrite Hin, String.eqb_refl. reflexivity. }
  destruct (filter_mapM _ output_columns); [discriminate | reflexivity].
Qed.

Lemma synchronize_raises_on_new (py : builtins) (self : SmartsheetWriterNode)
  (input_pandas : DataFrame) (sheet : Sheet) (ref_column_id : ColumnId) (w : world) :
  addMissingRefs self = true ->
  str_in (referenceColumn self) (df_columns input_pandas) = true ->
  dict_get String.eqb (title_ids sheet) (referenceColumn self) = Some ref_column_id ->
  is_ok (new_rows py self input_pandas sheet ref_column_id) = false ->
  is_ok (snd (synchronize py self input_pandas sheet w)) = false.
Proof.
  intros Hadd Hin Hget Hnew. unfold synchronize. rewrite Hin. simpl.
  rewrite (dict_mem_get String.eqb), Hget. simpl.
  unfold dict_getitem. rewrite Hget, Hadd. unfold bindM, lift, emit. simpl.
  destruct (updated_rows py self input_pandas sheet ref_column_id) as [up|];
    [|reflexivity].
  destruct (0 <? List.length up)%nat; unfold update_rows, emit, ret; simpl;
    destruct (new_rows py self input_pandas sheet ref_column_id);
    try discriminate; reflexivity.
Qed.

(** X10 -- as the description of the node announces, a duplicated key in the
    input is an error: when insertion is enabled and a key that no row of
    the sheet carries occurs in two rows of the input or more, the run ends
    with an exception. *)
Theorem duplicated_key_to_insert_raises (py : builtins)
  (self : SmartsheetWriterNode) (context : Context) (input_pandas : DataFrame)
  (sheet : Sheet) (ref_column_id : ColumnId) (key : SyncRef) :
  is_ok (resolve_access (access_token self) (access_region self) context) = true ->
  addMissingRefs self = true ->
  str_in (referenceColumn self) (df_columns input_pandas) = true ->
  dict_get String.eqb (title_ids sheet) (referenceColumn self) = Some ref_column_id ->
  In key (missing_refs self input_pandas (cleared self sheet) ref_column_id) ->
  (2 <= label_count input_pandas (referenceColumn self) key)%nat ->
  is_ok (snd (execute py self context input_pandas (fresh (Some sheet)))) = false.
Proof.
  intros Htok Hadd Hin Hget Hkey Hdup.
  rewrite execute_run by exact Htok.
  apply (synchronize_raises_on_new py self input_pandas (cleared self sheet)
           ref_column_id); auto.
  - now rewrite cleared_title_ids.
  - unfold new_rows. eapply mapM_raises; [exact Hkey|].
    apply new_row_for_frame with (ref_column_id := ref_column_id).
    + exact Hdup.
    + now rewrite cleared_title_ids.
    + exact Hin.
Qed.

Lemma duplicated_key_to_insert_raises_witness :
  is_ok (snd (execute Ascii_builtins.plain (Example.node "ref" true true)
                Example.no_credentials Example.table_with_duplicates
                (fresh (Some Example.sheet)))) = false.
Proof.
  apply (duplicated_key_to_insert_raises Ascii_builtins.plain
           (Example.node "ref" true true) Example.no_credentials
           Example.table_with_duplicates Example.sheet 10 (PStr "A")).
  - reflexivity.
  - reflexivity.
  - reflexivity.
  - reflexivity.
  - vm_compute. left. reflexivity.
  - vm_compute. lia.
Defined.

(** * Properties of the reader *)

(** ** The requests *)

Lemma page_numbers_1000 (n : nat) :
  Reader.page_numbers (Z.of_nat n) 1000 = seq 1 (Nat.max 1 ((n + 999) / 1000)).
Proof.
  unfold Reader.page_numbers. rewrite seq_shift. f_equal.
  destruct n as [|n].
  - reflexivity.
  - replace (Z.of_nat (S n) - 1)%Z with (Z.of_nat n) by lia.
    rewrite Z.quot_div_nonneg by lia.
    replace (S n + 999)%nat with (n + 1 * 1000)%nat by lia.
    rewrite Nat.div_add by lia.
    change 1000%Z with (Z.of_nat 1000). rewrite <- Nat2Z.inj_div. lia.
Qed.

(** X11 -- without a token the reader asks nothing of the store.  With one,
    it first asks for page 1 with one row a page, publishes the name of the
    sheet as the flow variable, and then asks for the pages 1, 2, ... of 1000
    rows: as many as the number of rows announced by the first answer
    requires, and one page when the sheet is empty.  Every request of a
    report includes the source sheets. *)
Theorem reader_requests
  (astype : DataFrame -> ColumnTitle -> Reader.dtype -> result DataFrame)
  (self : Reader.SmartsheetReaderNode) (exec_context : Context) (src : Reader.Source) :
  match resolve_access (Reader.access_token self) (Reader.access_region self)
                       exec_context with
  | Raise e =>
      Reader.execute astype self exec_context src
      = {| Reader.requests := []; Reader.source_name_variable := None;
           Reader.outcome := Raise e |}
  | Ok _ =>
      let ask := fun page_size page =>
                   if Reader.sheetIsReport self
                   then Reader.GetReportPage (Reader.sheetId self) ["sourceSheets"]
                                             page_size page
                   else Reader.GetSheetPage (Reader.sheetId self) page_size page in
      Reader.requests (Reader.execute astype self exec_context src)
      = ask 1%nat 1%nat
        :: map (ask 1000%nat)
               (seq 1 (Nat.max 1 ((List.length (Reader.src_rows src) + 999) / 1000)))
      /\ Reader.source_name_variable (Reader.execute astype self exec_context src)
         = Some (Reader.src_name src)
  end.
Proof.
  unfold Reader.execute.
  destruct (resolve_access _ _ _) as [acc|e]; [|reflexivity].
  simpl. split; [|reflexivity]. f_equal.
  rewrite page_numbers_1000, map_map. reflexivity.
Qed.

(** ** The rows that are read *)

(** The pages of [size] rows, taken one after the other, are the list. *)
Lemma fetched_pages_cover {A : Type} (size : nat) (l : list A) (k : nat) :
  (List.length l <= k * size)%nat ->
  flat_map (fun i => firstn size (skipn (i * size) l)) (seq 0 k) = l.
Proof.
  revert l. induction k as [|k IH]; intros l H.
  - simpl in H. destruct l; [reflexivity | simpl in H; lia].
  - transitivity (firstn size l ++ skipn size l); [|apply firstn_skipn].
    simpl. f_equal.
    rewrite <- seq_shift, flat_map_concat_map, map_map, <- flat_map_concat_map.
    transitivity (flat_map (fun i => firstn size (skipn (i * size) (skipn size l)))
                           (seq 0 k)).
    + apply flat_map_ext. intro i. f_equal. rewrite skipn_skipn. f_equal. lia.
    + apply IH. rewrite length_skipn. simpl in H. lia.
Qed.

Lemma max_of_uniform (w : nat) (l : list nat) :
  l <> [] -> (forall x, In x l -> x = w) -> fold_right Nat.max O l = w.
Proof.
  induction l as [|x l IH]; [congruence|]. intros _ H. simpl.
  rewrite (H x (or_introl eq_refl)).
  destruct l as [|y l]; [simpl; lia|].
  rewrite IH; [lia | discriminate | intros z Hz; apply H; now right].
Qed.

Lemma pad_full (w : nat) (fill : scalar) (r : list scalar) :
  List.length r = w -> Reader.pad w fill r = r.
Proof.
  intros <-. unfold Reader.pad. rewrite Nat.sub_diag. simpl. apply app_nil_r.
Qed.

Lemma map_pad_full (w : nat) (fill : scalar) (rs : list (list scalar)) :
  (forall r, In r rs -> List.length r = w) -> map (Reader.pad w fill) rs = rs.
Proof.
  intro H. rewrite <- (map_id rs) at 2. apply map_ext_in.
  intros r Hr. apply pad_full. auto.
Qed.

(** The frame of rows of one length has that width and these rows. *)
Lemma frame_of_uniform (w : nat) (rs : list (list scalar)) :
  rs <> [] -> (forall r, In r rs -> List.length r = w) ->
  Reader.frame_of_rows rs = {| Reader.width := w; Reader.body := rs |}.
Proof.
  intros Hne H. unfold Reader.frame_of_rows.
  assert (Hw : fold_right Nat.max O (map (@List.length scalar) rs) = w).
  { apply max_of_uniform.
    - destruct rs; [congruence | discriminate].
    - intros x Hx. apply in_map_iff in Hx. destruct Hx as [r [<- Hr]]. auto. }
  rewrite Hw. f_equal. now apply map_pad_full.
Qed.

Lemma concat_uniform (w : nat) (dfs : list Reader.Frame) :
  dfs <> [] ->
  (forall f, In f dfs ->
             Reader.width f = w /\ forall r, In r (Reader.body f) -> List.length r = w) ->
  Reader.concat_frames dfs
  = Ok {| Reader.width := w; Reader.body := flat_map Reader.body dfs |}.
Proof.
  intros Hne H. unfold Reader.concat_frames.
  destruct dfs as [|f0 dfs0] eqn:E; [congruence|]. rewrite <- E in *.
  assert (Hw : fold_right Nat.max O (map Reader.width dfs) = w).
  { apply max_of_uniform.
    - rewrite E. discriminate.
    - intros x Hx. apply in_map_iff in Hx. destruct Hx as [f [<- Hf]].
      now apply H. }
  rewrite Hw. do 2 f_equal. rewrite !flat_map_concat_map. f_equal.
  apply map_ext_in. intros f Hf. apply map_pad_full. now apply H.
Qed.

Lemma last_page_columns (src : Reader.Source) (size : nat) (ps : list nat)
  (d : Reader.Page) :
  Reader.page_columns d = Reader.src_columns src ->
  Reader.page_columns (last (map (Reader.fetch src size) ps) d) = Reader.src_columns src.
Proof.
  intro Hd. induction ps as [|p ps IH]; [exact Hd|].
  simpl. destruct (map (Reader.fetch src size) ps) eqn:E; [reflexivity | exact IH].
Qed.

Lemma last_page_sources (src : Reader.Source) (size : nat) (ps : list nat)
  (d : Reader.Page) :
  Reader.page_source_sheets d = Reader.src_source_sheets src ->
  Reader.page_source_sheets (last (map (Reader.fetch src size) ps) d)
  = Reader.src_source_sheets src.
Proof.
  intro Hd. induction ps as [|p ps IH]; [exact Hd|].
  simpl. destruct (map (Reader.fetch src size) ps) eqn:E; [reflexivity | exact IH].
Qed.

(** The second table: empty for a sheet, one row a source sheet for a
    report, and refused for a report that names no source sheet. *)
Lemma sources_table_cases (self : Reader.SmartsheetReaderNode) (sheet : Reader.Page) :
  Reader.sources_table self sheet
  = if Reader.sheetIsReport self then
      match Reader.page_source_sheets sheet with
      | [] => Raise ValueError
      | ss => Ok {| df_columns := ["Sheet ID"; "Sheet Name"];
                    df_rows := map (fun s => [PInt (Reader.source_id s);
                                              PStr (Reader.source_name s)]) ss |}
      end
    else Ok {| df_columns := []; df_rows := [] |}.
Proof.
  unfold Reader.sources_table. destruct (Reader.sheetIsReport self); [|reflexivity].
  simpl. destruct (Reader.page_source_sheets sheet) as [|s ss] eqn:E; [reflexivity|].
  rewrite (frame_of_uniform 2).
  - reflexivity.
  - discriminate.
  - intros r Hr. apply in_map_iff in Hr. destruct Hr as [x [<- _]]. reflexivity.
Qed.

(** The frames of the pages of a sheet that has rows, put together. *)
Lemma pages_concatenated (src : Reader.Source) :
  Reader.src_rows src <> [] -> Reader.rectangular src ->
  Reader.concat_frames
    (map (fun p => Reader.frame_of_rows
                     (map Reader.row_values (Reader.page_rows (Reader.fetch src 1000 p))))
         (Reader.page_numbers (Z.of_nat (List.length (Reader.src_rows src))) 1000))
  = Ok {| Reader.width := List.length (Reader.src_columns src);
          Reader.body := map Reader.row_values (Reader.src_rows src) |}.
Proof.
  intros Hne Hrect.
  set (rows := Reader.src_rows src) in *. set (w := List.length (Reader.src_columns src)).
  set (n := List.length rows).
  assert (Hn : (1 <= n)%nat).
  { unfold n. destruct rows; [congruence | simpl; lia]. }
  rewrite page_numbers_1000. fold n.
  set (k := ((n + 999) / 1000)%nat).
  assert (Hk1 : (k * 1000 <= n + 999)%nat).
  { unfold k. rewrite Nat.mul_comm. apply Nat.Div0.mul_div_le. }
  assert (Hk2 : (n + 999 < (k + 1) * 1000)%nat).
  { unfold k. pose proof (Nat.mul_succ_div_gt (n + 999) 1000). lia. }
  assert (Hk : Nat.max 1 k = k) by lia. rewrite Hk.
  assert (Hchunk : forall p, In p (seq 1 k) ->
            Reader.frame_of_rows
              (map Reader.row_values (Reader.page_rows (Reader.fetch src 1000 p)))
            = {| Reader.width := w;
                 Reader.body := map Reader.row_values
                                    (firstn 1000 (skipn ((p - 1) * 1000) rows)) |}).
  { intros p Hp. apply in_seq in Hp. simpl. fold rows. apply frame_of_uniform.
    - assert (Hlen : (1 <= List.length (skipn ((p - 1) * 1000) rows))%nat).
      { rewrite length_skipn. fold n. nia. }
      destruct (skipn ((p - 1) * 1000) rows); [simpl in Hlen; lia | discriminate].
    - intros r Hr. apply in_map_iff in Hr. destruct Hr as [x [<- Hx]].
      unfold Reader.row_values. rewrite length_map. apply Hrect. fold rows.
      rewrite <- (firstn_skipn ((p - 1) * 1000) rows). apply in_or_app. right.
      rewrite <- (firstn_skipn 1000 (skipn ((p - 1) * 1000) rows)).
      apply in_or_app. now left. }
  rewrite (map_ext_in _ _ _ Hchunk).
  rewrite (concat_uniform w).
  - do 2 f_equal. rewrite flat_map_concat_map, map_map. simpl.
    transitivity (map Reader.row_values
                      (flat_map (fun i => firstn 1000 (skipn (i * 1000) rows)) (seq 0 k)));
      [|f_equal; apply fetched_pages_cover; fold n; lia].
    rewrite <- seq_shift. rewrite !flat_map_concat_map, !map_map, concat_map, map_map.
    f_equal. apply map_ext. intro i.
    replace (S i - 1)%nat with i by lia. reflexivity.
  - destruct k; [lia | discriminate].
  - intros f Hf. apply in_map_iff in Hf. destruct Hf as [p [<- Hp]]. simpl.
    split; [reflexivity|]. intros r Hr. apply in_map_iff in Hr.
    destruct Hr as [x [<- Hx]]. unfold Reader.row_values. rewrite length_map.
    apply Hrect. fold rows.
    rewrite <- (firstn_skipn ((p - 1) * 1000) rows). apply in_or_app. right.
    rewrite <- (firstn_skipn 1000 (skipn ((p - 1) * 1000) rows)).
    apply in_or_app. now left.
Qed.

(** X12 -- when the sheet has rows and every row has one cell per column,
    the table handed to the type inference has the titles of the columns as
    its columns and holds every row of the sheet, in the order of the sheet
    and whatever their number, each as the values of its cells; the second
    table is empty for a sheet, lists the id and the name of every source
    sheet for a report, and is refused for a report without source sheet. *)
Theorem reader_returns_every_row
  (astype : DataFrame -> ColumnTitle -> Reader.dtype -> result DataFrame)
  (self : Reader.SmartsheetReaderNode) (exec_context : Context) (src : Reader.Source) :
  is_ok (resolve_access (Reader.access_token self) (Reader.access_region self)
                        exec_context) = true ->
  Reader.src_rows src <> [] ->
  Reader.rectangular src ->
  Reader.outcome (Reader.execute astype self exec_context src)
  = (df <- Reader.infer_types astype (map col_title (Reader.src_columns src))
             {| df_columns := map col_title (Reader.src_columns src);
                df_rows := map Reader.row_values (Reader.src_rows src) |} ;;
     df_sheets <- (if Reader.sheetIsReport self then
                     match Reader.src_source_sheets src with
                     | [] => Raise ValueError
                     | ss => Ok {| df_columns := ["Sheet ID"; "Sheet Name"];
                                   df_rows := map (fun s => [PInt (Reader.source_id s);
                                                             PStr (Reader.source_name s)])
                                                  ss |}
                     end
                   else Ok {| df_columns := []; df_rows := [] |}) ;;
     Ok (df, df_sheets)).
Proof.
  intros Htok Hne Hrect. unfold Reader.execute.
  destruct (resolve_access _ _ _) as [acc|]; [|discriminate].
  cbv zeta. unfold Reader.get_page. cbn [Reader.outcome fst snd].
  rewrite !map_map. cbn [fst snd]. cbn [Reader.total_row_count Reader.fetch].
  change (fun x : nat =>
            Reader.frame_of_rows
              (map Reader.row_values
                 (firstn 1000 (skipn ((x - 1) * 1000) (Reader.src_rows src)))))
    with (fun p => Reader.frame_of_rows
                     (map Reader.row_values
                          (Reader.page_rows (Reader.fetch src 1000 p)))).
  rewrite (pages_concatenated src Hne Hrect).
  set (sheet := last _ _).
  assert (Hcols : Reader.page_columns sheet = Reader.src_columns src).
  { unfold sheet. apply (last_page_columns src 1000). reflexivity. }
  assert (Hsrc : Reader.page_source_sheets sheet = Reader.src_source_sheets src).
  { unfold sheet. apply (last_page_sources src 1000). reflexivity. }
  rewrite sources_table_cases, Hcols, Hsrc. simpl.
  unfold Reader.set_columns. simpl. rewrite length_map, Nat.eqb_refl. reflexivity.
Qed.

Lemma reader_returns_every_row_witness :
  Reader.outcome
    (Reader.execute (Reader.cast_column Ascii_builtins.plain)
       (Reader.example_node false) Example.no_credentials Reader.example_sheet)
  = Ok ({| df_columns := ["ref"; "x"];
           df_rows := [ [PStr "A"; PInt 1]; [PStr "B"; PInt 2]; [PStr "C"; PInt 3] ] |},
        {| df_columns := []; df_rows := [] |}).
Proof.
  rewrite (reader_returns_every_row (Reader.cast_column Ascii_builtins.plain)
             (Reader.example_node false) Example.no_credentials Reader.example_sheet).
  - reflexivity.
  - reflexivity.
  - discriminate.
  - intros r [<- | [<- | [<- | []]]]; reflexivity.
Defined.

(** X13 -- a sheet that has columns and no row cannot be read: the only page
    gives a frame without column, and naming its columns raises
    [ValueError]. *)
Theorem empty_sheet_cannot_be_read
  (astype : DataFrame -> ColumnTitle -> Reader.dtype -> result DataFrame)
  (self : Reader.SmartsheetReaderNode) (exec_context : Context) (src : Reader.Source) :
  is_ok (resolve_access (Reader.access_token self) (Reader.access_region self)
                        exec_context) = true ->
  Reader.src_rows src = [] ->
  Reader.src_columns src <> [] ->
  Reader.outcome (Reader.execute astype self exec_context src) = Raise ValueError.
Proof.
  intros Htok Hrows Hcols. destruct src as [nm cols rs ss]. simpl in Hrows, Hcols.
  subst rs. unfold Reader.execute.
  destruct (resolve_access _ _ _) as [acc|]; [|discriminate].
  destruct cols as [|c cs]; [congruence | reflexivity].
Qed.

Lemma empty_sheet_cannot_be_read_witness :
  Reader.outcome
    (Reader.execute (Reader.cast_column Ascii_builtins.plain)
       (Reader.example_node false) Example.no_credentials Reader.example_empty)
  = Raise ValueError.
Proof.
  apply (empty_sheet_cannot_be_read (Reader.cast_column Ascii_builtins.plain)
           (Reader.example_node false) Example.no_credentials Reader.example_empty).
  - reflexivity.
  - reflexivity.
  - discriminate.
Defined.

(** ** The inference of the types *)

Lemma string_casts_trans
  (astype : DataFrame -> ColumnTitle -> Reader.dtype -> result DataFrame)
  (a b c : DataFrame) :
  Reader.string_casts astype a b -> Reader.string_casts astype b c ->
  Reader.string_casts astype a c.
Proof.
  intros Hab Hbc. induction Hbc as [|d d' t _ IH Hf Hi Hs]; [exact Hab|].
  eapply Reader.casts_more; eauto.
Qed.

Lemma infer_column_cases
  (astype : DataFrame -> ColumnTitle -> Reader.dtype -> result DataFrame)
  (df : DataFrame) (t : ColumnTitle) :
  Reader.infer_column astype df t = Ok df
  \/ (is_ok (astype df t Reader.Float) = false
      /\ is_ok (astype df t Reader.Int64) = false
      /\ exists df', astype df t Reader.StringDtype = Ok df'
                     /\ Reader.infer_column astype df t = Ok df').
Proof.
  unfold Reader.infer_column.
  destruct (astype df t Reader.Float); simpl; [now left|].
  destruct (astype df t Reader.Int64); simpl; [now left|].
  destruct (astype df t Reader.StringDtype) as [df'|]; simpl; [|now left].
  right. eauto.
Qed.

(** X14 -- the inference of the types never fails and never keeps a cast to
    a number: the table it returns is the table that was read, changed only
    by casts of columns to strings, each made after the casts of that column
    to float and to int64 had failed.  A table in which every column can be
    cast to float or to int64 is returned as it was read. *)
Theorem inference_keeps_only_string_casts
  (astype : DataFrame -> ColumnTitle -> Reader.dtype -> result DataFrame)
  (titles : list ColumnTitle) (df : DataFrame) :
  (exists df', Reader.infer_types astype titles df = Ok df'
               /\ Reader.string_casts astype df df')
  /\ ((forall t, In t titles ->
                 is_ok (astype df t Reader.Float) = true
                 \/ is_ok (astype df t Reader.Int64) = true) ->
      Reader.infer_types astype titles df = Ok df).
Proof.
  split.
  - revert df. induction titles as [|t ts IH]; intro df; simpl.
    + exists df. split; [reflexivity | constructor].
    + destruct (infer_column_cases astype df t) as [-> | [Hf [Hi [d [Hs ->]]]]]; simpl.
      * apply IH.
      * destruct (IH d) as [df' [H1 H2]]. exists df'. split; [exact H1|].
        eapply string_casts_trans; [|exact H2].
        eapply Reader.casts_more; eauto. constructor.
  - induction titles as [|t ts IH]; intro H; simpl; [reflexivity|].
    assert (Ht : Reader.infer_column astype df t = Ok df).
    { unfold Reader.infer_column.
      destruct (H t (or_introl eq_refl)) as [Hf | Hi].
      - destruct (astype df t Reader.Float); [reflexivity | discriminate].
      - destruct (astype df t Reader.Float); [reflexivity|]. simpl.
        destruct (astype df t Reader.Int64); [reflexivity | discriminate]. }
    rewrite Ht. simpl. apply IH. intros t' Ht'. apply H. now right.
Qed.

(** ** Reports *)

(** X15 -- a report that names no source sheet cannot be read, whatever its
    rows: the table of the source sheets has no column to name. *)
Theorem report_without_source_sheets_cannot_be_read
  (astype : DataFrame -> ColumnTitle -> Reader.dtype -> result DataFrame)
  (self : Reader.SmartsheetReaderNode) (exec_context : Context) (src : Reader.Source) :
  Reader.sheetIsReport self = true ->
  Reader.src_source_sheets src = [] ->
  is_ok (Reader.outcome (Reader.execute astype self exec_context src)) = false.
Proof.
  intros Hrep Hsrc. unfold Reader.execute.
  destruct (resolve_access _ _ _) as [acc|]; [|reflexivity].
  cbv zeta. unfold Reader.get_page. cbn [Reader.outcome fst snd].
  rewrite !map_map. cbn [fst snd].
  set (sheet := last _ _).
  assert (Hs : Reader.page_source_sheets sheet = []).
  { unfold sheet. rewrite <- Hsrc. apply (last_page_sources src 1000). reflexivity. }
  rewrite sources_table_cases, Hrep, Hs.
  destruct (Reader.concat_frames _) as [f|]; simpl; [|reflexivity].
  destruct (Reader.set_columns _ f) as [d|]; simpl; [|reflexivity].
  destruct (Reader.infer_types astype _ d); reflexivity.
Qed.

Lemma report_without_source_sheets_cannot_be_read_witness :
  is_ok (Reader.outcome
           (Reader.execute (Reader.cast_column Ascii_builtins.plain)
              (Reader.example_node true) Example.no_credentials Reader.example_sheet))
  = false.
Proof.
  apply (report_without_source_sheets_cannot_be_read
           (Reader.cast_column Ascii_builtins.plain) (Reader.example_node true)
           Example.no_credentials Reader.example_sheet).
  - reflexivity.
  - reflexivity.
Defined.

(** * Further properties of the coercion *)

(** The rounding of an integer to binary64 is a number. *)
Lemma shr_1_nonneg (mrs : shr_record) :
  (0 <= shr_m mrs)%Z -> (0 <= shr_m (shr_1 mrs))%Z.
Proof.
  destruct mrs as [m r s]. destruct m as [|p|p]; simpl; intro H;
    try destruct p; simpl; lia.
Qed.

Lemma iter_shr_1_nonneg (p : positive) (mrs : shr_record) :
  (0 <= shr_m mrs)%Z -> (0 <= shr_m (iter_pos shr_1 p mrs))%Z.
Proof.
  revert mrs. induction p as [p IH|p IH|]; simpl; intros mrs H.
  - apply IH, IH, shr_1_nonneg, H.
  - apply IH, IH, H.
  - apply shr_1_nonneg, H.
Qed.

Lemma shr_fexp_nonneg (prec emax m e : Z) (l : location) :
  (0 <= m)%Z -> (0 <= shr_m (fst (shr_fexp prec emax m e l)))%Z.
Proof.
  intro H. unfold shr_fexp, shr.
  assert (H0 : (0 <= shr_m (shr_record_of_loc m l))%Z)
    by (destruct l as [|[]]; exact H).
  destruct (fexp prec emax (Zdigits2 m + e) - e)%Z; simpl; auto.
  now apply iter_shr_1_nonneg.
Qed.

Lemma round_nearest_even_nonneg (m : Z) (l : location) :
  (0 <= m)%Z -> (0 <= round_nearest_even m l)%Z.
Proof.
  intro H. destruct l as [|[]]; simpl; try destruct (Z.even m); lia.
Qed.

Lemma binary_round_aux_not_nan (prec emax : Z) (sx : bool) (mx ex : Z) (lx : location) :
  (0 <= mx)%Z -> binary_round_aux prec emax sx mx ex lx <> S754_nan.
Proof.
  intro H. unfold binary_round_aux.
  pose proof (shr_fexp_nonneg prec emax mx ex lx H) as H1.
  destruct (shr_fexp prec emax mx ex lx) as [mrs' e']. simpl in H1.
  pose proof (shr_fexp_nonneg prec emax
                (round_nearest_even (shr_m mrs') (loc_of_shr_record mrs')) e' loc_Exact
                (round_nearest_even_nonneg _ _ H1)) as H2.
  destruct (shr_fexp prec emax _ e' loc_Exact) as [mrs'' e'']. simpl in H2.
  destruct (shr_m mrs'') as [|m|m]; [discriminate| |lia].
  destruct (e'' <=? emax - prec)%Z; discriminate.
Qed.

Lemma float_of_int_equal_to_itself (z : Z) (f : spec_float) :
  float_of_int z = Ok f -> py_eq (PFloat f) (PFloat f) = true.
Proof.
  unfold float_of_int. intro H.
  assert (Hn : binary_normalize 53 1024 z 0 false <> S754_nan).
  { unfold binary_normalize. destruct z as [|p|p]; [discriminate| |];
      unfold binary_round;
      destruct (shl_align _ _ _) as [mz ez]; apply binary_round_aux_not_nan; lia. }
  assert (Hf : f <> S754_nan).
  { destruct (binary_normalize 53 1024 z 0 false); inversion H; subst; congruence. }
  apply py_eq_key. destruct f as [s|s| |s m e]; simpl; eauto. congruence.
Qed.

